(** * BankVaani: the RPC prompt bridge and the session / token routes

    A shallow embedding of

    - [components/app/session-view.tsx] (the pending-prompt slot, the three
      RPC handlers, the three UI handlers and the render of the overlay),
    - [app/api/auth/login/route.ts], [app/api/auth/logout/route.ts],
      [app/api/auth/signup/route.ts],
    - [app/api/connection-details/route.ts],
    - the login and signup pages, the logout button, the token source of
      [hooks/useConnection.tsx] and [hooks/useAuthUser.ts],

    together with the parts of the JavaScript runtime these functions call
    ([String.prototype.trim], [RegExp.prototype.test] for [/^[0-9]{4}$/],
    [JSON.parse], [JSON.stringify], the header rules of [fetch]), the
    MongoDB operations they issue ([findOne], [insertOne], [updateOne]),
    and the two ways in which livekit-server-sdk refuses to build a
    token. *)

From Stdlib Require Import List Bool Arith ZArith NArith Lia Sorted.
From Stdlib Require Import Ascii String DecimalString.
Import ListNotations.

Set Implicit Arguments.
Set Warnings "-register-all".
Set Warnings "-abstract-large-number".

(* ===================================================================== *)
(** ** JavaScript strings                                                 *)
(* ===================================================================== *)

Module JS.

Local Open Scope N_scope.

(** A JavaScript string is a sequence of UTF-16 code units. *)
Definition jsstring := list N.

(** ASCII text of the source, as code units. *)
Definition js (s : string) : jsstring :=
  map N_of_ascii (list_ascii_of_string s).

Definition jsstring_eqb (a b : jsstring) : bool :=
  if list_eq_dec N.eq_dec a b then true else false.

(** [!s] for a string: only the empty string is falsy. *)
Definition falsy (s : jsstring) : bool :=
  match s with [] => true | _ => false end.

(** [!v] for a value that is a string, [null] or [undefined]. *)
Definition falsy_opt (v : option jsstring) : bool :=
  match v with None => true | Some s => falsy s end.

(** [a || b] on strings. *)
Definition or_else (a b : jsstring) : jsstring :=
  if falsy a then b else a.

(** ECMAScript WhiteSpace and LineTerminator code points, the set that
    [String.prototype.trim] strips. *)
Definition is_white_space (c : N) : bool :=
  ((9 <=? c) && (c <=? 13))        (* TAB LF VT FF CR *)
  || (c =? 32)                     (* SPACE *)
  || (c =? 160)                    (* NBSP *)
  || (c =? 5760)                   (* U+1680 *)
  || ((8192 <=? c) && (c <=? 8202))(* U+2000 .. U+200A *)
  || (c =? 8232) || (c =? 8233)    (* LS PS *)
  || (c =? 8239)                   (* U+202F *)
  || (c =? 8287)                   (* U+205F *)
  || (c =? 12288)                  (* U+3000 *)
  || (c =? 65279)                  (* U+FEFF *).

Fixpoint trimStart (s : jsstring) : jsstring :=
  match s with
  | c :: r => if is_white_space c then trimStart r else s
  | [] => []
  end.

Definition trimEnd (s : jsstring) : jsstring := rev (trimStart (rev s)).

(** [s.trim()] *)
Definition trim (s : jsstring) : jsstring := trimEnd (trimStart s).

Definition is_digit (c : N) : bool := (48 <=? c) && (c <=? 57).

(** [/^[0-9]{4}$/.test(s)]: no flags, so [^] and [$] are the two ends of the
    input and the whole string is four ASCII digits. *)
Definition test_four_digits (s : jsstring) : bool :=
  match s with
  | [a; b; c; d] => is_digit a && is_digit b && is_digit c && is_digit d
  | _ => false
  end.

End JS.
Export JS.

(* ===================================================================== *)
(** ** JSON: the values, [JSON.stringify] and [JSON.parse]               *)
(* ===================================================================== *)

Module JSON.

Local Open Scope N_scope.

(** *** Serialisation

    Every call of [JSON.stringify] in the program is applied to an object
    literal whose properties are strings, the number [-1], or a variable
    that may be [undefined].  [jsval] is the type of those property values;
    an object literal is its list of properties in source order. *)
Inductive jsval : Type :=
| VUndefined
| VNumber (z : Z)
| VString (s : jsstring).

Definition hex_digit (n : N) : N := if n <? 10 then 48 + n else 87 + n.

(** [\uXXXX] with lower-case hexadecimal digits. *)
Definition unicode_escape (c : N) : jsstring :=
  [92; 117; hex_digit ((c / 4096) mod 16); hex_digit ((c / 256) mod 16);
   hex_digit ((c / 16) mod 16); hex_digit (c mod 16)].

Definition is_leading_surrogate (c : N) : bool := (55296 <=? c) && (c <=? 56319).
Definition is_trailing_surrogate (c : N) : bool := (56320 <=? c) && (c <=? 57343).

(** One code unit that is not part of a surrogate pair, as QuoteJSONString
    writes it. *)
Definition quote_unit (c : N) : jsstring :=
  if c =? 8 then [92; 98]             (* \b *)
  else if c =? 9 then [92; 116]       (* \t *)
  else if c =? 10 then [92; 110]      (* \n *)
  else if c =? 12 then [92; 102]      (* \f *)
  else if c =? 13 then [92; 114]      (* \r *)
  else if c =? 34 then [92; 34]       (* the double quote *)
  else if c =? 92 then [92; 92]       (* the backslash *)
  else if c <? 32 then unicode_escape c
  else if is_leading_surrogate c || is_trailing_surrogate c
       then unicode_escape c          (* a lone surrogate *)
  else [c].

Fixpoint quote_body (s : jsstring) : jsstring :=
  match s with
  | [] => []
  | c :: r =>
      if is_leading_surrogate c then
        match r with
        | d :: r' =>
            if is_trailing_surrogate d then c :: d :: quote_body r'
            else quote_unit c ++ quote_body r
        | [] => quote_unit c
        end
      else quote_unit c ++ quote_body r
  end.

(** QuoteJSONString *)
Definition quote (s : jsstring) : jsstring := [34] ++ quote_body s ++ [34].

(** Number::toString on an integer (plain decimal digits; exact for the
    integers of magnitude below 10^21, the only number here is [-1]). *)
Definition number_to_string (z : Z) : jsstring :=
  js (NilEmpty.string_of_int (Z.to_int z)).

(** SerializeJSONProperty: [None] is [undefined], whose property is left
    out of the enclosing object. *)
Definition serialize (v : jsval) : option jsstring :=
  match v with
  | VUndefined => None
  | VNumber z => Some (number_to_string z)
  | VString s => Some (quote s)
  end.

Fixpoint serialize_properties (ps : list (jsstring * jsval)) : list jsstring :=
  match ps with
  | [] => []
  | (k, v) :: r =>
      match serialize v with
      | Some t => (quote k ++ [58] ++ t) :: serialize_properties r
      | None => serialize_properties r
      end
  end.

Fixpoint join_comma (l : list jsstring) : jsstring :=
  match l with
  | [] => []
  | [x] => x
  | x :: r => x ++ [44] ++ join_comma r
  end.

(** [JSON.stringify({k1: v1, ..., kn: vn})] *)
Definition JSON_stringify (ps : list (jsstring * jsval)) : jsstring :=
  [123] ++ join_comma (serialize_properties ps) ++ [125].

(** *** Parsing

    The result of [JSON.parse].  A number keeps the text of its literal: the
    program never computes with a parsed number. *)
Inductive json : Type :=
| JNull
| JBool (b : bool)
| JNumber (lit : jsstring)
| JString (s : jsstring)
| JArray (l : list json)
| JObject (m : list (jsstring * json)).

Definition is_json_ws (c : N) : bool :=
  (c =? 9) || (c =? 10) || (c =? 13) || (c =? 32).

Fixpoint skip_ws (s : jsstring) : jsstring :=
  match s with
  | c :: r => if is_json_ws c then skip_ws r else s
  | [] => []
  end.

Fixpoint strip_prefix (p s : jsstring) : option jsstring :=
  match p, s with
  | [], _ => Some s
  | a :: p', b :: s' => if a =? b then strip_prefix p' s' else None
  | _ :: _, [] => None
  end.

Definition hex_value (c : N) : option N :=
  if is_digit c then Some (c - 48)
  else if (97 <=? c) && (c <=? 102) then Some (c - 87)
  else if (65 <=? c) && (c <=? 70) then Some (c - 55)
  else None.

Definition hex4 (a b c d : N) : option N :=
  match hex_value a, hex_value b, hex_value c, hex_value d with
  | Some x, Some y, Some z, Some w => Some (x * 4096 + y * 256 + z * 16 + w)
  | _, _, _, _ => None
  end.

Definition simple_escape (e : N) : option N :=
  if e =? 34 then Some 34
  else if e =? 92 then Some 92
  else if e =? 47 then Some 47
  else if e =? 98 then Some 8
  else if e =? 102 then Some 12
  else if e =? 110 then Some 10
  else if e =? 114 then Some 13
  else if e =? 116 then Some 9
  else None.

(** The characters of a string literal after its opening quote. *)
Fixpoint parse_string_body (s acc : jsstring) : option (jsstring * jsstring) :=
  match s with
  | [] => None
  | c :: r =>
      if c =? 34 then Some (rev acc, r)
      else if c <? 32 then None
      else if c =? 92 then
        match r with
        | [] => None
        | e :: r' =>
            if e =? 117 then
              match r' with
              | h1 :: h2 :: h3 :: h4 :: r'' =>
                  match hex4 h1 h2 h3 h4 with
                  | Some u => parse_string_body r'' (u :: acc)
                  | None => None
                  end
              | _ => None
              end
            else
              match simple_escape e with
              | Some u => parse_string_body r' (u :: acc)
              | None => None
              end
        end
      else parse_string_body r (c :: acc)
  end.

Fixpoint take_digits (s : jsstring) : jsstring * jsstring :=
  match s with
  | c :: r =>
      if is_digit c then let (ds, r') := take_digits r in (c :: ds, r')
      else ([], s)
  | [] => ([], [])
  end.

(** The four parts of a number literal,
    [-? (0 | [1-9][0-9]* ) (. [0-9]+)? ([eE] [+-]? [0-9]+)?],
    each with the input that follows it. *)
Definition sign_part (s : jsstring) : jsstring * jsstring :=
  match s with
  | c :: r => if c =? 45 then ([c], r) else ([], s)
  | [] => ([], s)
  end.

Definition int_part (s : jsstring) : option (jsstring * jsstring) :=
  match s with
  | c :: r =>
      if c =? 48 then Some ([c], r)
      else if is_digit c
           then let (ds, r') := take_digits r in Some (c :: ds, r')
           else None
  | [] => None
  end.

Definition frac_part (s : jsstring) : option (jsstring * jsstring) :=
  match s with
  | d :: r =>
      if d =? 46 then
        let (ds, r') := take_digits r in
        match ds with [] => None | _ => Some (d :: ds, r') end
      else Some ([], s)
  | [] => Some ([], s)
  end.

Definition exp_part (s : jsstring) : option (jsstring * jsstring) :=
  match s with
  | e :: r =>
      if (e =? 101) || (e =? 69) then
        let (sg, r1) := match r with
                        | g :: r' => if (g =? 43) || (g =? 45)
                                     then ([g], r') else ([], r)
                        | [] => ([], r)
                        end in
        let (ds, r') := take_digits r1 in
        match ds with [] => None | _ => Some (e :: sg ++ ds, r') end
      else Some ([], s)
  | [] => Some ([], s)
  end.

Definition parse_number (s : jsstring) : option (jsstring * jsstring) :=
  let (sign, s1) := sign_part s in
  match int_part s1 with
  | None => None
  | Some (int, s2) =>
      match frac_part s2 with
      | None => None
      | Some (fr, s3) =>
          match exp_part s3 with
          | None => None
          | Some (ex, s4) => Some (sign ++ int ++ fr ++ ex, s4)
          end
      end
  end.

(** A JSON value, then the rest of the input.  [fuel] bounds the number of
    nested and successive calls; every call consumes input, so the fuel
    that [JSON_parse] supplies is always enough
    ([parse_value_fuel_independent]). *)
Fixpoint parse_value (fuel : nat) (s : jsstring) : option (json * jsstring) :=
  match fuel with
  | O => None
  | S fuel =>
      match skip_ws s with
      | [] => None
      | c :: r =>
          if c =? 34 then
            match parse_string_body r [] with
            | Some (str, r') => Some (JString str, r')
            | None => None
            end
          else if c =? 91 then
            match skip_ws r with
            | d :: r' =>
                if d =? 93 then Some (JArray [], r')
                else
                  match parse_elements fuel r [] with
                  | Some (l, r'') => Some (JArray l, r'')
                  | None => None
                  end
            | [] => None
            end
          else if c =? 123 then
            match skip_ws r with
            | d :: r' =>
                if d =? 125 then Some (JObject [], r')
                else
                  match parse_members fuel r [] with
                  | Some (m, r'') => Some (JObject m, r'')
                  | None => None
                  end
            | [] => None
            end
          else
            match strip_prefix (js "null") (c :: r) with
            | Some r' => Some (JNull, r')
            | None =>
            match strip_prefix (js "true") (c :: r) with
            | Some r' => Some (JBool true, r')
            | None =>
            match strip_prefix (js "false") (c :: r) with
            | Some r' => Some (JBool false, r')
            | None =>
            match parse_number (c :: r) with
            | Some (lit, r') => Some (JNumber lit, r')
            | None => None
            end end end end
      end
  end

with parse_elements (fuel : nat) (s : jsstring) (acc : list json)
  : option (list json * jsstring) :=
  match fuel with
  | O => None
  | S fuel =>
      match parse_value fuel s with
      | None => None
      | Some (v, r) =>
          match skip_ws r with
          | c :: r' =>
              if c =? 44 then parse_elements fuel r' (v :: acc)
              else if c =? 93 then Some (rev (v :: acc), r')
              else None
          | [] => None
          end
      end
  end

with parse_members (fuel : nat) (s : jsstring) (acc : list (jsstring * json))
  : option (list (jsstring * json) * jsstring) :=
  match fuel with
  | O => None
  | S fuel =>
      match skip_ws s with
      | q :: r =>
          if negb (q =? 34) then None else
          match parse_string_body r [] with
          | None => None
          | Some (k, r1) =>
              match skip_ws r1 with
              | c :: r2 =>
                  if negb (c =? 58) then None else
                  match parse_value fuel r2 with
                  | None => None
                  | Some (v, r3) =>
                      match skip_ws r3 with
                      | d :: r4 =>
                          if d =? 44 then parse_members fuel r4 ((k, v) :: acc)
                          else if d =? 125 then Some (rev ((k, v) :: acc), r4)
                          else None
                      | [] => None
                      end
                  end
              | [] => None
              end
          end
      | [] => None
      end
  end.

(** [JSON.parse(text)]: [None] stands for the [SyntaxError] it throws. *)
Definition JSON_parse (text : jsstring) : option json :=
  match parse_value (2 * List.length text + 2)%nat text with
  | Some (v, r) => match skip_ws r with [] => Some v | _ => None end
  | None => None
  end.

(** *** Property access on a parsed value *)

(** The result of an expression that may throw. *)
Inductive completion (A : Type) : Type :=
| Normal (a : A)
| Throw (msg : jsstring).
Arguments Throw {A} msg.

(** The own property [k] of an object built by [JSON.parse]: a repeated
    key keeps its last value. *)
Fixpoint lookup (k : jsstring) (m : list (jsstring * json)) : option json :=
  match m with
  | [] => None
  | (k', v) :: r =>
      match lookup k r with
      | Some w => Some w
      | None => if jsstring_eqb k k' then Some v else None
      end
  end.

(** [v.k] for a key [k] that is not a built-in property of strings, arrays
    or [Object.prototype] ([accounts], [prompt], ...): a [TypeError] on
    [null], the own property on an object, [undefined] otherwise. *)
Definition get (v : json) (k : jsstring) : completion (option json) :=
  match v with
  | JNull => Throw (js "TypeError: Cannot read properties of null")
  | JObject m => Normal (lookup k m)
  | _ => Normal None
  end.

(** [v?.k] where [v] may also be [undefined]. *)
Definition get_opt (v : option json) (k : jsstring) : option json :=
  match v with
  | None | Some JNull => None
  | Some (JObject m) => lookup k m
  | Some _ => None
  end.

(** [v?.[0]] *)
Definition get_opt_0 (v : option json) : option json :=
  match v with
  | Some (JArray (x :: _)) => Some x
  | Some (JString (c :: _)) => Some (JString [c])
  | Some (JObject m) => lookup (js "0") m
  | _ => None
  end.

Definition all_zero_digits (lit : jsstring) : bool :=
  forallb (fun c => negb (is_digit c) || (c =? 48)) lit.

Fixpoint mantissa (lit : jsstring) : jsstring :=
  match lit with
  | c :: r => if (c =? 101) || (c =? 69) then [] else c :: mantissa r
  | [] => []
  end.

(** ToBoolean.  A number is falsy when it is zero, that is when every digit
    of its mantissa is [0] (a literal that only underflows to zero in
    double precision is not covered). *)
Definition truthy (v : json) : bool :=
  match v with
  | JNull => false
  | JBool b => b
  | JNumber lit => negb (all_zero_digits (mantissa lit))
  | JString s => negb (falsy s)
  | JArray _ | JObject _ => true
  end.

(** *** Vocabulary of the statements below *)

(** A parser [f] that succeeds with fuel [n] consumes input, and succeeds
    alike with any fuel that is at least what it consumed. *)
Definition enough {A} (f : nat -> jsstring -> option (A * jsstring)) (n : nat)
  : Prop :=
  forall s a r,
    f n s = Some (a, r) ->
    (List.length r < List.length s)%nat
    /\ forall m, (List.length s - List.length r <= m)%nat ->
                 f m s = Some (a, r).

End JSON.
Export JSON.

(* ===================================================================== *)
(** ** The prompt bridge of [SessionView]                                 *)
(* ===================================================================== *)

Module SessionView.

(** The promise created by one invocation of an RPC handler.  The pair of
    functions [resolve] / [reject] that a prompt holds is identified by the
    promise it settles. *)
Definition promise := nat.

(** [field: 'accountNumber' | 'tpin'] *)
Inductive Field : Type := accountNumber | tpin.

(** [type RpcPrompt], a union tagged by [type]. *)
Inductive RpcPrompt : Type :=
| PChooseAccount (prompt : json) (accounts : list json)
                 (resolve reject : promise)
| PInput (field : Field) (title description : jsstring)
         (resolve reject : promise).

Inductive PromptType : Type := TChooseAccount | TInput.

(** [rpcPrompt.type] *)
Definition type_of (p : RpcPrompt) : PromptType :=
  match p with
  | PChooseAccount _ _ _ _ => TChooseAccount
  | PInput _ _ _ _ _ => TInput
  end.

(** [rpcPrompt.resolve] *)
Definition resolve_of (p : RpcPrompt) : promise :=
  match p with
  | PChooseAccount _ _ r _ => r
  | PInput _ _ _ r _ => r
  end.

(** The component state: the two [useState] cells the handlers touch, and
    the number of promises created so far (the next invocation gets that
    number). *)
Record State : Type := mkState {
  rpcPrompt : option RpcPrompt;
  inputValue : jsstring;
  promises : nat
}.

Definition initial : State :=
  {| rpcPrompt := None; inputValue := []; promises := 0 |}.

(** [setRpcPrompt(p)] *)
Definition setRpcPrompt (p : option RpcPrompt) (st : State) : State :=
  {| rpcPrompt := p; inputValue := inputValue st; promises := promises st |}.

(** [setInputValue(v)] *)
Definition setInputValue (v : jsstring) (st : State) : State :=
  {| rpcPrompt := rpcPrompt st; inputValue := v; promises := promises st |}.

(** [new Promise(...)] / the promise of an [async] invocation. *)
Definition newPromise (st : State) : promise * State :=
  (promises st,
   {| rpcPrompt := rpcPrompt st; inputValue := inputValue st;
      promises := S (promises st) |}).

(** What a handler does to the promises of the RPC calls. *)
Inductive Settle : Type :=
| Resolve (p : promise) (payload : jsstring)
| Reject (p : promise) (reason : jsstring).

Definition settled_promise (e : Settle) : promise :=
  match e with Resolve p _ => p | Reject p _ => p end.

(** *** The RPC handlers ([registerRpcMethod]) *)

(** The [try { JSON.parse(data.payload || '{}') } catch { ... }] block. *)
Definition parse_payload (payload : jsstring) : json :=
  match JSON_parse (or_else payload (js "{}")) with
  | Some v => v
  | None => JObject [(js "accounts", JArray []); (js "prompt", JString [])]
  end.

(** [Array.isArray(a) && a.length > 0 ? a : []] *)
Definition accounts_of (a : option json) : list json :=
  match a with
  | Some (JArray (x :: l)) => x :: l
  | _ => []
  end.

(** [v ?? ''] *)
Definition nullish_or_empty (v : option json) : json :=
  match v with
  | None | Some JNull => JString []
  | Some w => w
  end.

Definition handleChooseAccount (payload : jsstring) (st : State)
  : State * list Settle :=
  let (p, st1) := newPromise st in
  let parsed := parse_payload payload in
  match get parsed (js "accounts") with
  | Throw e => (st1, [Reject p e])
  | Normal a =>
      let accounts := accounts_of a in
      match get parsed (js "prompt") with
      | Throw e => (st1, [Reject p e])
      | Normal pr =>
          (setRpcPrompt
             (Some (PChooseAccount (nullish_or_empty pr) accounts p p)) st1,
           [])
      end
  end.

Definition handleRequestPayeeAccNo (payload : jsstring) (st : State)
  : State * list Settle :=
  let description := or_else payload (js "Enter the payee account number") in
  let (p, st1) := newPromise st in
  (setRpcPrompt
     (Some (PInput accountNumber (js "Payee account number") description p p))
     st1,
   []).

Definition handleRequestTpin (payload : jsstring) (st : State)
  : State * list Settle :=
  let description := or_else payload (js "Enter your transaction PIN") in
  let (p, st1) := newPromise st in
  (setRpcPrompt
     (Some (PInput tpin (js "Transaction PIN") description p p)) st1,
   []).

(** *** The UI handlers *)

Definition handleAccountSelect (accountId : jsstring) (st : State)
  : State * list Settle :=
  match rpcPrompt st with
  | Some (PChooseAccount _ _ resolve _) =>
      (setRpcPrompt None st,
       [Resolve resolve (JSON_stringify [(js "accountId", VString accountId)])])
  | _ => (st, [])
  end.

Definition handleAccountCancel (st : State) : State * list Settle :=
  match rpcPrompt st with
  | None => (st, [])
  | Some pr =>
      let cancelPayload :=
        match type_of pr with
        | TInput =>
            JSON_stringify [(js "tpin", VNumber (-1));
                            (js "accountNumber", VNumber (-1))]
        | TChooseAccount => JSON_stringify [(js "accountId", VNumber (-1))]
        end in
      (setRpcPrompt None st, [Resolve (resolve_of pr) cancelPayload])
  end.

Definition is_tpin (f : Field) : bool :=
  match f with tpin => true | accountNumber => false end.

Definition handleInputSubmit (st : State) : State * list Settle :=
  match rpcPrompt st with
  | Some (PInput field _ _ resolve _) =>
      let trimmed := trim (inputValue st) in
      if falsy trimmed then (st, [])
      else if is_tpin field && negb (test_four_digits trimmed) then (st, [])
      else
        let payload :=
          match field with
          | accountNumber =>
              JSON_stringify [(js "accountNumber", VString trimmed)]
          | tpin => JSON_stringify [(js "tpin", VString trimmed)]
          end in
        (setRpcPrompt None st, [Resolve resolve payload])
  | _ => (st, [])
  end.

(** [onChange={(e) => setInputValue(e.target.value)}] of the text box, which
    is rendered only under an input prompt; for the TPIN it carries
    [maxLength={4}], so the browser lets no edit through that would leave
    more than four code units in the box, unless the box already held more
    (text it holds is never cut) and the edit does not add to it. *)
Definition handleChange (value : jsstring) (st : State) : State :=
  match rpcPrompt st with
  | Some (PInput field _ _ _ _) =>
      if is_tpin field
         && negb (Nat.leb (List.length value)
                          (Nat.max 4 (List.length (inputValue st))))
      then st
      else setInputValue value st
  | _ => st
  end.

(** *** One turn of the event loop *)

Inductive Event : Type :=
| RpcChooseAccount (payload : jsstring)
| RpcRequestPayeeAccNo (payload : jsstring)
| RpcRequestTpin (payload : jsstring)
| AccountSelect (accountId : jsstring)
| AccountCancel
| InputSubmit
| Change (value : jsstring).

Definition handle (ev : Event) (st : State) : State * list Settle :=
  match ev with
  | RpcChooseAccount payload => handleChooseAccount payload st
  | RpcRequestPayeeAccNo payload => handleRequestPayeeAccNo payload st
  | RpcRequestTpin payload => handleRequestTpin payload st
  | AccountSelect accountId => handleAccountSelect accountId st
  | AccountCancel => handleAccountCancel st
  | InputSubmit => handleInputSubmit st
  | Change value => (handleChange value st, [])
  end.

Definition PromptType_eqb (a b : option PromptType) : bool :=
  match a, b with
  | None, None => true
  | Some TChooseAccount, Some TChooseAccount => true
  | Some TInput, Some TInput => true
  | _, _ => false
  end.

(** [useEffect(() => { setInputValue('') }, [rpcPrompt?.type])]: after a
    render in which [rpcPrompt?.type] differs from the previous one. *)
Definition resetInputEffect (before after : State) : State :=
  if PromptType_eqb (option_map type_of (rpcPrompt before))
                    (option_map type_of (rpcPrompt after))
  then after
  else setInputValue [] after.

(** One event, and the render that follows it with its effect.  Events
    are taken one to a render: two RPC calls that React batches into a
    single render (the effect then compares the prompt types before the
    first and after the second) are not covered. *)
Definition step (ev : Event) (st : State) : State * list Settle :=
  let (st', fx) := handle ev st in
  (resetInputEffect st st', fx).

(** A sequence of events; the settlements are collected in order. *)
Fixpoint run (evs : list Event) (st : State) : State * list Settle :=
  match evs with
  | [] => (st, [])
  | ev :: rest =>
      let (st1, fx1) := step ev st in
      let (st2, fx2) := run rest st1 in
      (st2, fx1 ++ fx2)
  end.

(** *** Drawing the overlay

    The handlers put into the slot what the payload gave them, unchecked;
    the render that follows reads it.  A render that throws unmounts the
    view. *)








(** *** Vocabulary of the statements below *)

(** The property name under which an input prompt answers. *)
Definition field_key (f : Field) : jsstring :=
  match f with
  | accountNumber => js "accountNumber"
  | tpin => js "tpin"
  end.

(** The text the agent receives when the user cancels: the JSON number
    [-1] under [accountId], or under both [tpin] and [accountNumber]. *)
Definition cancel_text (t : PromptType) : jsstring :=
  match t with
  | TChooseAccount => js "{" ++ quote (js "accountId") ++ js ":-1}"
  | TInput => js "{" ++ quote (js "tpin") ++ js ":-1,"
                     ++ quote (js "accountNumber") ++ js ":-1}"
  end.

(** The events that are inbound RPC calls. *)
Definition is_rpc (ev : Event) : bool :=
  match ev with
  | RpcChooseAccount _ | RpcRequestPayeeAccNo _ | RpcRequestTpin _ => true
  | _ => false
  end.

(** The promises a list of settlements touches. *)
Definition settled (fx : list Settle) : list promise :=
  map settled_promise fx.

(** [p] is a promise that exists and that the slot does not hold: nothing
    in the state can reach its [resolve] or [reject] any more. *)
Definition orphan (p : promise) (st : State) : Prop :=
  p < promises st
  /\ forall pr, rpcPrompt st = Some pr -> resolve_of pr <> p.

(** The promise the slot holds was created earlier. *)
Definition slot_wf (st : State) : Prop :=
  forall pr, rpcPrompt st = Some pr -> resolve_of pr < promises st.


End SessionView.

(* ===================================================================== *)
(** ** The MongoDB collections [sessions] and [users]                     *)
(* ===================================================================== *)

Module Mongo.

(** A [Date] is its time value, in milliseconds since the epoch. *)
Definition Date := Z.

Module Sessions.
Record doc : Type := mkDoc {
  session_id : jsstring;
  user_id : jsstring;
  created_at : Date;
  expires_at : Date;
  active : bool;
  revoked_at : option Date   (* absent until the first logout *)
}.
End Sessions.

Module Users.
Record doc : Type := mkDoc {
  user_id : jsstring;
  name : option jsstring;
  password_hash : jsstring
}.
End Users.

(** A collection is the sequence of its documents, oldest first.  The
    database is taken to be reachable: a driver call that throws is outside
    the model. *)
Record Db : Type := mkDb {
  sessions : list Sessions.doc;
  users : list Users.doc
}.

(** [collection.findOne(filter)] *)
Definition findOne {A} (filter : A -> bool) (c : list A) : option A :=
  find filter c.

(** [collection.insertOne(d)] *)
Definition insertOne {A} (d : A) (c : list A) : list A := c ++ [d].

(** [collection.updateOne(filter, update)]: the first match only. *)
Fixpoint updateOne {A} (filter : A -> bool) (update : A -> A) (c : list A)
  : list A :=
  match c with
  | [] => []
  | d :: r => if filter d then update d :: r else d :: updateOne filter update r
  end.

(** [{ session_id, user_id, active: true, expires_at: { $gt: now } }] *)
Definition live_session_filter (sid uid : jsstring) (now : Date)
  (s : Sessions.doc) : bool :=
  jsstring_eqb (Sessions.session_id s) sid
  && jsstring_eqb (Sessions.user_id s) uid
  && Bool.eqb (Sessions.active s) true
  && (now <? Sessions.expires_at s)%Z.

(** [{ session_id }] *)
Definition session_id_filter (sid : jsstring) (s : Sessions.doc) : bool :=
  jsstring_eqb (Sessions.session_id s) sid.

(** [{ $set: { active: false, revoked_at: now } }] *)
Definition revoke (now : Date) (s : Sessions.doc) : Sessions.doc :=
  {| Sessions.session_id := Sessions.session_id s;
     Sessions.user_id := Sessions.user_id s;
     Sessions.created_at := Sessions.created_at s;
     Sessions.expires_at := Sessions.expires_at s;
     Sessions.active := false;
     Sessions.revoked_at := Some now |}.

(** [{ user_id }] *)
Definition user_id_filter (uid : jsstring) (u : Users.doc) : bool :=
  jsstring_eqb (Users.user_id u) uid.

(** The session query of [/connection-details], under the name the
    specification gives it: is there a live session [sid] of user [uid]
    at time [now]? *)
Definition validate (db : Db) (sid uid : jsstring) (now : Date) : bool :=
  match findOne (live_session_filter sid uid now) (sessions db) with
  | Some _ => true
  | None => false
  end.

(** What a session record says apart from its revocation stamp. *)
Definition without_stamp (s : Sessions.doc)
  : jsstring * jsstring * Date * Date * bool :=
  (Sessions.session_id s, Sessions.user_id s, Sessions.created_at s,
   Sessions.expires_at s, Sessions.active s).

(** A store whose only record with the identifier [sid] is [s]. *)
Definition only_record (db : Db) (s : Sessions.doc) : Prop :=
  In s (sessions db)
  /\ forall s', In s' (sessions db) ->
        Sessions.session_id s' = Sessions.session_id s -> s' = s.

End Mongo.
Export Mongo.

(* ===================================================================== *)
(** ** [POST /api/auth/login]                                             *)
(* ===================================================================== *)

Module Login.

(** The JSON body, as the route destructures it: the two properties are
    strings when present ([None] when absent). *)
Record Body : Type := mkBody {
  user_id : option jsstring;
  password : option jsstring
}.

(** What the route reads from outside during one request: the verdict of
    [bcrypt.compare], the value of [randomUUID()], and the clock, which it
    reads twice: [Date.now()] for [expires_at], then [new Date()] for
    [created_at]. *)
Record Runtime : Type := mkRuntime {
  bcrypt_compare : jsstring -> jsstring -> bool;
  randomUUID : jsstring;
  Date_now : Z;
  new_Date : Date
}.

Record Ok : Type := mkOk {
  ok_session_id : jsstring;
  ok_user_id : jsstring;
  ok_user_name : jsstring;
  ok_expires_at : Date
}.

Inductive Response : Type :=
| MissingCredentials400
| InvalidCredentials401
| Json200 (body : Ok).

Definition POST (rt : Runtime) (body : Body) (db : Db) : Response * Db :=
  match user_id body, password body with
  | Some uid, Some pw =>
      if falsy uid || falsy pw then (MissingCredentials400, db) else
      match findOne (user_id_filter uid) (users db) with
      | None => (InvalidCredentials401, db)
      | Some user =>
          if negb (bcrypt_compare rt pw (Users.password_hash user))
          then (InvalidCredentials401, db)
          else
            let session_id := randomUUID rt in
            let expires_at := (Date_now rt + 1000 * 60 * 60 * 24)%Z in
            let db' :=
              {| sessions :=
                   insertOne
                     {| Sessions.session_id := session_id;
                        Sessions.user_id := uid;
                        Sessions.created_at := new_Date rt;
                        Sessions.expires_at := expires_at;
                        Sessions.active := true;
                        Sessions.revoked_at := None |}
                     (sessions db);
                 users := users db |} in
            (Json200
               {| ok_session_id := session_id;
                  ok_user_id := uid;
                  ok_user_name := match Users.name user with
                                  | Some n => n
                                  | None => []
                                  end;
                  ok_expires_at := expires_at |},
             db')
      end
  | _, _ => (MissingCredentials400, db)
  end.

(** *** Vocabulary of the statements below *)

(** The record a successful login inserts. *)
Definition new_session (rt : Runtime) (uid : jsstring) : Sessions.doc :=
  {| Sessions.session_id := randomUUID rt;
     Sessions.user_id := uid;
     Sessions.created_at := new_Date rt;
     Sessions.expires_at := (Date_now rt + 86400000)%Z;
     Sessions.active := true;
     Sessions.revoked_at := None |}.

End Login.

(* ===================================================================== *)
(** ** [POST /api/auth/logout]                                            *)
(* ===================================================================== *)

Module Logout.

Inductive Response : Type :=
| MissingSessionId400
| Ok200
| UnableToLogout500.

(** The route from the destructuring on, for a [session_id] that is a
    string, or [None] when the body is not JSON or has no such property. *)
Definition POST (now : Date) (session_id : option jsstring) (db : Db)
  : Response * Db :=
  match session_id with
  | None => (MissingSessionId400, db)
  | Some sid =>
      if falsy sid then (MissingSessionId400, db)
      else
        (Ok200,
         {| sessions := updateOne (session_id_filter sid) (revoke now)
                                  (sessions db);
            users := users db |})
  end.

(** The whole route, on the outcome of [req.json()].  A body that is not
    JSON is read as [{}]; destructuring [null] throws, and the [catch] of
    the route answers 500.  A [session_id] that is truthy but not a string
    goes into the filter of [updateOne] as it is, where MongoDB reads it as
    a condition on the field: [condition] gives the documents it selects,
    or the error of the driver for an operator it does not accept. *)
Definition route (condition : json -> completion (Sessions.doc -> bool))
  (now : Date) (body : completion json) (db : Db) : Response * Db :=
  let parsed := match body with
                | Normal v => v
                | Throw _ => JObject []
                end in
  match get parsed (js "session_id") with
  | Throw _ => (UnableToLogout500, db)
  | Normal None => POST now None db
  | Normal (Some (JString sid)) => POST now (Some sid) db
  | Normal (Some v) =>
      if truthy v
      then match condition v with
           | Throw _ => (UnableToLogout500, db)
           | Normal selects =>
               (Ok200,
                {| sessions := updateOne selects (revoke now) (sessions db);
                   users := users db |})
           end
      else (MissingSessionId400, db)
  end.

End Logout.

(* ===================================================================== *)
(** ** [POST /api/connection-details]                                     *)
(* ===================================================================== *)

Module ConnectionDetails.

(** What the route finds around it.  The three variables of
    [process.env]: an undefined variable is [None].  And the
    livekit-server-sdk it is linked with, of which one thing is needed: the
    message of the [Error] that [toJwt] throws when it cannot encode an
    agent name that is not a string. *)
Record Env : Type := mkEnv {
  LIVEKIT_API_KEY : option jsstring;
  LIVEKIT_API_SECRET : option jsstring;
  LIVEKIT_URL : option jsstring;
  toJwt_message : json -> jsstring
}.

(** The request: the three headers ([req.headers.get] gives [null] for a
    header that was not sent) and the outcome of [req.json()]. *)
Record Request : Type := mkRequest {
  x_user_id : option jsstring;
  x_user_name : option jsstring;
  x_session_id : option jsstring;
  body : completion json
}.

(** [VideoGrant] of livekit-server-sdk: the properties the route sets, and
    the room-independent permissions of that type, which it leaves
    undefined. *)
Record VideoGrant : Type := mkVideoGrant {
  room : option jsstring;
  roomJoin : option bool;
  canPublish : option bool;
  canPublishData : option bool;
  canSubscribe : option bool;
  roomCreate : option bool;
  roomList : option bool;
  roomAdmin : option bool;
  roomRecord : option bool;
  ingressAdmin : option bool
}.

(** The [AccessToken] handed to [toJwt]: the JWT is modelled by the key it
    is signed with and the claims it carries. *)
Record AccessToken : Type := mkAccessToken {
  apiKey : jsstring;
  apiSecret : jsstring;
  identity : jsstring;
  name : jsstring;
  metadata : jsstring;
  ttl : jsstring;
  grants : list VideoGrant;          (* one per [addGrant] *)
  roomConfig : option json           (* the [agentName] of the dispatch *)
}.

(** [AccessTokenOptions] as the route fills it. *)
Record UserInfo : Type := mkUserInfo {
  ui_identity : jsstring;
  ui_name : jsstring;
  ui_metadata : jsstring
}.

Definition json_truthy (v : option json) : bool :=
  match v with None => false | Some w => truthy w end.

Definition is_string (v : json) : bool :=
  match v with JString _ => true | _ => false end.

(** [new AccessToken(API_KEY, API_SECRET, ...)] throws when the key or the
    secret is empty, and [at.toJwt()] when the agent name put into the room
    configuration is not a string; [message] is the text of the latter
    error. *)
Definition createParticipantToken (message : json -> jsstring)
  (API_KEY API_SECRET : jsstring)
  (userInfo : UserInfo) (roomName : jsstring) (agentName : option json)
  : completion AccessToken :=
  if falsy API_KEY || falsy API_SECRET
  then Throw (js "api-key and api-secret must be set")
  else
    let grant :=
      {| room := Some roomName;
         roomJoin := Some true;
         canPublish := Some true;
         canPublishData := Some true;
         canSubscribe := Some true;
         roomCreate := None; roomList := None; roomAdmin := None;
         roomRecord := None; ingressAdmin := None |} in
    let token (config : option json) :=
      {| apiKey := API_KEY;
         apiSecret := API_SECRET;
         identity := ui_identity userInfo;
         name := ui_name userInfo;
         metadata := ui_metadata userInfo;
         ttl := js "15m";
         grants := [grant];
         roomConfig := config |} in
    match agentName with
    | Some v =>
        if truthy v
        then if is_string v then Normal (token (Some v))
             else Throw (message v)
        else Normal (token None)
    | None => Normal (token None)
    end.

Record Details : Type := mkDetails {
  serverUrl : jsstring;
  roomName : jsstring;
  participantToken : AccessToken;
  participantName : jsstring
}.

Inductive Response : Type :=
| Text401 (message : jsstring)
| Text500 (message : jsstring)
| Json200 (data : Details).

(** The reads the route issues against the database. *)
Inductive Query : Type :=
| FindSession (session_id user_id : jsstring) (now : Date)
| FindUser (user_id : jsstring).

(** [body?.room_config?.agents?.[0]?.agent_name] *)
Definition agent_name_of (b : json) : option json :=
  get_opt (get_opt_0 (get_opt (get_opt (Some b) (js "room_config"))
                              (js "agents")))
          (js "agent_name").

(** [undefined] stays out of the serialised object. *)
Definition session_id_property (sessionId : option jsstring) : jsval :=
  match sessionId with Some s => VString s | None => VUndefined end.

(** The route.  [now] is the [new Date()] of the session query.  The result
    is the response and the database reads made on the way, in order. *)
Definition POST (env : Env) (db : Db) (now : Date) (req : Request)
  : Response * list Query :=
  match LIVEKIT_URL env with
  | None => (Text500 (js "LIVEKIT_URL is not defined"), [])
  | Some url =>
  match LIVEKIT_API_KEY env with
  | None => (Text500 (js "LIVEKIT_API_KEY is not defined"), [])
  | Some key =>
  match LIVEKIT_API_SECRET env with
  | None => (Text500 (js "LIVEKIT_API_SECRET is not defined"), [])
  | Some secret =>
      let userId := x_user_id req in
      let userName := match x_user_name req with
                      | Some n => n
                      | None => js "user"
                      end in
      let sessionId := x_session_id req in
      match userId with
      | None => (Text401 (js "Unauthorized: missing user id"), [])
      | Some uid =>
      if falsy uid
      then (Text401 (js "Unauthorized: missing user id"), [])
      else
        (* the tail of the route, after the session block *)
        let finish (userName : jsstring) (log : list Query) :=
          match body req with
          | Throw e => (Text500 e, log)
          | Normal b =>
              let agentName := agent_name_of b in
              let roomName := js "bank_room_" ++ uid in
              match
                createParticipantToken (toJwt_message env) key secret
                  {| ui_identity := uid;
                     ui_name := userName;
                     ui_metadata :=
                       JSON_stringify
                         [(js "session_id", session_id_property sessionId)] |}
                  roomName agentName
              with
              | Throw e => (Text500 e, log)
              | Normal token =>
                  (Json200 {| serverUrl := url;
                              roomName := roomName;
                              participantToken := token;
                              participantName := userName |},
                   log)
              end
          end in
        if falsy_opt sessionId then finish userName []
        else
          let sid := match sessionId with Some s => s | None => [] end in
          match findOne (live_session_filter sid uid now) (sessions db) with
          | None =>
              (Text401 (js "Unauthorized: invalid session"),
               [FindSession sid uid now])
          | Some _ =>
              let userDoc := findOne (user_id_filter uid) (users db) in
              let userName' :=
                match userDoc with
                | Some u => match Users.name u with
                            | Some n => if falsy n then userName else n
                            | None => userName
                            end
                | None => userName
                end in
              finish userName' [FindSession sid uid now; FindUser uid]
          end
      end
  end end end.

(** *** Vocabulary of the statements below *)

Definition configured (env : Env) : Prop :=
  LIVEKIT_URL env <> None /\ LIVEKIT_API_KEY env <> None
  /\ LIVEKIT_API_SECRET env <> None.

(** The request is to be refused as unauthenticated: no user id (header
    absent or empty), or a non-empty session id that is not a live session
    of that user. *)
Definition unauthorized (db : Db) (now : Date) (req : Request) : bool :=
  match x_user_id req with
  | None => true
  | Some uid =>
      falsy uid
      || match x_session_id req with
         | Some sid => negb (falsy sid) && negb (validate db sid uid now)
         | None => false
         end
  end.

Definition is_401 (r : Response) : bool :=
  match r with Text401 _ => true | _ => false end.

(** The key and the secret are defined and not empty, so that
    [new AccessToken] accepts them. *)
Definition key_ok (env : Env) : bool :=
  negb (falsy_opt (LIVEKIT_API_KEY env))
  && negb (falsy_opt (LIVEKIT_API_SECRET env)).

(** The agent name of a request body is one the credential can carry:
    absent, falsy, or a string. *)
Definition agent_name_ok (b : json) : bool :=
  match agent_name_of b with
  | Some v => negb (truthy v) || is_string v
  | None => true
  end.

(** The one grant of a token for room [r]. *)
Definition room_grant (r : jsstring) : VideoGrant :=
  {| room := Some r;
     roomJoin := Some true;
     canPublish := Some true;
     canPublishData := Some true;
     canSubscribe := Some true;
     roomCreate := None; roomList := None; roomAdmin := None;
     roomRecord := None; ingressAdmin := None |}.

(** The metadata text for a request with or without a session header. *)
Definition metadata_text (sessionId : option jsstring) : jsstring :=
  match sessionId with
  | Some sid => js "{" ++ quote (js "session_id") ++ js ":" ++ quote sid
                       ++ js "}"
  | None => js "{}"
  end.

End ConnectionDetails.

(* ===================================================================== *)
(** ** Strings on the wire                                                *)
(* ===================================================================== *)

Module Wire.

(** A string all of whose elements are UTF-16 code units, as every
    JavaScript string is. *)
Definition code_units (s : jsstring) : Prop :=
  Forall (fun c => (c < 65536)%N) s.

End Wire.

(* ===================================================================== *)
(** ** The prompt overlay of [SessionView], and words about its replies   *)
(* ===================================================================== *)

Module Overlay.
Import SessionView.

Local Open Scope N_scope.

(** An entry of [rpcPrompt.accounts], as the type of the prompt declares
    it. *)
Record Account : Type := mkAccount {
  id : jsstring;
  nickname : option jsstring;
  type : option jsstring;
  last4 : option jsstring
}.

(** [s.slice(0, k)] *)
Definition slice_first (k : nat) (s : jsstring) : jsstring := firstn k s.

(** [s.slice(-k)] *)
Definition slice_last (k : nat) (s : jsstring) : jsstring :=
  skipn (List.length s - k) s.

(** [v || 'Account'] for an optional string. *)
Definition or_Account (v : option jsstring) : jsstring :=
  match v with
  | Some n => or_else n (js "Account")
  | None => js "Account"
  end.

(** The first line of an account button:
    [{acct.nickname || 'Account'} ••••{acct.last4 ?? acct.id.slice(-4)}] *)
Definition heading (a : Account) : jsstring :=
  or_Account (nickname a) ++ [32; 8226; 8226; 8226; 8226]
  ++ match last4 a with
     | Some l => l
     | None => slice_last 4 (id a)
     end.

(** The text after [ID:] on an account button: the identifier, or its
    first two and last two code units around an ellipsis when it is longer
    than six. *)
Definition id_line (a : Account) : jsstring :=
  if Nat.ltb 6 (List.length (id a))
  then slice_first 2 (id a) ++ [8230] ++ slice_last 2 (id a)
  else id a.

(** *** Vocabulary of the statements below *)

(** The promises a list of settlements resolves, in order. *)
Fixpoint resolved (fx : list Settle) : list promise :=
  match fx with
  | [] => []
  | Resolve p _ :: r => p :: resolved r
  | Reject _ _ :: r => resolved r
  end.

(** The events that run one of the three handlers of the user's buttons:
    [handleAccountSelect], [handleAccountCancel], [handleInputSubmit]. *)
Definition is_click (ev : Event) : bool :=
  match ev with
  | AccountSelect _ | AccountCancel | InputSubmit => true
  | _ => false
  end.

(** The user actions the overlay offers for what is in the slot: an account
    button under an account choice, the text box and its submit button
    under an input prompt, the cancel button under either. *)
Definition offered (ev : Event) (slot : option RpcPrompt) : bool :=
  match ev, slot with
  | AccountSelect _, Some (PChooseAccount _ _ _ _) => true
  | AccountCancel, Some _ => true
  | InputSubmit, Some (PInput _ _ _ _ _) => true
  | Change _, Some (PInput _ _ _ _ _) => true
  | _, _ => false
  end.

(** An account whose only known field is its identifier. *)
Definition bare_account (i : jsstring) : Account :=
  {| id := i; nickname := None; type := None; last4 := None |}.

(** No input prompt is pending. *)
Definition no_input_prompt (st : State) : Prop :=
  forall field title description resolve reject,
    rpcPrompt st <> Some (PInput field title description resolve reject).

(** The text of the reply to an accepted TPIN. *)
Definition tpin_text (a b c d : N) : jsstring :=
  js "{" ++ quote (js "tpin") ++ js ":" ++ [34; a; b; c; d; 34] ++ js "}".

(** What holds of a state and of the settlements made on the way to it. *)
Record answered_once (st : State) (log : list Settle) : Prop := {
  ao_slot : slot_wf st;
  ao_created : Forall (fun q => (q < promises st)%nat) (settled log);
  ao_pending : forall pr, rpcPrompt st = Some pr ->
                 ~ In (resolve_of pr) (settled log);
  ao_nodup : NoDup (settled log);
  ao_sorted : StronglySorted Nat.lt (resolved log);
  ao_before : forall pr, rpcPrompt st = Some pr ->
                Forall (fun q => (q < resolve_of pr)%nat) (resolved log)
}.

End Overlay.
(* ===================================================================== *)
(** ** Words about the session store                                      *)
(* ===================================================================== *)

Module Store.

(** At most one session record carries the identifier [sid]. *)
Definition at_most_one (sid : jsstring) (db : Db) : Prop :=
  (List.length (filter (session_id_filter sid) (sessions db)) <= 1)%nat.

(** The name under which the connection route admits a request: the
    [X-User-Name] header, or [user] without it. *)
Definition header_name (req : ConnectionDetails.Request) : jsstring :=
  match ConnectionDetails.x_user_name req with
  | Some n => n
  | None => js "user"
  end.

End Store.
(* ===================================================================== *)
(** ** [POST /api/auth/signup]                                            *)
(* ===================================================================== *)

Module Signup.

(** A document of the [users] collection as signup writes it.  The login
    and connection routes read three of its fields ([view]). *)
Module Stored.
Record doc : Type := mkDoc {
  user_id : jsstring;
  name : option jsstring;
  customer_id : jsstring;
  password_hash : jsstring;
  created_at : Date
}.
End Stored.

Definition view (d : Stored.doc) : Users.doc :=
  {| Users.user_id := Stored.user_id d;
     Users.name := Stored.name d;
     Users.password_hash := Stored.password_hash d |}.

(** The JSON body, as the route destructures it: the properties are
    strings when present ([None] when absent). *)
Record Body : Type := mkBody {
  user_id : option jsstring;
  name : option jsstring;
  password : option jsstring;
  customer_id : option jsstring
}.

(** What the route reads from outside during one request: the salted hash
    [bcrypt.hash(password, 12)] computes, the identifier the database gives
    the new document, and the clock. *)
Record Runtime : Type := mkRuntime {
  bcrypt_hash : jsstring -> jsstring;
  insertedId : jsstring;
  new_Date : Date
}.

Record Ok : Type := mkOk {
  ok_user_id : jsstring;
  ok_user_name : jsstring;
  ok_id : jsstring
}.

Inductive Response : Type :=
| MissingFields400
| UserExists409
| Json200 (body : Ok).

(** [{ user_id }] on the stored documents. *)
Definition stored_user_id_filter (uid : jsstring) (d : Stored.doc) : bool :=
  jsstring_eqb (Stored.user_id d) uid.

(** The route awaits the database twice, and other requests may run in
    between: it is two steps on the collection.  What the first has
    decided when [findOne] has answered (lines 6-14): to refuse, or to go
    on and insert. *)
Inductive Checked : Type :=
| Refuse (r : Response)
| Insert (uid : jsstring) (name : option jsstring) (pw cid : jsstring).

Definition check (body : Body) (users : list Stored.doc) : Checked :=
  match user_id body, password body, customer_id body with
  | Some uid, Some pw, Some cid =>
      if falsy uid || falsy pw || falsy cid then Refuse MissingFields400
      else
        match findOne (stored_user_id_filter uid) users with
        | Some _ => Refuse UserExists409
        | None => Insert uid (name body) pw cid
        end
  | _, _, _ => Refuse MissingFields400
  end.

(** The second step (lines 16-25), on the collection as it is by then:
    there is no unique index and no second look. *)
Definition complete (rt : Runtime) (c : Checked) (users : list Stored.doc)
  : Response * list Stored.doc :=
  match c with
  | Refuse r => (r, users)
  | Insert uid name pw cid =>
      let passwordHash := bcrypt_hash rt pw in
      (Json200 {| ok_user_id := uid;
                  ok_user_name := match name with
                                  | Some n => n
                                  | None => []
                                  end;
                  ok_id := insertedId rt |},
       insertOne {| Stored.user_id := uid;
                    Stored.name := name;
                    Stored.customer_id := cid;
                    Stored.password_hash := passwordHash;
                    Stored.created_at := new_Date rt |}
                 users)
  end.

(** A request that runs alone: nothing is written to the collection
    between its two steps. *)
Definition POST (rt : Runtime) (body : Body) (users : list Stored.doc)
  : Response * list Stored.doc :=
  complete rt (check body users) users.

(** *** Vocabulary of the statements below *)

(** The store as the login and connection routes see it. *)
Definition as_db (sessions : list Sessions.doc) (users : list Stored.doc)
  : Db :=
  {| Mongo.sessions := sessions; Mongo.users := map view users |}.

(** The login body with the credentials of a signup body. *)
Definition login_body (b : Body) : Login.Body :=
  {| Login.user_id := user_id b; Login.password := password b |}.

End Signup.
(* ===================================================================== *)
(** ** The pages and hooks that call the routes                           *)
(* ===================================================================== *)

Module Client.

Local Open Scope N_scope.

(** *** [window.localStorage] *)

Definition Storage := jsstring -> option jsstring.

Definition no_items : Storage := fun _ => None.

Definition getItem (k : jsstring) (st : Storage) : option jsstring := st k.

Definition setItem (k v : jsstring) (st : Storage) : Storage :=
  fun k' => if jsstring_eqb k' k then Some v else st k'.

Definition removeItem (k : jsstring) (st : Storage) : Storage :=
  fun k' => if jsstring_eqb k' k then None else st k'.

(** *** The server behind the routes: its two collections *)

Record Server : Type := mkServer {
  sessions : list Sessions.doc;
  users : list Signup.Stored.doc
}.

Definition db_of (srv : Server) : Db :=
  Signup.as_db (sessions srv) (users srv).

(** The server after a route has run on [db_of srv]; no route but signup
    writes the users. *)
Definition with_sessions (srv : Server) (db : Db) : Server :=
  {| sessions := Mongo.sessions db; users := users srv |}.

(** *** [fetch]: header values

    A header value given to [fetch] is converted to a byte string (a code
    unit above 255 is a [TypeError]), stripped of leading and trailing HTTP
    white space, and refused with a [TypeError] when it then contains NUL,
    LF or CR.  The route reads the stripped value. *)
Definition is_http_whitespace (c : N) : bool :=
  (c =? 9) || (c =? 10) || (c =? 13) || (c =? 32).

Fixpoint strip_start (s : jsstring) : jsstring :=
  match s with
  | c :: r => if is_http_whitespace c then strip_start r else s
  | [] => []
  end.

Definition normalize (v : jsstring) : jsstring :=
  rev (strip_start (rev (strip_start v))).

Definition header_value (v : jsstring) : completion jsstring :=
  if negb (forallb (fun c => c <=? 255) v)
  then Throw (js "TypeError")
  else if negb (forallb (fun c => negb ((c =? 0) || (c =? 10) || (c =? 13)))
                        (normalize v))
       then Throw (js "TypeError")
       else Normal (normalize v).

(** [...(v ? { name: v } : {})]: a header that is sent only for a truthy
    value. *)
Definition optional_header (v : option jsstring)
  : completion (option jsstring) :=
  match v with
  | None => Normal None
  | Some s =>
      if falsy s then Normal None
      else match header_value s with
           | Normal h => Normal (Some h)
           | Throw e => Throw e
           end
  end.

(** *** [status] of the login and signup pages *)

Inductive Status : Type :=
| idle
| loading
| error (message : jsstring)
| success (message : jsstring).

(** What a submit handler leaves behind: the status shown, the storage,
    the page the router was sent to, and the server. *)
Record Outcome : Type := mkOutcome {
  status : Status;
  storage : Storage;
  pushed : option jsstring;
  server : Server
}.

(** [fetch] itself fails (the request never gets an answer) with an
    [Error] of some message, or goes through. *)
Inductive Network : Type :=
| Offline (message : jsstring)
| Online.

(** The string properties of an answer's JSON object. *)
Fixpoint property (k : jsstring) (ps : list (jsstring * jsstring))
  : option jsstring :=
  match ps with
  | [] => None
  | (k', v) :: r => if jsstring_eqb k k' then Some v else property k r
  end.

(** *** The login page *)

(** The JSON object of a login answer that is not ok. *)
Definition login_error_body (r : Login.Response)
  : list (jsstring * jsstring) :=
  match r with
  | Login.MissingCredentials400 => [(js "error", js "Missing credentials")]
  | Login.InvalidCredentials401 => [(js "error", js "Invalid credentials")]
  | Login.Json200 _ => []
  end.

(** [handleSubmit] of the login page, for the [userId] and [password] typed
    into the form. *)
Definition login_handleSubmit (userId password : jsstring)
  (net : Network) (rt : Login.Runtime) (st : Storage) (srv : Server)
  : Outcome :=
  match net with
  | Offline m =>
      {| status := error m; storage := st; pushed := None; server := srv |}
  | Online =>
      let (res, db') :=
        Login.POST rt {| Login.user_id := Some userId;
                         Login.password := Some password |}
                   (db_of srv) in
      let srv' := with_sessions srv db' in
      match res with
      | Login.Json200 data =>
          let st1 := setItem (js "session_id") (Login.ok_session_id data) st in
          let st2 := setItem (js "user_id") userId st1 in
          let st3 := if falsy (Login.ok_user_name data) then st2
                     else setItem (js "user_name")
                                  (Login.ok_user_name data) st2 in
          {| status := success (js "Logged in! Redirecting...");
             storage := st3;
             pushed := Some (js "/call");
             server := srv' |}
      | _ =>
          let msg := match property (js "detail") (login_error_body res) with
                     | Some d => d
                     | None => js "Login failed"
                     end in
          {| status := error msg; storage := st; pushed := None;
             server := srv' |}
      end
  end.

(** *** The signup page *)

Record Form : Type := mkForm {
  user_id : jsstring;
  password : jsstring;
  name : jsstring;
  customer_id : jsstring
}.

(** The JSON object of a signup answer that is not ok. *)
Definition signup_error_body (r : Signup.Response)
  : list (jsstring * jsstring) :=
  match r with
  | Signup.MissingFields400 => [(js "error", js "Missing fields")]
  | Signup.UserExists409 => [(js "error", js "User already exists")]
  | Signup.Json200 _ => []
  end.

(** [handleSubmit] of the signup page; the router is sent to [/login] by
    the timer it starts. *)
Definition signup_handleSubmit (form : Form)
  (net : Network) (rt : Signup.Runtime) (st : Storage) (srv : Server)
  : Outcome :=
  match net with
  | Offline m =>
      {| status := error m; storage := st; pushed := None; server := srv |}
  | Online =>
      let (res, users') :=
        Signup.POST rt {| Signup.user_id := Some (user_id form);
                          Signup.name := Some (name form);
                          Signup.password := Some (password form);
                          Signup.customer_id := Some (customer_id form) |}
                    (users srv) in
      let srv' := {| sessions := sessions srv; users := users' |} in
      match res with
      | Signup.Json200 data =>
          let st1 := setItem (js "user_id") (Signup.ok_user_id data) st in
          let st2 := setItem (js "user_name") (name form) st1 in
          {| status := success (js "Account created! Redirecting to login...");
             storage := st2;
             pushed := Some (js "/login");
             server := srv' |}
      | _ =>
          let msg := match property (js "detail") (signup_error_body res) with
                     | Some d => d
                     | None => js "Signup failed"
                     end in
          {| status := error msg; storage := st; pushed := None;
             server := srv' |}
      end
  end.

(** *** The logout button *)

(** [handleLogout]; a failure of the request is logged and ignored. *)
Definition handleLogout (net : Network) (now : Date)
  (st : Storage) (srv : Server) : Storage * option jsstring * Server :=
  let sessionId := getItem (js "session_id") st in
  let srv' :=
    if falsy_opt sessionId then srv
    else match net with
         | Offline _ => srv
         | Online =>
             with_sessions srv
               (snd (Logout.POST now sessionId (db_of srv)))
         end in
  (removeItem (js "user_name")
     (removeItem (js "user_id") (removeItem (js "session_id") st)),
   Some (js "/"),
   srv').

(** *** The token source of [useConnection] *)

(** The two fields of [AppConfig] that the token source reads. *)
Record AppConfig : Type := mkAppConfig {
  sandboxId : option jsstring;
  agentName : option jsstring
}.

(** The object whose JSON text is the request body, which [req.json()]
    reads back. *)
Definition room_config_body (agentName : option jsstring) : json :=
  if falsy_opt agentName then JObject []
  else
    JObject
      [(js "room_config",
        JObject
          [(js "agents",
            JArray
              [JObject
                 [(js "agent_name",
                   JString (match agentName with
                            | Some n => n
                            | None => []
                            end))]])])].

Definition failed_fetching : jsstring :=
  js "Error fetching connection details!".

(** [X-Sandbox-Id]: [appConfig.sandboxId ?? ''], as [fetch] sends it. *)
Definition sandbox_header (appConfig : AppConfig) : completion jsstring :=
  header_value (match sandboxId appConfig with
                | Some s => s
                | None => []
                end).

(** The function given to [TokenSource.custom]: the connection details, or
    the [Error] it throws.  The endpoint is the application's own
    [/api/connection-details] (no [NEXT_PUBLIC_CONN_DETAILS_ENDPOINT]). *)
Definition tokenSource (appConfig : AppConfig) (net : Network)
  (env : ConnectionDetails.Env) (now : Date) (st : Storage) (srv : Server)
  : completion ConnectionDetails.Details :=
  let userId := getItem (js "user_id") st in
  let userName := getItem (js "user_name") st in
  let sessionId := getItem (js "session_id") st in
  match userId with
  | None => Throw (js "Missing user id. Please log in first.")
  | Some uid =>
      if falsy uid then Throw (js "Missing user id. Please log in first.")
      else
        match header_value uid, optional_header userName,
              optional_header sessionId, sandbox_header appConfig with
        | Normal hid, Normal hname, Normal hsession, Normal _ =>
            match net with
            | Offline _ => Throw failed_fetching
            | Online =>
                match fst (ConnectionDetails.POST env (db_of srv) now
                             {| ConnectionDetails.x_user_id := Some hid;
                                ConnectionDetails.x_user_name := hname;
                                ConnectionDetails.x_session_id := hsession;
                                ConnectionDetails.body :=
                                  Normal (room_config_body
                                            (agentName appConfig)) |})
                with
                | ConnectionDetails.Json200 d => Normal d
                | _ => Throw failed_fetching
                end
            end
        | _, _, _, _ => Throw failed_fetching
        end
  end.

(** *** [useAuthUser] *)

Record AuthUser : Type := mkAuthUser {
  auth_id : jsstring;
  auth_name : option jsstring
}.

Definition useAuthUser (st : Storage) : option AuthUser :=
  match getItem (js "user_id") st with
  | Some id =>
      if falsy id then None
      else Some {| auth_id := id;
                   auth_name := getItem (js "user_name") st |}
  | None => None
  end.

(** *** Vocabulary of the statements below *)

(** A value that [fetch] sends as it is. *)
Definition header_safe (v : jsstring) : Prop := header_value v = Normal v.

End Client.

(* ===================================================================== *)
(** ** Concrete states and requests used in the examples                  *)
(* ===================================================================== *)

Module Scenario.
Import SessionView.

(** A pending TPIN prompt whose text box holds [value]. *)
Definition tpin_pending (value : jsstring) : State :=
  {| rpcPrompt := Some (PInput tpin (js "Transaction PIN")
                               (js "Enter your transaction PIN") 0 0);
     inputValue := value;
     promises := 1 |}.

(** A payee-account prompt whose text box holds [value]. *)
Definition payee_pending (value : jsstring) : State :=
  {| rpcPrompt := Some (PInput accountNumber (js "Payee account number")
                               (js "Enter the payee account number") 0 0);
     inputValue := value;
     promises := 1 |}.

(** An account-choice prompt with two accounts on screen. *)
Definition choose_pending : State :=
  {| rpcPrompt :=
       Some (PChooseAccount (JString [])
               [JObject [(js "id", JString (js "acc1"))];
                JObject [(js "id", JString (js "acc2"))]] 0 0);
     inputValue := [];
     promises := 1 |}.

(** A deployment with its three LiveKit variables set. *)
Definition env0 : ConnectionDetails.Env :=
  {| ConnectionDetails.LIVEKIT_API_KEY := Some (js "key");
     ConnectionDetails.LIVEKIT_API_SECRET := Some (js "secret");
     ConnectionDetails.LIVEKIT_URL := Some (js "wss://livekit.example");
     ConnectionDetails.toJwt_message :=
       fun _ => js "cannot encode field agent_name to JSON" |}.

Definition alice : Users.doc :=
  {| Users.user_id := js "alice";
     Users.name := Some (js "Alice");
     Users.password_hash := js "$2a$12$hash" |}.

(** The store before anybody has logged in. *)
Definition db0 : Db := {| sessions := []; users := [alice] |}.

(** A login at time 1000 during which the clock advances by 3 ms between
    the two readings. *)
Definition rt0 : Login.Runtime :=
  {| Login.bcrypt_compare := fun _ _ => true;
     Login.randomUUID := js "3f0c9a52-uuid";
     Login.Date_now := 1000%Z;
     Login.new_Date := 1003%Z |}.

Definition login_alice : Login.Body :=
  {| Login.user_id := Some (js "alice");
     Login.password := Some (js "secret") |}.

(** The session that login creates. *)
Definition session0 : Sessions.doc :=
  {| Sessions.session_id := js "3f0c9a52-uuid";
     Sessions.user_id := js "alice";
     Sessions.created_at := 1003%Z;
     Sessions.expires_at := 86401000%Z;
     Sessions.active := true;
     Sessions.revoked_at := None |}.

Definition db1 : Db := {| sessions := [session0]; users := [alice] |}.

(** Connection requests of alice: with her session, without a session
    header, and without a parseable body. *)
Definition req_with_session : ConnectionDetails.Request :=
  {| ConnectionDetails.x_user_id := Some (js "alice");
     ConnectionDetails.x_user_name := None;
     ConnectionDetails.x_session_id := Some (js "3f0c9a52-uuid");
     ConnectionDetails.body := Normal (JObject []) |}.

Definition req_without_session : ConnectionDetails.Request :=
  {| ConnectionDetails.x_user_id := Some (js "alice");
     ConnectionDetails.x_user_name := None;
     ConnectionDetails.x_session_id := None;
     ConnectionDetails.body := Normal (JObject []) |}.






End Scenario.

(* ===================================================================== *)
(** ** A walk through the pages                                           *)
(* ===================================================================== *)

Module Walkthrough.
Import SessionView Client Scenario.

(** Events of one call: the agent asks for the TPIN, the user types it and
    submits, and the agent asks for the payee. *)
Definition tpin_then_payee : list Event :=
  [RpcRequestTpin []; Change (js "1234"); InputSubmit;
   RpcRequestPayeeAccNo []].

(** The payee prompt these events leave in the slot. *)
Definition payee_prompt : RpcPrompt :=
  PInput accountNumber (js "Payee account number")
         (js "Enter the payee account number") 1 1.

(** The agent asks for the TPIN, the user types two digits and cancels. *)
Definition tpin_cancelled : list Event :=
  [RpcRequestTpin []; Change (js "12"); AccountCancel].

(** The users of the store as signup wrote them: alice, bob who gave no
    name, and a user whose id begins with a space. *)
Definition alice_stored : Signup.Stored.doc :=
  {| Signup.Stored.user_id := js "alice";
     Signup.Stored.name := Some (js "Alice");
     Signup.Stored.customer_id := js "C-1001";
     Signup.Stored.password_hash := js "$2a$12$hash";
     Signup.Stored.created_at := 0%Z |}.

Definition bob_stored : Signup.Stored.doc :=
  {| Signup.Stored.user_id := js "bob";
     Signup.Stored.name := Some [];
     Signup.Stored.customer_id := js "C-1002";
     Signup.Stored.password_hash := js "$2a$12$hash2";
     Signup.Stored.created_at := 0%Z |}.

Definition carol_stored : Signup.Stored.doc :=
  {| Signup.Stored.user_id := js " carol";
     Signup.Stored.name := Some (js "Carol");
     Signup.Stored.customer_id := js "C-1003";
     Signup.Stored.password_hash := js "$2a$12$hash3";
     Signup.Stored.created_at := 0%Z |}.

(** The server before anybody has logged in, and with alice's session. *)
Definition srv0 : Server :=
  {| sessions := []; users := [alice_stored; bob_stored; carol_stored] |}.

Definition srv1 : Server :=
  {| sessions := [session0];
     users := [alice_stored; bob_stored; carol_stored] |}.

(** A login during which every password is refused. *)
Definition rt_refusing : Login.Runtime :=
  {| Login.bcrypt_compare := fun _ _ => false;
     Login.randomUUID := js "3f0c9a52-uuid";
     Login.Date_now := 1000%Z;
     Login.new_Date := 1003%Z |}.

Definition login_mallory : Login.Body :=
  {| Login.user_id := Some (js "mallory");
     Login.password := Some (js "guess") |}.

(** A logout request for a session the store does not know, and a
    database that selects no document for a filter that is not a string. *)
Definition logout_unknown : completion json :=
  Normal (JObject [(js "session_id", JString (js "no-such-session"))]).

Definition no_operators : json -> completion (Sessions.doc -> bool) :=
  fun _ => Normal (fun _ => false).

(** bob presenting alice's session id. *)
Definition req_bob_with_alice_session : ConnectionDetails.Request :=
  {| ConnectionDetails.x_user_id := Some (js "bob");
     ConnectionDetails.x_user_name := None;
     ConnectionDetails.x_session_id := Some (js "3f0c9a52-uuid");
     ConnectionDetails.body := Normal (JObject []) |}.

(** The details of an answer, when it is a 200. *)
Definition details (r : ConnectionDetails.Response)
  : option ConnectionDetails.Details :=
  match r with
  | ConnectionDetails.Json200 d => Some d
  | _ => None
  end.

(** A signup of dave. *)
Definition signup_rt : Signup.Runtime :=
  {| Signup.bcrypt_hash := fun _ => js "$2a$12$hash4";
     Signup.insertedId := js "65f0c0ffee";
     Signup.new_Date := 500%Z |}.

Definition dave_form : Form :=
  {| user_id := js "dave"; password := js "s3cret"; name := js "Dave";
     customer_id := js "C-1004" |}.

Definition dave_body : Signup.Body :=
  {| Signup.user_id := Some (js "dave");
     Signup.name := Some (js "Dave");
     Signup.password := Some (js "s3cret");
     Signup.customer_id := Some (js "C-1004") |}.

Definition dave_ok : Signup.Ok :=
  {| Signup.ok_user_id := js "dave";
     Signup.ok_user_name := js "Dave";
     Signup.ok_id := js "65f0c0ffee" |}.

(** A form that asks for alice's user id again. *)
Definition alice_again : Form :=
  {| user_id := js "alice"; password := js "other"; name := js "Alice II";
     customer_id := js "C-2001" |}.

(** [APP_CONFIG_DEFAULTS]: no sandbox, no agent name. *)
Definition APP_CONFIG_DEFAULTS : AppConfig :=
  {| sandboxId := None; agentName := None |}.

(** The storage of a browser in which alice is logged in, of one in which
    only a name was left behind, and of one whose stored name is written
    in Devanagari. *)
Definition logged_in : Storage :=
  setItem (js "user_name") (js "Alice")
    (setItem (js "user_id") (js "alice")
       (setItem (js "session_id") (js "3f0c9a52-uuid") no_items)).

Definition name_left_behind : Storage :=
  setItem (js "user_name") (js "Alice") no_items.

Definition devanagari_name : Storage :=
  setItem (js "user_name") [2309; 2350; 2367; 2340]%N
    (setItem (js "user_id") (js "amit") no_items).

Definition alice_signed_in : AuthUser :=
  {| auth_id := js "alice"; auth_name := Some (js "Alice") |}.

End Walkthrough.

(* ===================================================================== *)
(** * Properties                                                          *)
(* ===================================================================== *)

(** ** Strings *)

Module JSFacts.

Lemma jsstring_eqb_eq a b : jsstring_eqb a b = true <-> a = b.
Proof.
  unfold jsstring_eqb. destruct (list_eq_dec N.eq_dec a b); split; congruence.
Qed.

Lemma jsstring_eqb_refl a : jsstring_eqb a a = true.
Proof. apply jsstring_eqb_eq. reflexivity. Qed.

Lemma falsy_true_iff s : falsy s = true <-> s = [].
Proof. destruct s; simpl; split; congruence. Qed.

Lemma falsy_false_iff s : falsy s = false <-> s <> [].
Proof. destruct s; simpl; split; congruence. Qed.

(** [trimStart] removes a prefix of white space and stops at the first code
    unit that is not white space. *)
Lemma trimStart_spec s :
  exists pre, s = pre ++ trimStart s
              /\ forallb is_white_space pre = true
              /\ match trimStart s with
                 | c :: _ => is_white_space c = false
                 | [] => True
                 end.
Proof.
  induction s as [|c r IH]; simpl.
  - exists []. auto.
  - destruct (is_white_space c) eqn:E.
    + destruct IH as (pre & H1 & H2 & H3).
      exists (c :: pre). simpl. rewrite E, H2. split; [congruence | auto].
    + exists []. simpl. auto.
Qed.

(** [trim] is the input without a white-space prefix and a white-space
    suffix, and its two ends are not white space. *)
Lemma trim_spec s :
  exists pre post,
    s = pre ++ trim s ++ post
    /\ forallb is_white_space pre = true
    /\ forallb is_white_space post = true
    /\ (forall c r, trim s = c :: r -> is_white_space c = false)
    /\ (forall c r, trim s = r ++ [c] -> is_white_space c = false).
Proof.
  unfold trim, trimEnd.
  destruct (trimStart_spec s) as (pre & Hs & Hpre & Hhd).
  destruct (trimStart_spec (rev (trimStart s))) as (q & Hr & Hq & Hlast).
  set (t := trimStart (rev (trimStart s))) in *.
  assert (Hmid : trimStart s = rev t ++ rev q).
  { rewrite <- rev_app_distr, <- Hr, rev_involutive. reflexivity. }
  exists pre, (rev q). repeat split.
  - rewrite <- Hmid. exact Hs.
  - exact Hpre.
  - rewrite forallb_forall in *. intros x Hx. apply Hq. now apply in_rev.
  - intros c r Hc.
    destruct t as [|a t'].
    + simpl in Hc. discriminate.
    + destruct (trimStart s) as [|h tl] eqn:Ets.
      * destruct (rev (a :: t')) eqn:E'; simpl in Hmid; discriminate.
      * rewrite Hc in Hmid. simpl in Hmid. injection Hmid as -> _. exact Hhd.
  - intros c r Hc.
    assert (Ht : t = c :: rev r).
    { rewrite <- (rev_involutive t), Hc, rev_app_distr. reflexivity. }
    rewrite Ht in Hlast. exact Hlast.
Qed.

(** On text of at most four code units, trimming cannot produce four
    digits unless the text already is four digits. *)
Lemma trimStart_length s : (List.length (trimStart s) <= List.length s)%nat.
Proof.
  induction s as [|c r IH]; simpl; [lia|].
  destruct (is_white_space c); simpl; lia.
Qed.

Lemma trimStart_same_length s :
  List.length (trimStart s) = List.length s -> trimStart s = s.
Proof.
  destruct s as [|c r]; simpl; [reflexivity|].
  destruct (is_white_space c); [|reflexivity].
  intros H. pose proof (trimStart_length r). lia.
Qed.

Lemma trim_length s : (List.length (trim s) <= List.length s)%nat.
Proof.
  unfold trim, trimEnd. rewrite length_rev.
  pose proof (trimStart_length (rev (trimStart s))) as H.
  rewrite length_rev in H. pose proof (trimStart_length s). lia.
Qed.

Lemma trim_same_length s : List.length (trim s) = List.length s -> trim s = s.
Proof.
  intros H. unfold trim, trimEnd in *. rewrite length_rev in H.
  pose proof (trimStart_length (rev (trimStart s))) as H1.
  rewrite length_rev in H1. pose proof (trimStart_length s) as H2.
  assert (E1 : trimStart s = s) by (apply trimStart_same_length; lia).
  rewrite E1 in *.
  rewrite trimStart_same_length; [apply rev_involutive|].
  rewrite length_rev. exact H.
Qed.

Lemma test_four_digits_length s :
  test_four_digits s = true -> List.length s = 4%nat.
Proof.
  destruct s as [|a [|b [|c [|d [|e r]]]]]; simpl; congruence.
Qed.

Lemma trim_four_digits_short s :
  (List.length s <= 4)%nat ->
  test_four_digits (trim s) = true -> trim s = s.
Proof.
  intros Hlen H. apply test_four_digits_length in H.
  apply trim_same_length. pose proof (trim_length s). lia.
Qed.

End JSFacts.

(** ** The JSON parser *)

Module JSONFacts.

Lemma skip_ws_length s : List.length (skip_ws s) <= List.length s.
Proof.
  induction s as [|c r IH]; simpl; [lia|].
  destruct (is_json_ws c); simpl; lia.
Qed.

Lemma strip_prefix_length p s r :
  strip_prefix p s = Some r -> List.length r + List.length p = List.length s.
Proof.
  revert s. induction p as [|a p IH]; intros s H; simpl in *.
  - injection H as <-. lia.
  - destruct s as [|b s]; [discriminate|].
    destruct (a =? b)%N; [|discriminate]. apply IH in H. simpl. lia.
Qed.

Lemma parse_string_body_length s acc str r :
  parse_string_body s acc = Some (str, r) -> List.length r < List.length s.
Proof.
  remember (List.length s) as n eqn:Hn.
  assert (Hle : List.length s <= n) by lia. clear Hn.
  revert s acc Hle.
  induction n as [|n IH]; intros s acc Hle H;
    destruct s as [|c s1]; simpl in *; try discriminate; try lia.
  destruct (c =? 34)%N.
  { injection H as _ <-. lia. }
  destruct (c <? 32)%N; [discriminate|].
  destruct (c =? 92)%N.
  - destruct s1 as [|e s2]; [discriminate|].
    destruct (e =? 117)%N.
    + destruct s2 as [|h1 [|h2 [|h3 [|h4 s3]]]]; try discriminate.
      destruct (hex4 h1 h2 h3 h4); [|discriminate].
      apply IH in H; simpl in *; lia.
    + destruct (simple_escape e); [|discriminate].
      apply IH in H; simpl in *; lia.
  - apply IH in H; simpl in *; lia.
Qed.

Lemma take_digits_length s ds r :
  take_digits s = (ds, r) -> List.length r <= List.length s.
Proof.
  revert ds r. induction s as [|c s IH]; simpl; intros ds r H.
  - injection H as <- <-. simpl. lia.
  - destruct (is_digit c).
    + destruct (take_digits s) as [ds' r'] eqn:E. injection H as <- <-.
      specialize (IH _ _ eq_refl). lia.
    + injection H as <- <-. simpl. lia.
Qed.

Lemma sign_part_length s sg r :
  sign_part s = (sg, r) -> List.length r <= List.length s.
Proof.
  unfold sign_part. destruct s as [|c s]; [|destruct (c =? 45)%N];
    intros H; injection H as <- <-; simpl; lia.
Qed.

Lemma int_part_length s i r :
  int_part s = Some (i, r) -> List.length r < List.length s.
Proof.
  unfold int_part. destruct s as [|c s]; [discriminate|].
  destruct (c =? 48)%N.
  - intros H. injection H as <- <-. simpl. lia.
  - destruct (is_digit c); [|discriminate].
    destruct (take_digits s) as [ds r'] eqn:E. apply take_digits_length in E.
    intros H. injection H as <- <-. simpl. lia.
Qed.

Lemma frac_part_length s f r :
  frac_part s = Some (f, r) -> List.length r <= List.length s.
Proof.
  unfold frac_part. destruct s as [|d s].
  - intros H. injection H as <- <-. lia.
  - destruct (d =? 46)%N.
    + destruct (take_digits s) as [ds r'] eqn:E. apply take_digits_length in E.
      destruct ds; [discriminate|]. intros H. injection H as <- <-. simpl. lia.
    + intros H. injection H as <- <-. lia.
Qed.

Lemma exp_part_length s e r :
  exp_part s = Some (e, r) -> List.length r <= List.length s.
Proof.
  unfold exp_part. destruct s as [|c s].
  - intros H. injection H as <- <-. lia.
  - destruct ((c =? 101)%N || (c =? 69)%N).
    + destruct s as [|g s'].
      * simpl. discriminate.
      * destruct ((g =? 43)%N || (g =? 45)%N).
        -- destruct (take_digits s') as [ds r'] eqn:E.
           apply take_digits_length in E.
           destruct ds; [discriminate|]. intros H. injection H as <- <-.
           simpl. lia.
        -- destruct (take_digits (g :: s')) as [ds r'] eqn:E.
           apply take_digits_length in E.
           destruct ds; [discriminate|]. intros H. injection H as <- <-.
           simpl in *. lia.
    + intros H. injection H as <- <-. lia.
Qed.

Lemma parse_number_length s lit r :
  parse_number s = Some (lit, r) -> List.length r < List.length s.
Proof.
  unfold parse_number.
  destruct (sign_part s) as [sg s1] eqn:E1. apply sign_part_length in E1.
  destruct (int_part s1) as [[i s2]|] eqn:E2; [|discriminate].
  apply int_part_length in E2.
  destruct (frac_part s2) as [[f s3]|] eqn:E3; [|discriminate].
  apply frac_part_length in E3.
  destruct (exp_part s3) as [[e s4]|] eqn:E4; [|discriminate].
  apply exp_part_length in E4.
  intros H. injection H as <- <-. lia.
Qed.

Lemma fuel_enough n :
  enough parse_value n
  /\ (forall acc, enough (fun k s => parse_elements k s acc) n)
  /\ (forall acc, enough (fun k s => parse_members k s acc) n).
Proof.
  induction n as [|n (IHv & IHe & IHm)].
  - repeat split; try discriminate.
  - split; [|split].
    + intros s v r H. cbn [parse_value parse_elements parse_members] in H.
      pose proof (skip_ws_length s) as Hws.
      destruct (skip_ws s) as [|c r0] eqn:Es; [discriminate|].
      simpl in Hws.
      destruct (c =? 34)%N eqn:E34.
      { destruct (parse_string_body r0 []) as [[str r']|] eqn:Ep;
          [|discriminate].
        injection H as <- <-. apply parse_string_body_length in Ep as Hl.
        split; [lia|]. intros [|m] Hm; [lia|].
        cbn [parse_value]. rewrite Es, E34, Ep. reflexivity. }
      destruct (c =? 91)%N eqn:E91.
      { pose proof (skip_ws_length r0) as Hws0.
        destruct (skip_ws r0) as [|d r'] eqn:Es0; [discriminate|]. simpl in Hws0.
        destruct (d =? 93)%N eqn:E93.
        - injection H as <- <-. split; [lia|].
          intros [|m] Hm; [lia|].
          cbn [parse_value parse_elements parse_members]. rewrite Es, E34, E91, Es0, E93. reflexivity.
        - destruct (parse_elements n r0 []) as [[l r'']|] eqn:Ep; [|discriminate].
          injection H as <- <-.
          destruct (IHe [] _ _ _ Ep) as [Hl Hfuel].
          split; [lia|]. intros [|m] Hm; [lia|].
          cbn [parse_value parse_elements parse_members].
          rewrite Es, E34, E91, Es0, E93, Hfuel; [reflexivity|lia]. }
      destruct (c =? 123)%N eqn:E123.
      { pose proof (skip_ws_length r0) as Hws0.
        destruct (skip_ws r0) as [|d r'] eqn:Es0; [discriminate|]. simpl in Hws0.
        destruct (d =? 125)%N eqn:E125.
        - injection H as <- <-. split; [lia|].
          intros [|m] Hm; [lia|].
          cbn [parse_value parse_elements parse_members]. rewrite Es, E34, E91, E123, Es0, E125. reflexivity.
        - destruct (parse_members n r0 []) as [[l r'']|] eqn:Ep; [|discriminate].
          injection H as <- <-.
          destruct (IHm [] _ _ _ Ep) as [Hl Hfuel].
          split; [lia|]. intros [|m] Hm; [lia|].
          cbn [parse_value parse_elements parse_members].
          rewrite Es, E34, E91, E123, Es0, E125, Hfuel; [reflexivity|lia]. }
      assert (Hlen : List.length r < S (List.length r0)).
      { repeat match type of H with
               | match strip_prefix ?p ?x with _ => _ end = _ =>
                   let E := fresh "E" in
                   destruct (strip_prefix p x) eqn:E;
                   [ injection H as <- <-; apply strip_prefix_length in E;
                     simpl in *; lia | ]
               end.
        destruct (parse_number (c :: r0)) as [[lit r']|] eqn:E4; [|discriminate].
        injection H as <- <-. apply parse_number_length in E4. simpl in *. lia. }
      split; [lia|]. intros [|m] Hm; [lia|].
          cbn [parse_value parse_elements parse_members].
      rewrite Es, E34, E91, E123. exact H.
    + intros acc s l r H. cbn [parse_value parse_elements parse_members] in H.
      destruct (parse_value n s) as [[v r1]|] eqn:Ev; [|discriminate].
      destruct (IHv _ _ _ Ev) as [Hl1 Hf1].
      pose proof (skip_ws_length r1) as Hws.
      destruct (skip_ws r1) as [|c r'] eqn:Es; [discriminate|]. simpl in Hws.
      destruct (c =? 44)%N eqn:E44.
      * destruct (IHe _ _ _ _ H) as [Hl2 Hf2].
        split; [lia|]. intros [|m] Hm; [lia|].
          cbn [parse_value parse_elements parse_members].
        rewrite Hf1 by lia. rewrite Es, E44. apply Hf2. lia.
      * destruct (c =? 93)%N eqn:E93; [|discriminate].
        injection H as <- <-. split; [lia|].
        intros [|m] Hm; [lia|].
          cbn [parse_value parse_elements parse_members].
        rewrite Hf1 by lia. rewrite Es, E44, E93. reflexivity.
    + intros acc s l r H. cbn [parse_value parse_elements parse_members] in H.
      pose proof (skip_ws_length s) as Hws.
      destruct (skip_ws s) as [|q r0] eqn:Es; [discriminate|]. simpl in Hws.
      destruct (negb (q =? 34)%N) eqn:Eq; [discriminate|].
      destruct (parse_string_body r0 []) as [[k r1]|] eqn:Ek; [|discriminate].
      apply parse_string_body_length in Ek as Hlk.
      pose proof (skip_ws_length r1) as Hws1.
      destruct (skip_ws r1) as [|c r2] eqn:Es1; [discriminate|]. simpl in Hws1.
      destruct (negb (c =? 58)%N) eqn:Ec; [discriminate|].
      destruct (parse_value n r2) as [[v r3]|] eqn:Ev; [|discriminate].
      destruct (IHv _ _ _ Ev) as [Hl3 Hf3].
      pose proof (skip_ws_length r3) as Hws3.
      destruct (skip_ws r3) as [|d r4] eqn:Es3; [discriminate|]. simpl in Hws3.
      destruct (d =? 44)%N eqn:E44.
      * destruct (IHm _ _ _ _ H) as [Hl4 Hf4].
        split; [lia|]. intros [|m] Hm; [lia|].
          cbn [parse_value parse_elements parse_members].
        rewrite Es, Eq, Ek, Es1, Ec. rewrite Hf3 by lia.
        rewrite Es3, E44. apply Hf4. lia.
      * destruct (d =? 125)%N eqn:E125; [|discriminate].
        injection H as <- <-. split; [lia|].
        intros [|m] Hm; [lia|].
          cbn [parse_value parse_elements parse_members].
        rewrite Es, Eq, Ek, Es1, Ec. rewrite Hf3 by lia.
        rewrite Es3, E44, E125. reflexivity.
Qed.

(** The fuel [JSON_parse] supplies is never what makes a parse fail. *)
Theorem parse_value_fuel_independent n text v r :
  parse_value n text = Some (v, r) ->
  parse_value (2 * List.length text + 2) text = Some (v, r).
Proof.
  intros H. destruct (fuel_enough n) as (Hv & _).
  destruct (Hv _ _ _ H) as [_ Hf]. apply Hf. lia.
Qed.

(** A text that parses with some fuel parses with [JSON_parse]. *)
Corollary JSON_parse_complete n text v r :
  parse_value n text = Some (v, r) -> skip_ws r = [] ->
  JSON_parse text = Some v.
Proof.
  intros H Hr. unfold JSON_parse.
  rewrite (parse_value_fuel_independent _ _ H), Hr. reflexivity.
Qed.

End JSONFacts.

(** ** The prompt bridge *)

Module SessionViewFacts.
Import JSFacts SessionView Scenario.

(** The effect that clears the text box never touches the slot or the
    promise counter. *)
Lemma resetInputEffect_rpcPrompt a b :
  rpcPrompt (resetInputEffect a b) = rpcPrompt b.
Proof. unfold resetInputEffect. destruct PromptType_eqb; reflexivity. Qed.

Lemma resetInputEffect_promises a b :
  promises (resetInputEffect a b) = promises b.
Proof. unfold resetInputEffect. destruct PromptType_eqb; reflexivity. Qed.

Lemma resetInputEffect_same st : resetInputEffect st st = st.
Proof.
  unfold resetInputEffect.
  destruct (rpcPrompt st) as [[]|]; reflexivity.
Qed.

(** A handler that returns its state untouched leaves the whole turn
    without effect. *)
Lemma step_unchanged ev st :
  handle ev st = (st, []) -> step ev st = (st, []).
Proof.
  intros H. unfold step. rewrite H, resetInputEffect_same. reflexivity.
Qed.

(** *** Submitting an input prompt *)

Lemma handleInputSubmit_empty st field title description resolve reject :
  rpcPrompt st = Some (PInput field title description resolve reject) ->
  trim (inputValue st) = [] ->
  handleInputSubmit st = (st, []).
Proof.
  intros Hp He. unfold handleInputSubmit. rewrite Hp, He. reflexivity.
Qed.

Lemma handleInputSubmit_accountNumber st title description resolve reject :
  rpcPrompt st = Some (PInput accountNumber title description resolve reject) ->
  trim (inputValue st) <> [] ->
  handleInputSubmit st =
    (setRpcPrompt None st,
     [Resolve resolve
        (JSON_stringify
           [(js "accountNumber", VString (trim (inputValue st)))])]).
Proof.
  intros Hp Hne. unfold handleInputSubmit. rewrite Hp.
  apply falsy_false_iff in Hne. rewrite Hne. reflexivity.
Qed.

Lemma handleInputSubmit_tpin_ok st title description resolve reject :
  rpcPrompt st = Some (PInput tpin title description resolve reject) ->
  test_four_digits (trim (inputValue st)) = true ->
  handleInputSubmit st =
    (setRpcPrompt None st,
     [Resolve resolve
        (JSON_stringify [(js "tpin", VString (trim (inputValue st)))])]).
Proof.
  intros Hp Hd. unfold handleInputSubmit. rewrite Hp.
  destruct (trim (inputValue st)) eqn:E; [discriminate|].
  simpl falsy. cbv iota. rewrite Hd. reflexivity.
Qed.

Lemma handleInputSubmit_tpin_bad st title description resolve reject :
  rpcPrompt st = Some (PInput tpin title description resolve reject) ->
  test_four_digits (trim (inputValue st)) = false ->
  handleInputSubmit st = (st, []).
Proof.
  intros Hp Hd. unfold handleInputSubmit. rewrite Hp.
  destruct (falsy _); [reflexivity|]. rewrite Hd. reflexivity.
Qed.

(** C3 (as amended): for every TPIN submission whose value, once its
    leading and trailing white space is trimmed, is not exactly four ASCII
    digits, [handleInputSubmit] returns without doing anything: the slot
    and the text box are unchanged (the prompt stays pending) and no
    payload is sent to the caller.  The same holds for the whole turn of
    the event loop. *)
Theorem C3_tpin_not_four_digits_rejected_locally
  st title description resolve reject :
  rpcPrompt st = Some (PInput tpin title description resolve reject) ->
  test_four_digits (trim (inputValue st)) = false ->
  handleInputSubmit st = (st, []) /\ step InputSubmit st = (st, []).
Proof.
  intros Hp Hd.
  assert (H : handleInputSubmit st = (st, []))
    by (eapply handleInputSubmit_tpin_bad; eassumption).
  split; [exact H | apply step_unchanged; exact H].
Qed.

(** Within the four code units that [maxLength] allows in the TPIN box the
    check on the trimmed text and the check on the text as typed agree. *)
Lemma tpin_raw_check_within_maxLength v :
  (List.length v <= 4)%nat ->
  test_four_digits v = false -> test_four_digits (trim v) = false.
Proof.
  intros Hlen Hraw. destruct (test_four_digits (trim v)) eqn:E; [|reflexivity].
  rewrite (trim_four_digits_short v Hlen E) in E. congruence.
Qed.

Lemma C3_witness :
  rpcPrompt (tpin_pending (js "12a4"))
    = Some (PInput tpin (js "Transaction PIN")
                   (js "Enter your transaction PIN") 0 0)
  /\ test_four_digits (trim (inputValue (tpin_pending (js "12a4")))) = false
  /\ handleInputSubmit (tpin_pending (js "12a4"))
       = (tpin_pending (js "12a4"), [])
  /\ step InputSubmit (tpin_pending (js "12a4"))
       = (tpin_pending (js "12a4"), []).
Proof.
  split; [reflexivity|]. split; [reflexivity|].
  apply (@C3_tpin_not_four_digits_rejected_locally
           (tpin_pending (js "12a4")) (js "Transaction PIN")
           (js "Enter your transaction PIN") 0 0);
    reflexivity.
Defined.

(** C3 (as stated) fails: the text [ 1234] (a space, then four digits) is
    not four digits, yet submitting it to a TPIN prompt clears the slot and
    answers the caller with [{"tpin":"1234"}].  The text can be in the box
    although the TPIN box limits typing to four code units: it was typed
    into the payee-account box, and a [requestTpin] call then replaced the
    prompt without the box being cleared (both prompts have type
    [input]). *)
Lemma C3_counterexample_padded_tpin :
  test_four_digits (inputValue (tpin_pending (js " 1234"))) = false
  /\ handleInputSubmit (tpin_pending (js " 1234"))
     = (setRpcPrompt None (tpin_pending (js " 1234")),
        [Resolve 0 (js "{" ++ quote (js "tpin") ++ js ":"
                           ++ quote (js "1234") ++ js "}")])
  /\ snd (run [RpcRequestPayeeAccNo []; Change (js " 1234");
               RpcRequestTpin []; InputSubmit] initial)
     = [Resolve 1 (js "{" ++ quote (js "tpin") ++ js ":"
                          ++ quote (js "1234") ++ js "}")].
Proof. repeat split; vm_compute; reflexivity. Qed.

(** C10: under an input prompt of either field, (1) a submission whose
    value trims to the empty string produces no reply and leaves the state
    as it was, prompt pending; (2) whenever a submission does produce a
    reply, that reply resolves the held call with the object whose one
    property, named after the field, is the trimmed value, and the slot is
    cleared; (3) the [accountNumber] field accepts every value whose
    trimmed text is not empty, whatever its format.  ([trim_spec]: the
    trimmed value is the typed text without its leading and trailing white
    space.) *)
Theorem C10_input_submission_is_trimmed
  st field title description resolve reject :
  rpcPrompt st = Some (PInput field title description resolve reject) ->
  (trim (inputValue st) = [] ->
     handleInputSubmit st = (st, []) /\ step InputSubmit st = (st, []))
  /\ (forall st' fx,
        handleInputSubmit st = (st', fx) -> fx <> [] ->
        fx = [Resolve resolve
                (JSON_stringify
                   [(field_key field, VString (trim (inputValue st)))])]
        /\ st' = setRpcPrompt None st)
  /\ (field = accountNumber -> trim (inputValue st) <> [] ->
        handleInputSubmit st =
          (setRpcPrompt None st,
           [Resolve resolve
              (JSON_stringify
                 [(js "accountNumber", VString (trim (inputValue st)))])])).
Proof.
  intros Hp. split; [|split].
  - intros He.
    assert (H : handleInputSubmit st = (st, []))
      by (eapply handleInputSubmit_empty; eassumption).
    split; [exact H | apply step_unchanged; exact H].
  - intros st' fx Hs Hfx. unfold handleInputSubmit in Hs. rewrite Hp in Hs.
    destruct (falsy (trim (inputValue st))).
    + injection Hs as <- <-. congruence.
    + destruct (is_tpin field && negb (test_four_digits (trim (inputValue st)))).
      * injection Hs as <- <-. congruence.
      * injection Hs as <- <-. destruct field; split; reflexivity.
  - intros -> Hne. eapply handleInputSubmit_accountNumber; eassumption.
Qed.

Lemma C10_witness :
  rpcPrompt (payee_pending (js "  ab-12 x  "))
    = Some (PInput accountNumber (js "Payee account number")
                   (js "Enter the payee account number") 0 0)
  /\ handleInputSubmit (payee_pending (js "  ab-12 x  "))
     = (setRpcPrompt None (payee_pending (js "  ab-12 x  ")),
        [Resolve 0 (js "{" ++ quote (js "accountNumber") ++ js ":"
                           ++ quote (js "ab-12 x") ++ js "}")]).
Proof.
  split; [reflexivity|].
  destruct (@C10_input_submission_is_trimmed
              (payee_pending (js "  ab-12 x  ")) accountNumber
              (js "Payee account number")
              (js "Enter the payee account number") 0 0 eq_refl)
    as (_ & _ & H).
  rewrite H; [reflexivity | reflexivity | vm_compute; discriminate].
Defined.

(** *** Cancelling *)

Lemma cancel_text_stringify t :
  cancel_text t =
    match t with
    | TInput => JSON_stringify [(js "tpin", VNumber (-1));
                                (js "accountNumber", VNumber (-1))]
    | TChooseAccount => JSON_stringify [(js "accountId", VNumber (-1))]
    end.
Proof. destruct t; vm_compute; reflexivity. Qed.

(** What the agent reads back from the two cancellation texts. *)
Lemma cancel_text_parses :
  JSON_parse (cancel_text TChooseAccount)
    = Some (JObject [(js "accountId", JNumber (js "-1"))])
  /\ JSON_parse (cancel_text TInput)
    = Some (JObject [(js "tpin", JNumber (js "-1"));
                     (js "accountNumber", JNumber (js "-1"))]).
Proof. split; vm_compute; reflexivity. Qed.

(** C2 (as amended): whatever prompt is pending, cancelling resolves the
    held call (it does not reject it) and clears the slot; the payload is
    [{"accountId":-1}] for an account choice and
    [{"tpin":-1,"accountNumber":-1}] for an input prompt of either field:
    the relevant properties are the JSON number -1 (not the string "-1"),
    never an empty string or an error payload. *)
Theorem C2_cancel_resolves_with_number_minus_one st pr :
  rpcPrompt st = Some pr ->
  handleAccountCancel st
    = (setRpcPrompt None st,
       [Resolve (resolve_of pr) (cancel_text (type_of pr))])
  /\ rpcPrompt (fst (step AccountCancel st)) = None
  /\ snd (step AccountCancel st)
     = [Resolve (resolve_of pr) (cancel_text (type_of pr))]
  /\ match type_of pr with
     | TChooseAccount =>
         JSON_parse (cancel_text (type_of pr))
           = Some (JObject [(js "accountId", JNumber (js "-1"))])
     | TInput =>
         JSON_parse (cancel_text (type_of pr))
           = Some (JObject [(js "tpin", JNumber (js "-1"));
                            (js "accountNumber", JNumber (js "-1"))])
     end.
Proof.
  intros Hp.
  assert (H : handleAccountCancel st
              = (setRpcPrompt None st,
                 [Resolve (resolve_of pr) (cancel_text (type_of pr))])).
  { unfold handleAccountCancel. rewrite Hp, cancel_text_stringify.
    destruct (type_of pr); reflexivity. }
  split; [exact H|].
  unfold step. simpl handle. rewrite H. cbn [fst snd].
  rewrite resetInputEffect_rpcPrompt.
  split; [reflexivity|]. split; [reflexivity|].
  destruct (type_of pr); apply cancel_text_parses.
Qed.

Lemma C2_witness :
  rpcPrompt (tpin_pending (js "12a4"))
    = Some (PInput tpin (js "Transaction PIN")
                   (js "Enter your transaction PIN") 0 0)
  /\ handleAccountCancel (tpin_pending (js "12a4"))
     = (setRpcPrompt None (tpin_pending (js "12a4")),
        [Resolve 0 (js "{" ++ quote (js "tpin") ++ js ":-1,"
                           ++ quote (js "accountNumber") ++ js ":-1}")]).
Proof.
  split; [reflexivity|].
  exact (proj1 (@C2_cancel_resolves_with_number_minus_one
                  (tpin_pending (js "12a4")) _ eq_refl)).
Defined.

(** C2 (as stated) fails: cancelling an account choice answers
    [{"accountId":-1}], whose [accountId] is the number -1; the text is not
    [{"accountId":"-1"}] and does not parse to the string "-1". *)
Lemma C2_counterexample_sentinel_is_a_number :
  handleAccountCancel choose_pending
    = (setRpcPrompt None choose_pending,
       [Resolve 0 (js "{" ++ quote (js "accountId") ++ js ":-1}")])
  /\ js "{" ++ quote (js "accountId") ++ js ":-1}"
     <> JSON_stringify [(js "accountId", VString (js "-1"))]
  /\ JSON_parse (js "{" ++ quote (js "accountId") ++ js ":-1}")
     = Some (JObject [(js "accountId", JNumber (js "-1"))])
  /\ JSON_parse (js "{" ++ quote (js "accountId") ++ js ":-1}")
     <> Some (JObject [(js "accountId", JString (js "-1"))]).
Proof.
  split; [vm_compute; reflexivity|].
  split; [vm_compute; discriminate|].
  split; [vm_compute; reflexivity|].
  vm_compute; discriminate.
Qed.

(** *** A second call while a prompt is pending *)

Ltac crush_handler :=
  repeat match goal with
         | H : (_, _) = (_, _) |- _ => injection H as <- <-
         | H : context [match ?x with _ => _ end] |- _ =>
             destruct x eqn:?; try discriminate
         | H : Some _ = Some _ |- _ => injection H as <-
         end.

Ltac shape_tac :=
  simpl;
  split; [lia|];
  split;
  [ intros q Hq; simpl in Hq;
    repeat match goal with
           | H : _ \/ _ |- _ => destruct H
           | H : False |- _ => destruct H
           end;
    subst; eauto
  | intros pr' Hpr'; simpl in Hpr'; try discriminate;
    try (injection Hpr' as <-; simpl; right; lia);
    try (left; congruence);
    auto ].

(** Every handler settles either the promise in the slot or the promise it
    has just created, and leaves in the slot either what was there, nothing,
    or a prompt for the promise it has just created. *)
Lemma handle_shape ev st st' fx :
  handle ev st = (st', fx) ->
  promises st <= promises st'
  /\ (forall q, In q (settled fx) ->
        q = promises st
        \/ exists pr, rpcPrompt st = Some pr /\ resolve_of pr = q)
  /\ (forall pr', rpcPrompt st' = Some pr' ->
        rpcPrompt st = Some pr'
        \/ (resolve_of pr' = promises st /\ promises st < promises st')).
Proof.
  intros H.
  destruct ev; simpl in H;
    [ unfold handleChooseAccount, newPromise in H
    | unfold handleRequestPayeeAccNo, newPromise in H
    | unfold handleRequestTpin, newPromise in H
    | unfold handleAccountSelect in H
    | unfold handleAccountCancel in H
    | unfold handleInputSubmit in H
    | injection H as <- <-; unfold handleChange;
      destruct (rpcPrompt st) as [[]|] eqn:E;
      [ | destruct (_ && _) | ]; shape_tac ];
    crush_handler; shape_tac.
Qed.

Lemma step_shape ev st st' fx :
  step ev st = (st', fx) ->
  promises st <= promises st'
  /\ (forall q, In q (settled fx) ->
        q = promises st
        \/ exists pr, rpcPrompt st = Some pr /\ resolve_of pr = q)
  /\ (forall pr', rpcPrompt st' = Some pr' ->
        rpcPrompt st = Some pr'
        \/ (resolve_of pr' = promises st /\ promises st < promises st')).
Proof.
  unfold step. destruct (handle ev st) as [st1 fx1] eqn:H.
  intros E. injection E as <- <-.
  rewrite resetInputEffect_rpcPrompt, resetInputEffect_promises.
  eapply handle_shape; eassumption.
Qed.

Lemma step_slot_wf ev st : slot_wf st -> slot_wf (fst (step ev st)).
Proof.
  intros Hwf. destruct (step ev st) as [st' fx] eqn:E. simpl.
  destruct (step_shape _ _ E) as (Hle & _ & Hslot).
  intros pr' Hpr'. destruct (Hslot _ Hpr') as [Hold | [-> Hlt]]; [|exact Hlt].
  specialize (Hwf _ Hold). lia.
Qed.

Lemma run_slot_wf evs st : slot_wf st -> slot_wf (fst (run evs st)).
Proof.
  revert st. induction evs as [|ev rest IH]; intros st Hwf; simpl; [exact Hwf|].
  pose proof (step_slot_wf ev Hwf) as H1.
  destruct (step ev st) as [st1 fx1]. simpl in H1.
  specialize (IH st1 H1). destruct (run rest st1) as [st2 fx2]. exact IH.
Qed.

(** Every state the component reaches from its mount satisfies [slot_wf]. *)
Lemma reachable_slot_wf evs : slot_wf (fst (run evs initial)).
Proof. apply run_slot_wf. intros pr H. discriminate. Qed.

(** Once a promise is out of the slot, no turn settles it or brings it
    back. *)
Lemma step_orphan p ev st st' fx :
  orphan p st -> step ev st = (st', fx) ->
  orphan p st' /\ ~ In p (settled fx).
Proof.
  intros [Hlt Hslot] E.
  destruct (step_shape _ _ E) as (Hle & Hfx & Hnew).
  split; [split|].
  - lia.
  - intros pr' Hpr'. destruct (Hnew _ Hpr') as [Hold | [-> _]].
    + apply Hslot. exact Hold.
    + lia.
  - intros Hin. destruct (Hfx _ Hin) as [-> | (pr & Hpr & Hres)].
    + lia.
    + exact (Hslot _ Hpr Hres).
Qed.

Lemma run_orphan p evs st :
  orphan p st -> ~ In p (settled (snd (run evs st))).
Proof.
  revert st. induction evs as [|ev rest IH]; intros st Ho; simpl; [tauto|].
  destruct (step ev st) as [st1 fx1] eqn:E.
  destruct (@step_orphan _ _ _ _ _ Ho E) as [Ho1 Hfx1].
  specialize (IH st1 Ho1). destruct (run rest st1) as [st2 fx2].
  simpl in *. unfold settled in *. rewrite map_app, in_app_iff. tauto.
Qed.

(** The two input methods accept every call, pending prompt or not. *)
Lemma input_calls_always_accepted payload st :
  snd (step (RpcRequestPayeeAccNo payload) st) = []
  /\ snd (step (RpcRequestTpin payload) st) = [].
Proof. split; reflexivity. Qed.

(** C1 (as amended): the slot holds at most one prompt at any instant, but
    a second RPC call (any of the three methods) that arrives while a
    prompt is pending and is taken up by its handler is neither rejected
    nor queued: its prompt replaces the pending one in the slot at once,
    and the call that was pending is dropped, that is, whatever happens
    afterwards, it is never resolved and never rejected. *)
Theorem C1_second_call_replaces_prompt_and_drops_first st pr ev st1 :
  rpcPrompt st = Some pr ->
  resolve_of pr < promises st ->
  is_rpc ev = true ->
  step ev st = (st1, []) ->
  (forall p1 p2, rpcPrompt st1 = Some p1 -> rpcPrompt st1 = Some p2 -> p1 = p2)
  /\ (exists pr1,
        rpcPrompt st1 = Some pr1
        /\ resolve_of pr1 = promises st
        /\ resolve_of pr1 <> resolve_of pr)
  /\ forall evs, ~ In (resolve_of pr) (settled (snd (run evs st1))).
Proof.
  intros Hp Hlt Hrpc Hstep.
  split; [congruence|].
  assert (Hslot : exists pr1, rpcPrompt st1 = Some pr1
                              /\ resolve_of pr1 = promises st
                              /\ promises st < promises st1).
  { unfold step in Hstep. destruct (handle ev st) as [st' fx] eqn:Hh.
    injection Hstep as <- ->. rewrite resetInputEffect_rpcPrompt,
      resetInputEffect_promises.
    destruct ev; try discriminate; simpl in Hh;
      unfold handleChooseAccount, handleRequestPayeeAccNo, handleRequestTpin,
             newPromise in Hh;
      crush_handler; try (injection Hh as <-); simpl; eexists;
      (split; [reflexivity|]); simpl;
      split; auto. }
  destruct Hslot as (pr1 & Hs1 & Hr1 & Hlt1).
  split.
  - exists pr1. repeat split; auto. lia.
  - intros evs. apply run_orphan. split; [lia|].
    intros pr' Hpr'. rewrite Hs1 in Hpr'. injection Hpr' as <-. lia.
Qed.

Lemma C1_witness :
  rpcPrompt (tpin_pending []) 
    = Some (PInput tpin (js "Transaction PIN")
                   (js "Enter your transaction PIN") 0 0)
  /\ 0 < promises (tpin_pending [])
  /\ is_rpc (RpcRequestPayeeAccNo []) = true
  /\ step (RpcRequestPayeeAccNo []) (tpin_pending [])
     = ({| rpcPrompt :=
             Some (PInput accountNumber (js "Payee account number")
                          (js "Enter the payee account number") 1 1);
           inputValue := [];
           promises := 2 |}, [])
  /\ forall evs,
       ~ In 0 (settled
                 (snd (run evs
                         {| rpcPrompt :=
                              Some (PInput accountNumber
                                      (js "Payee account number")
                                      (js "Enter the payee account number")
                                      1 1);
                            inputValue := [];
                            promises := 2 |}))).
Proof.
  split; [reflexivity|]. split; [simpl; lia|]. split; [reflexivity|].
  split; [reflexivity|].
  exact (proj2 (proj2 (@C1_second_call_replaces_prompt_and_drops_first
                         (tpin_pending []) _ (RpcRequestPayeeAccNo []) _
                         eq_refl (Nat.lt_0_succ 0) eq_refl eq_refl))).
Defined.

(** C1 (as stated) fails: [requestTpin] is called, and while its prompt is
    pending [requestPayeeAccNo] is called.  The second call is not
    rejected (nothing is settled) and not queued (its prompt is in the slot
    at once).  The user then answers and presses every button there is:
    only the second call ever gets a reply; the first call's promise
    (number 0) is silently dropped. *)
Lemma C1_counterexample_first_call_dropped :
  run [RpcRequestTpin []; RpcRequestPayeeAccNo []] initial
    = ({| rpcPrompt :=
            Some (PInput accountNumber (js "Payee account number")
                         (js "Enter the payee account number") 1 1);
          inputValue := [];
          promises := 2 |}, [])
  /\ snd (run [RpcRequestTpin []; RpcRequestPayeeAccNo [];
               Change (js "42"); InputSubmit;
               AccountCancel; InputSubmit; AccountSelect (js "acc1")]
              initial)
     = [Resolve 1 (js "{" ++ quote (js "accountNumber") ++ js ":"
                          ++ quote (js "42") ++ js "}")]
  /\ rpcPrompt
       (fst (run [RpcRequestTpin []; RpcRequestPayeeAccNo [];
                  Change (js "42"); InputSubmit;
                  AccountCancel; InputSubmit; AccountSelect (js "acc1")]
                 initial))
     = None.
Proof. repeat split; vm_compute; reflexivity. Qed.

(** *** The payload of a call *)








(** Scenario C of the specification: two accounts are offered, the user
    picks the first, the call resolves with its identifier. *)
Lemma scenario_choose_account :
  run [RpcChooseAccount
         (js "{" ++ quote (js "accounts") ++ js ":[{" ++ quote (js "id")
             ++ js ":" ++ quote (js "acc1") ++ js "},{" ++ quote (js "id")
             ++ js ":" ++ quote (js "acc2") ++ js "}]}");
       AccountSelect (js "acc1")] initial
  = ({| rpcPrompt := None; inputValue := []; promises := 1 |},
     [Resolve 0 (js "{" ++ quote (js "accountId") ++ js ":"
                        ++ quote (js "acc1") ++ js "}")]).
Proof. vm_compute. reflexivity. Qed.

(** Scenario D: the user types [12a4] into the TPIN prompt, submits (nothing
    happens), then cancels: the call resolves with the cancellation text,
    never with the partial input. *)
Lemma scenario_tpin_cancel :
  run [RpcRequestTpin []; Change (js "12a4"); InputSubmit; AccountCancel]
      initial
  = ({| rpcPrompt := None; inputValue := []; promises := 1 |},
     [Resolve 0 (cancel_text TInput)]).
Proof. vm_compute. reflexivity. Qed.

End SessionViewFacts.

(** ** The session store and the login / logout routes *)

Module SessionStoreFacts.
Import JSFacts.

Lemma live_session_filter_iff sid uid now s :
  live_session_filter sid uid now s = true
  <-> Sessions.session_id s = sid /\ Sessions.user_id s = uid
      /\ Sessions.active s = true /\ (now < Sessions.expires_at s)%Z.
Proof.
  unfold live_session_filter.
  rewrite !andb_true_iff, !jsstring_eqb_eq, Z.ltb_lt.
  destruct (Sessions.active s); simpl; intuition congruence.
Qed.

(** [validate] is true exactly when a matching live record exists. *)
Lemma validate_iff db sid uid now :
  validate db sid uid now = true
  <-> exists s, In s (sessions db)
                /\ Sessions.session_id s = sid /\ Sessions.user_id s = uid
                /\ Sessions.active s = true
                /\ (now < Sessions.expires_at s)%Z.
Proof.
  unfold validate, findOne.
  destruct (find _ _) as [s|] eqn:E; split; try discriminate; auto.
  - intros _. apply find_some in E. destruct E as [Hin Hf].
    exists s. split; [exact Hin|]. now apply live_session_filter_iff.
  - intros (s & Hin & H). pose proof (find_none _ _ E s Hin) as Hn.
    apply live_session_filter_iff in H. congruence.
Qed.

(** For the one record of a session: valid until the last instant before
    expiry, invalid from the expiry on. *)
Lemma validate_window db s now :
  only_record db s -> Sessions.active s = true ->
  validate db (Sessions.session_id s) (Sessions.user_id s) now = true
  <-> (now < Sessions.expires_at s)%Z.
Proof.
  intros [Hin Huniq] Hact. rewrite validate_iff. split.
  - intros (s' & Hin' & Hsid & _ & _ & Hlt).
    rewrite (Huniq s' Hin' Hsid) in Hlt. exact Hlt.
  - intros Hlt. exists s. auto.
Qed.

End SessionStoreFacts.

(** ** The connection-details route *)

Module ConnectionDetailsFacts.
Import JSFacts SessionStoreFacts ConnectionDetails Scenario.

Lemma configured_inv env :
  configured env ->
  exists url key secret,
    LIVEKIT_URL env = Some url /\ LIVEKIT_API_KEY env = Some key
    /\ LIVEKIT_API_SECRET env = Some secret.
Proof.
  intros (Hu & Hk & Hs).
  destruct (LIVEKIT_URL env) as [url|]; [|congruence].
  destruct (LIVEKIT_API_KEY env) as [key|]; [|congruence].
  destruct (LIVEKIT_API_SECRET env) as [secret|]; [|congruence].
  exists url, key, secret. auto.
Qed.

(** A request without a user id is refused before anything else is done. *)
Lemma POST_missing_user env db now req :
  configured env -> falsy_opt (x_user_id req) = true ->
  POST env db now req = (Text401 (js "Unauthorized: missing user id"), []).
Proof.
  intros Hc Hf. destruct (configured_inv Hc) as (url & key & secret & Hu & Hk & Hs).
  unfold POST. rewrite Hu, Hk, Hs.
  destruct (x_user_id req) as [uid|]; [|reflexivity].
  simpl in Hf. rewrite Hf. reflexivity.
Qed.

(** A non-empty session id that is not live is refused after the one
    session query. *)
Lemma POST_invalid_session env db now req uid sid :
  configured env ->
  x_user_id req = Some uid -> uid <> [] ->
  x_session_id req = Some sid -> sid <> [] ->
  validate db sid uid now = false ->
  POST env db now req
    = (Text401 (js "Unauthorized: invalid session"), [FindSession sid uid now]).
Proof.
  intros Hc Hu Hune Hs Hsne Hv.
  destruct (configured_inv Hc) as (url & key & secret & Eu & Ek & Es).
  unfold POST. rewrite Eu, Ek, Es, Hu, Hs.
  apply falsy_false_iff in Hune. apply falsy_false_iff in Hsne.
  rewrite Hune. simpl falsy_opt. rewrite Hsne.
  unfold validate in Hv.
  destruct (findOne _ _); [discriminate | reflexivity].
Qed.

(** When [new AccessToken] and [toJwt] go through and when they throw. *)
Lemma createParticipantToken_inv message key secret ui r a t :
  createParticipantToken message key secret ui r a = Normal t ->
  key <> [] /\ secret <> []
  /\ identity t = ui_identity ui /\ name t = ui_name ui
  /\ metadata t = ui_metadata ui /\ ttl t = js "15m"
  /\ grants t = [room_grant r].
Proof.
  unfold createParticipantToken.
  destruct (falsy key) eqn:Ek; [discriminate|].
  destruct (falsy secret) eqn:Es; [discriminate|].
  apply falsy_false_iff in Ek, Es. cbn [orb].
  destruct a as [v|];
    [destruct (truthy v); [destruct (is_string v); [|discriminate]|]|];
    intros H; injection H as <-; repeat split; assumption.
Qed.

Lemma createParticipantToken_keys message key secret ui r a :
  falsy key || falsy secret = true ->
  createParticipantToken message key secret ui r a
  = Throw (js "api-key and api-secret must be set").
Proof. unfold createParticipantToken. intros ->. reflexivity. Qed.

Lemma createParticipantToken_ok message key secret ui r a :
  falsy key || falsy secret = false ->
  match a with Some v => negb (truthy v) || is_string v | None => true end
  = true ->
  exists t, createParticipantToken message key secret ui r a = Normal t.
Proof.
  unfold createParticipantToken. intros -> Ha.
  destruct a as [v|]; [|eauto].
  destruct (truthy v); [|eauto].
  simpl in Ha. rewrite Ha. eauto.
Qed.

Lemma createParticipantToken_not_a_string message key secret ui r a :
  falsy key || falsy secret = false ->
  match a with Some v => negb (truthy v) || is_string v | None => true end
  = false ->
  exists v, a = Some v
            /\ createParticipantToken message key secret ui r a
               = Throw (message v).
Proof.
  unfold createParticipantToken. intros -> Ha.
  destruct a as [v|]; [|discriminate]. exists v. split; [reflexivity|].
  destruct (truthy v); [|discriminate].
  simpl in Ha. rewrite Ha. reflexivity.
Qed.

Lemma key_ok_falsy env key secret :
  LIVEKIT_API_KEY env = Some key -> LIVEKIT_API_SECRET env = Some secret ->
  key_ok env = negb (falsy key || falsy secret).
Proof.
  unfold key_ok. intros -> ->. simpl.
  destruct (falsy key), (falsy secret); reflexivity.
Qed.

(** Every answer other than the two above went past the checks: it is
    the connection details, or a 500 with the message of the error thrown
    by the body parser, by [new AccessToken] or by [toJwt]; a credential
    was issued only in the former case. *)
Lemma POST_authorized env db now req :
  configured env -> unauthorized db now req = false ->
  match body req with
  | Normal b =>
      if key_ok env
      then if agent_name_ok b
           then exists d, fst (POST env db now req) = Json200 d
           else exists v,
                  agent_name_of b = Some v
                  /\ fst (POST env db now req)
                     = Text500 (toJwt_message env v)
      else fst (POST env db now req)
           = Text500 (js "api-key and api-secret must be set")
  | Throw e => fst (POST env db now req) = Text500 e
  end.
Proof.
  intros Hc Hu.
  destruct (configured_inv Hc) as (url & key & secret & Eu & Ek & Es).
  rewrite (@key_ok_falsy env key secret Ek Es).
  unfold unauthorized in Hu. unfold POST, agent_name_ok. rewrite Eu, Ek, Es.
  destruct (x_user_id req) as [uid|]; [|discriminate].
  apply orb_false_iff in Hu. destruct Hu as [Hf Hs]. rewrite Hf.
  assert (Hpast :
    falsy_opt (x_session_id req) = true
    \/ (falsy_opt (x_session_id req) = false
        /\ exists s,
             findOne (live_session_filter
                        match x_session_id req with
                        | Some s => s
                        | None => []
                        end uid now) (sessions db) = Some s)).
  { destruct (x_session_id req) as [sid|]; [|left; reflexivity].
    simpl falsy_opt. destruct (falsy sid); [left; reflexivity|].
    right. split; [reflexivity|].
    simpl in Hs. apply negb_false_iff in Hs. unfold validate in Hs.
    destruct (findOne _ _) as [s|]; [eauto | discriminate]. }
  destruct Hpast as [-> | (-> & s & ->)];
    (destruct (body req) as [b|e]; [|reflexivity]);
    (destruct (falsy key || falsy secret) eqn:Eks; cbn [negb];
     [rewrite createParticipantToken_keys by exact Eks; reflexivity|]);
    destruct (match agent_name_of b with
              | Some v => negb (truthy v) || is_string v
              | None => true
              end) eqn:Ea;
    match goal with
    | |- context [createParticipantToken ?m ?k ?sc ?ui ?r ?a] =>
        first
          [ destruct (@createParticipantToken_ok m k sc ui r a Eks Ea)
              as (t & ->); eexists; reflexivity
          | destruct (@createParticipantToken_not_a_string m k sc ui r a
                        Eks Ea) as (v & Hv & ->);
            exists v; split; [exact Hv | reflexivity] ]
    end.
Qed.

Lemma POST_401_iff env db now req :
  configured env ->
  is_401 (fst (POST env db now req)) = true <-> unauthorized db now req = true.
Proof.
  intros Hc. split.
  - intros H. destruct (unauthorized db now req) eqn:Eu; [reflexivity|].
    pose proof (@POST_authorized env db now req Hc Eu) as Ha.
    destruct (body req) as [b|e].
    + destruct (key_ok env).
      * destruct (agent_name_ok b).
        { destruct Ha as (d & Hd). rewrite Hd in H. discriminate. }
        { destruct Ha as (v & _ & Hd). rewrite Hd in H. discriminate. }
      * rewrite Ha in H. discriminate.
    + rewrite Ha in H. discriminate.
  - intros Hu. unfold unauthorized in Hu.
    destruct (x_user_id req) as [uid|] eqn:Euid.
    + apply orb_true_iff in Hu. destruct Hu as [Hf | Hs].
      * rewrite POST_missing_user; auto. rewrite Euid. exact Hf.
      * destruct (falsy uid) eqn:Ef.
        { rewrite POST_missing_user; auto. rewrite Euid. exact Ef. }
        destruct (x_session_id req) as [sid|] eqn:Esid; [|discriminate].
        apply andb_true_iff in Hs. destruct Hs as [Hs1 Hs2].
        apply negb_true_iff in Hs1, Hs2.
        rewrite (@POST_invalid_session env db now req uid sid); auto;
          now apply falsy_false_iff.
    + rewrite POST_missing_user; auto. rewrite Euid. reflexivity.
Qed.

(** The token of every successful answer. *)
Lemma POST_token env db now req d :
  fst (POST env db now req) = Json200 d ->
  exists uid,
    x_user_id req = Some uid /\ uid <> []
    /\ roomName d = js "bank_room_" ++ uid
    /\ identity (participantToken d) = uid
    /\ ttl (participantToken d) = js "15m"
    /\ grants (participantToken d) = [room_grant (js "bank_room_" ++ uid)]
    /\ metadata (participantToken d)
       = JSON_stringify
           [(js "session_id", session_id_property (x_session_id req))].
Proof.
  unfold POST.
  destruct (LIVEKIT_URL env); [|discriminate].
  destruct (LIVEKIT_API_KEY env); [|discriminate].
  destruct (LIVEKIT_API_SECRET env); [|discriminate].
  destruct (x_user_id req) as [uid|]; [|discriminate].
  destruct (falsy uid) eqn:Ef; [discriminate|].
  intros H. exists uid. split; [reflexivity|].
  split; [now apply falsy_false_iff|].
  destruct (falsy_opt (x_session_id req)).
  - destruct (body req); [|discriminate].
    destruct (createParticipantToken _ _ _ _ _ _) as [t|] eqn:Et;
      [|discriminate].
    apply createParticipantToken_inv in Et.
    destruct Et as (_ & _ & Hi & _ & Hm & Ht & Hg).
    simpl in H. injection H as <-. simpl. repeat split; assumption.
  - destruct (findOne _ (sessions db)); [|discriminate].
    destruct (body req); [|discriminate].
    destruct (createParticipantToken _ _ _ _ _ _) as [t|] eqn:Et;
      [|discriminate].
    apply createParticipantToken_inv in Et.
    destruct Et as (_ & _ & Hi & _ & Hm & Ht & Hg).
    simpl in H. injection H as <-. simpl. repeat split; assumption.
Qed.

Lemma stringify_session_id sessionId :
  JSON_stringify [(js "session_id", session_id_property sessionId)]
  = metadata_text sessionId.
Proof.
  destruct sessionId as [sid|]; [|reflexivity].
  unfold metadata_text, JSON_stringify. simpl.
  rewrite <- !app_assoc. reflexivity.
Qed.

(** C5 (as amended): every credential issued by the route has [ttl] 15
    minutes, the identity of the user, and exactly one grant, which names
    the one room [bank_room_<user_id>] with join, publish, publish-data and
    subscribe allowed and no room-independent permission set.  Its metadata
    is [{"session_id":<id>}] when the request carried an [X-Session-Id]
    header, and the empty object [{}] when it did not. *)
Theorem C5_credential_scope env db now req d :
  fst (POST env db now req) = Json200 d ->
  exists uid,
    x_user_id req = Some uid /\ uid <> []
    /\ roomName d = js "bank_room_" ++ uid
    /\ identity (participantToken d) = uid
    /\ ttl (participantToken d) = js "15m"
    /\ grants (participantToken d) = [room_grant (js "bank_room_" ++ uid)]
    /\ metadata (participantToken d) = metadata_text (x_session_id req).
Proof.
  intros H. destruct (POST_token _ _ _ _ H) as (uid & H1 & H2 & H3 & H4 & H5 & H6 & H7).
  exists uid. rewrite stringify_session_id in H7. auto 10.
Qed.

Lemma C5_witness :
  exists d,
    fst (POST env0 db1 5000%Z req_with_session) = Json200 d
    /\ roomName d = js "bank_room_alice"
    /\ ttl (participantToken d) = js "15m"
    /\ grants (participantToken d) = [room_grant (js "bank_room_alice")]
    /\ metadata (participantToken d)
       = js "{" ++ quote (js "session_id") ++ js ":"
            ++ quote (js "3f0c9a52-uuid") ++ js "}".
Proof.
  eexists. split; [vm_compute; reflexivity|].
  destruct (@C5_credential_scope env0 db1 5000%Z req_with_session _ eq_refl)
    as (uid & H1 & _ & H3 & _ & H5 & H6 & H7).
  injection H1 as <-. auto.
Defined.

(** C5 (as stated) fails: a request without the [X-Session-Id] header gets
    a credential whose metadata is [{}], which carries no [session_id]. *)
Lemma C5_counterexample_metadata_without_session :
  exists d,
    fst (POST env0 db0 5000%Z req_without_session) = Json200 d
    /\ metadata (participantToken d) = js "{}"
    /\ JSON_parse (metadata (participantToken d)) = Some (JObject [])
    /\ get (JObject []) (js "session_id") = Normal None.
Proof. eexists. repeat split; vm_compute; reflexivity. Qed.







End ConnectionDetailsFacts.

(** ** Login and logout *)

Module AuthFacts.
Import JSFacts SessionStoreFacts ConnectionDetailsFacts Scenario.

Local Open Scope Z_scope.

Lemma login_valid rt body db uid pw user :
  Login.user_id body = Some uid -> Login.password body = Some pw ->
  uid <> [] -> pw <> [] ->
  findOne (user_id_filter uid) (users db) = Some user ->
  Login.bcrypt_compare rt pw (Users.password_hash user) = true ->
  Login.POST rt body db
  = (Login.Json200
       {| Login.ok_session_id := Login.randomUUID rt;
          Login.ok_user_id := uid;
          Login.ok_user_name := match Users.name user with
                                | Some n => n
                                | None => []
                                end;
          Login.ok_expires_at := Login.Date_now rt + 86400000 |},
     {| sessions := sessions db ++ [Login.new_session rt uid];
        users := users db |}).
Proof.
  intros Hu Hp Hune Hpne Hf Hb. unfold Login.POST.
  rewrite Hu, Hp, Hf, Hb.
  apply falsy_false_iff in Hune. apply falsy_false_iff in Hpne.
  rewrite Hune, Hpne. reflexivity.
Qed.

(** With a user id and a non-empty session id, the route answers 401
    exactly when validation fails. *)
Lemma connection_401_iff_invalid env db now req uid sid :
  ConnectionDetails.configured env ->
  ConnectionDetails.x_user_id req = Some uid -> uid <> [] ->
  ConnectionDetails.x_session_id req = Some sid -> sid <> [] ->
  ConnectionDetails.is_401 (fst (ConnectionDetails.POST env db now req)) = true
  <-> validate db sid uid now = false.
Proof.
  intros Hc Hu Hune Hs Hsne. rewrite (POST_401_iff db now req Hc).
  unfold ConnectionDetails.unauthorized. rewrite Hu, Hs.
  apply falsy_false_iff in Hune. apply falsy_false_iff in Hsne.
  rewrite Hune, Hsne. simpl. apply negb_true_iff.
Qed.

(** C4 (as amended): for every valid login the created session is active
    and its [expires_at] is exactly 24 hours after the clock reading
    [Date.now()] from which it is computed; [created_at] is a second, later
    clock reading, so [expires_at] is 24 hours after [created_at] only when
    the clock has not advanced between the two (in general the distance is
    24 hours minus that delay).  Session validation, as the
    connection-details route performs it, is true if and only if a record
    with that session id and user id exists with [active = true] and
    [expires_at > now]: for the one record of a live session it is true up
    to and including the instant before expiry and false at or after
    expiry, and with a non-empty session id the route answers 401 exactly
    when it is false. *)
Theorem C4_login_expiry_and_validation rt body db uid pw user :
  Login.user_id body = Some uid -> Login.password body = Some pw ->
  uid <> [] -> pw <> [] ->
  findOne (user_id_filter uid) (users db) = Some user ->
  Login.bcrypt_compare rt pw (Users.password_hash user) = true ->
  let s := Login.new_session rt uid in
  snd (Login.POST rt body db)
    = {| sessions := sessions db ++ [s]; users := users db |}
  /\ Sessions.active s = true
  /\ Sessions.expires_at s = Login.Date_now rt + 24 * 60 * 60 * 1000
  /\ Sessions.created_at s = Login.new_Date rt
  /\ Sessions.expires_at s - Sessions.created_at s
     = 24 * 60 * 60 * 1000 - (Login.new_Date rt - Login.Date_now rt)
  /\ (forall dbx sid uidx now,
        validate dbx sid uidx now = true
        <-> exists s', In s' (sessions dbx)
                       /\ Sessions.session_id s' = sid
                       /\ Sessions.user_id s' = uidx
                       /\ Sessions.active s' = true
                       /\ now < Sessions.expires_at s')
  /\ (forall dbx, only_record dbx s ->
        validate dbx (Sessions.session_id s) uid
                 (Sessions.expires_at s - 1) = true
        /\ forall now, Sessions.expires_at s <= now ->
             validate dbx (Sessions.session_id s) uid now = false)
  /\ (forall env dbx now req sid,
        ConnectionDetails.configured env ->
        ConnectionDetails.x_user_id req = Some uid ->
        ConnectionDetails.x_session_id req = Some sid -> sid <> [] ->
        ConnectionDetails.is_401
          (fst (ConnectionDetails.POST env dbx now req)) = true
        <-> validate dbx sid uid now = false).
Proof.
  intros Hu Hp Hune Hpne Hf Hb s.
  split; [rewrite (login_valid rt body db Hu Hp Hune Hpne Hf Hb); reflexivity|].
  split; [reflexivity|]. split; [reflexivity|]. split; [reflexivity|].
  split; [unfold s, Login.new_session;
          cbn [Sessions.expires_at Sessions.created_at]; lia|].
  split; [intros; apply validate_iff|].
  split.
  - intros dbx Honly. split.
    + apply (validate_window (Sessions.expires_at s - 1) Honly eq_refl).
      generalize (Sessions.expires_at s). intros z. lia.
    + intros now Hle.
      destruct (validate dbx (Sessions.session_id s) uid now) eqn:E;
        [|reflexivity].
      apply (validate_window now Honly eq_refl) in E.
      revert Hle E. generalize (Sessions.expires_at s). intros z. lia.
  - intros env dbx now req sid Hc Hxu Hxs Hsne.
    apply connection_401_iff_invalid; auto.
Qed.

Lemma C4_witness :
  Login.POST rt0 login_alice db0
    = (Login.Json200
         {| Login.ok_session_id := js "3f0c9a52-uuid";
            Login.ok_user_id := js "alice";
            Login.ok_user_name := js "Alice";
            Login.ok_expires_at := 86401000 |},
       db1)
  /\ snd (Login.POST rt0 login_alice db0) = db1
  /\ validate db1 (js "3f0c9a52-uuid") (js "alice") 86400999 = true
  /\ validate db1 (js "3f0c9a52-uuid") (js "alice") 86401000 = false.
Proof.
  split; [vm_compute; reflexivity|].
  destruct (@C4_login_expiry_and_validation rt0 login_alice db0
              (js "alice") (js "secret") alice
              eq_refl eq_refl ltac:(discriminate) ltac:(discriminate)
              eq_refl eq_refl)
    as (H1 & _ & _ & _ & _ & _ & H7 & _).
  split; [exact H1|].
  assert (Ho : only_record db1 (Login.new_session rt0 (js "alice"))).
  { split; [left; reflexivity|]. intros s' [<-|[]] _. reflexivity. }
  destruct (H7 db1 Ho) as [Hb Ha].
  split; [exact Hb|]. apply Ha. vm_compute. discriminate.
Defined.

(** C4 (as stated) fails: during the login [rt0] the clock reads 1000 when
    [expires_at] is computed and 1003 when [created_at] is taken; the
    session expires 24 hours minus 3 ms after its [created_at]. *)
Lemma C4_counterexample_two_clock_readings :
  snd (Login.POST rt0 login_alice db0) = db1
  /\ sessions db1 = [session0]
  /\ Sessions.expires_at session0 - Sessions.created_at session0 = 86399997
  /\ Sessions.expires_at session0 - Sessions.created_at session0
     <> 24 * 60 * 60 * 1000.
Proof. repeat split; vm_compute; try reflexivity; discriminate. Qed.

(** *** Logout *)

Lemma session_id_filter_revoke sid t d :
  session_id_filter sid (revoke t d) = session_id_filter sid d.
Proof. reflexivity. Qed.

(** The record a logout updates is the one [findOne] finds. *)
Lemma findOne_updateOne_revoke sid t l s :
  findOne (session_id_filter sid) l = Some s ->
  findOne (session_id_filter sid) (updateOne (session_id_filter sid) (revoke t) l)
  = Some (revoke t s).
Proof.
  unfold findOne. induction l as [|d r IH]; simpl; [discriminate|].
  destruct (session_id_filter sid d) eqn:E; simpl.
  - intros H. injection H as <-. rewrite session_id_filter_revoke, E.
    reflexivity.
  - rewrite E. exact IH.
Qed.

(** A later logout overwrites the update of an earlier one. *)
Lemma updateOne_revoke_twice sid t1 t2 l :
  updateOne (session_id_filter sid) (revoke t2)
            (updateOne (session_id_filter sid) (revoke t1) l)
  = updateOne (session_id_filter sid) (revoke t2) l.
Proof.
  induction l as [|d r IH]; simpl; [reflexivity|].
  destruct (session_id_filter sid d) eqn:E; simpl.
  - rewrite session_id_filter_revoke, E. reflexivity.
  - rewrite E, IH. reflexivity.
Qed.

(** Apart from the stamp, the outcome of a logout does not depend on when
    it happened. *)
Lemma updateOne_revoke_without_stamp sid t1 t2 l :
  map without_stamp (updateOne (session_id_filter sid) (revoke t1) l)
  = map without_stamp (updateOne (session_id_filter sid) (revoke t2) l).
Proof.
  induction l as [|d r IH]; simpl; [reflexivity|].
  destruct (session_id_filter sid d); simpl; [reflexivity|].
  rewrite IH. reflexivity.
Qed.

(** C8 (as amended): [POST /auth/logout] with a session id returns [{ok}]
    and sets the [active] flag of that session to false and its revocation
    time to the time of the call.  Calling it again on the now inactive
    session still returns [{ok}] and leaves every field of every record as
    it was except the revocation time, which is overwritten with the time
    of the later call: two logouts amount to the later one alone, and the
    stored state is the same only if both calls carry the same time. *)
Theorem C8_logout_revokes_and_restamps now sid db :
  sid <> [] ->
  fst (Logout.POST now (Some sid) db) = Logout.Ok200
  /\ (forall s,
        findOne (session_id_filter sid) (sessions db) = Some s ->
        exists s',
          findOne (session_id_filter sid)
                  (sessions (snd (Logout.POST now (Some sid) db))) = Some s'
          /\ Sessions.active s' = false
          /\ Sessions.revoked_at s' = Some now
          /\ without_stamp s'
             = (Sessions.session_id s, Sessions.user_id s,
                Sessions.created_at s, Sessions.expires_at s, false))
  /\ (forall now2,
        Logout.POST now2 (Some sid) (snd (Logout.POST now (Some sid) db))
        = (Logout.Ok200, snd (Logout.POST now2 (Some sid) db)))
  /\ (forall now2,
        map without_stamp
            (sessions (snd (Logout.POST now2 (Some sid)
                              (snd (Logout.POST now (Some sid) db)))))
        = map without_stamp (sessions (snd (Logout.POST now (Some sid) db)))
        /\ users (snd (Logout.POST now2 (Some sid)
                         (snd (Logout.POST now (Some sid) db))))
           = users db)
  /\ Logout.POST now (Some sid) (snd (Logout.POST now (Some sid) db))
     = (Logout.Ok200, snd (Logout.POST now (Some sid) db)).
Proof.
  intros Hne. apply falsy_false_iff in Hne.
  unfold Logout.POST. rewrite Hne. cbn [fst snd sessions users].
  split; [reflexivity|]. split; [|split; [|split]].
  - intros s Hs. exists (revoke now s).
    split; [apply findOne_updateOne_revoke; exact Hs|].
    repeat split.
  - intros now2. rewrite updateOne_revoke_twice. reflexivity.
  - intros now2. split; [|reflexivity].
    rewrite updateOne_revoke_twice.
    apply updateOne_revoke_without_stamp.
  - rewrite updateOne_revoke_twice. reflexivity.
Qed.

Lemma C8_witness :
  Logout.POST 7000 (Some (js "3f0c9a52-uuid")) db1
  = (Logout.Ok200,
     {| sessions :=
          [{| Sessions.session_id := js "3f0c9a52-uuid";
              Sessions.user_id := js "alice";
              Sessions.created_at := 1003;
              Sessions.expires_at := 86401000;
              Sessions.active := false;
              Sessions.revoked_at := Some 7000 |}];
        users := [alice] |})
  /\ fst (Logout.POST 7000 (Some (js "3f0c9a52-uuid")) db1) = Logout.Ok200.
Proof.
  split; [vm_compute; reflexivity|].
  apply (@C8_logout_revokes_and_restamps 7000 (js "3f0c9a52-uuid") db1).
  discriminate.
Defined.

(** C8 (as stated) fails: alice logs out at time 7000 and again at time
    9000.  Both calls return [{ok}] and the session stays inactive, but the
    second call changes the stored session: its revocation time moves from
    7000 to 9000. *)
Lemma C8_counterexample_second_logout_restamps :
  Logout.POST 9000 (Some (js "3f0c9a52-uuid"))
              (snd (Logout.POST 7000 (Some (js "3f0c9a52-uuid")) db1))
  = (Logout.Ok200,
     {| sessions :=
          [{| Sessions.session_id := js "3f0c9a52-uuid";
              Sessions.user_id := js "alice";
              Sessions.created_at := 1003;
              Sessions.expires_at := 86401000;
              Sessions.active := false;
              Sessions.revoked_at := Some 9000 |}];
        users := [alice] |})
  /\ snd (Logout.POST 9000 (Some (js "3f0c9a52-uuid"))
                      (snd (Logout.POST 7000 (Some (js "3f0c9a52-uuid")) db1)))
     <> snd (Logout.POST 7000 (Some (js "3f0c9a52-uuid")) db1).
Proof. split; vm_compute; [reflexivity | discriminate]. Qed.

(** Scenarios A and B of the specification: alice logs in and connects
    with the session she got, into the room [bank_room_alice]; after her
    logout the same request is answered 401. *)
Lemma scenario_login_connect_logout :
  snd (Login.POST rt0 login_alice db0) = db1
  /\ (exists d,
        fst (ConnectionDetails.POST env0 db1 5000 req_with_session)
          = ConnectionDetails.Json200 d
        /\ ConnectionDetails.roomName d = js "bank_room_alice")
  /\ ConnectionDetails.POST env0
       (snd (Logout.POST 7000 (Some (js "3f0c9a52-uuid")) db1))
       8000 req_with_session
     = (ConnectionDetails.Text401 (js "Unauthorized: invalid session"),
        [ConnectionDetails.FindSession (js "3f0c9a52-uuid") (js "alice") 8000]).
Proof.
  split; [vm_compute; reflexivity|]. split.
  - eexists. split; vm_compute; reflexivity.
  - vm_compute. reflexivity.
Qed.

End AuthFacts.

(** ** [JSON.parse] reads back what [JSON.stringify] wrote *)

Module RoundTripFacts.
Import Wire.

Local Open Scope N_scope.

Lemma hex_value_hex_digit n : n < 16 -> hex_value (hex_digit n) = Some n.
Proof.
  intros H. unfold hex_value, hex_digit, is_digit.
  destruct (n <? 10) eqn:E.
  - apply N.ltb_lt in E.
    replace ((48 <=? 48 + n) && (48 + n <=? 57)) with true.
    + f_equal. lia.
    + symmetry. apply andb_true_iff. split; apply N.leb_le; lia.
  - apply N.ltb_ge in E.
    replace ((48 <=? 87 + n) && (87 + n <=? 57)) with false.
    + replace ((97 <=? 87 + n) && (87 + n <=? 102)) with true.
      * f_equal. lia.
      * symmetry. apply andb_true_iff. split; apply N.leb_le; lia.
    + symmetry. apply andb_false_iff. right. apply N.leb_gt. lia.
Qed.

Lemma hex4_unicode_escape c :
  c < 65536 ->
  hex4 (hex_digit ((c / 4096) mod 16)) (hex_digit ((c / 256) mod 16))
       (hex_digit ((c / 16) mod 16)) (hex_digit (c mod 16)) = Some c.
Proof.
  intros H. unfold hex4.
  rewrite !hex_value_hex_digit by (apply N.mod_lt; discriminate).
  f_equal.
  zify. Z.to_euclidean_division_equations. lia.
Qed.

Lemma parse_unicode_escape c tail acc :
  c < 65536 ->
  parse_string_body (unicode_escape c ++ tail) acc
  = parse_string_body tail (c :: acc).
Proof.
  intros H. unfold unicode_escape.
  cbn [app parse_string_body].
  change (92 =? 34) with false. change (92 <? 32) with false.
  change (92 =? 92) with true. change (117 =? 117) with true. cbv iota.
  rewrite hex4_unicode_escape by exact H. reflexivity.
Qed.

(** One escaped or raw code unit reads back as itself. *)
Lemma parse_quote_unit c tail acc :
  c < 65536 ->
  parse_string_body (quote_unit c ++ tail) acc
  = parse_string_body tail (c :: acc).
Proof.
  intros H. unfold quote_unit.
  destruct (c =? 8) eqn:E8; [apply N.eqb_eq in E8; subst; reflexivity|].
  destruct (c =? 9) eqn:E9; [apply N.eqb_eq in E9; subst; reflexivity|].
  destruct (c =? 10) eqn:E10; [apply N.eqb_eq in E10; subst; reflexivity|].
  destruct (c =? 12) eqn:E12; [apply N.eqb_eq in E12; subst; reflexivity|].
  destruct (c =? 13) eqn:E13; [apply N.eqb_eq in E13; subst; reflexivity|].
  destruct (c =? 34) eqn:E34; [apply N.eqb_eq in E34; subst; reflexivity|].
  destruct (c =? 92) eqn:E92; [apply N.eqb_eq in E92; subst; reflexivity|].
  destruct (c <? 32) eqn:E32; [apply parse_unicode_escape; exact H|].
  destruct (is_leading_surrogate c || is_trailing_surrogate c);
    [apply parse_unicode_escape; exact H|].
  cbn [app parse_string_body]. rewrite E34, E32, E92. reflexivity.
Qed.

Lemma surrogate_is_raw c :
  is_leading_surrogate c = true \/ is_trailing_surrogate c = true ->
  (c =? 34) = false /\ (c <? 32) = false /\ (c =? 92) = false.
Proof.
  unfold is_leading_surrogate, is_trailing_surrogate.
  rewrite !andb_true_iff, !N.leb_le, N.eqb_neq, N.ltb_ge, N.eqb_neq. lia.
Qed.

(** The body of a quoted string, followed by the closing quote, reads back
    as the string. *)
Lemma parse_quote_body s : forall tail acc,
  code_units s ->
  parse_string_body (quote_body s ++ 34 :: tail) acc
  = Some (rev acc ++ s, tail).
Proof.
  remember (List.length s) as n eqn:Hn.
  assert (Hle : (List.length s <= n)%nat) by lia. clear Hn. revert s Hle.
  induction n as [|n IH]; intros s Hle tail acc Hcu.
  - destruct s; [|simpl in Hle; lia].
    simpl. rewrite app_nil_r. reflexivity.
  - destruct s as [|c r].
    { simpl. rewrite app_nil_r. reflexivity. }
    inversion Hcu as [|? ? Hc Hr]; subst.
    simpl in Hle. cbn [quote_body].
    assert (Hone : parse_string_body ((quote_unit c ++ quote_body r) ++ 34 :: tail) acc
                   = Some (rev acc ++ c :: r, tail)).
    { rewrite <- app_assoc, parse_quote_unit by exact Hc.
      rewrite IH by (auto; lia). simpl. rewrite <- app_assoc. reflexivity. }
    destruct (is_leading_surrogate c) eqn:El; [|exact Hone].
    destruct r as [|d r'];
      [cbn [quote_body] in Hone; rewrite app_nil_r in Hone; exact Hone|].
    destruct (is_trailing_surrogate d) eqn:Et; [|exact Hone].
    inversion Hr as [|? ? Hd Hr']; subst.
    destruct (surrogate_is_raw c (or_introl El)) as (A1 & A2 & A3).
    destruct (surrogate_is_raw d (or_intror Et)) as (B1 & B2 & B3).
    cbn [app parse_string_body]. rewrite A1, A2, A3, B1, B2, B3.
    rewrite IH by (auto; simpl in Hle; lia).
    simpl. rewrite <- !app_assoc. reflexivity.
Qed.

Lemma parse_quote s tail :
  code_units s ->
  parse_value 1 (quote s ++ tail) = Some (JString s, tail).
Proof.
  intros H. unfold quote. cbn [app parse_value skip_ws].
  change (is_json_ws 34) with false. cbv iota.
  change (34 =? 34) with true. cbv iota.
  rewrite <- app_assoc. cbn [app].
  rewrite parse_quote_body by exact H. reflexivity.
Qed.

(** [JSON.parse(JSON.stringify({k: s}))] is [{k: s}]. *)
Lemma parse_stringify_string k s :
  code_units k -> code_units s ->
  JSON_parse (JSON_stringify [(k, VString s)])
  = Some (JObject [(k, JString s)]).
Proof.
  intros Hk Hs.
  apply (JSONFacts.JSON_parse_complete 3 _ (r := [])); [|reflexivity].
  unfold JSON_stringify. cbn [serialize_properties serialize join_comma].
  unfold quote at 1.
  cbn [app parse_value skip_ws].
  change (is_json_ws 123) with false. cbv iota.
  change (123 =? 34) with false. change (123 =? 91) with false.
  change (123 =? 123) with true. cbv iota.
  change (is_json_ws 34) with false. cbv iota.
  change (34 =? 125) with false. cbv iota.
  cbn [parse_members skip_ws].
  change (is_json_ws 34) with false. cbv iota.
  change (negb (34 =? 34)) with false. cbv iota.
  rewrite <- !app_assoc. cbn [app].
  rewrite parse_quote_body by exact Hk. cbn [rev app skip_ws].
  change (is_json_ws 58) with false. cbv iota.
  change (negb (58 =? 58)) with false. cbv iota.
  rewrite parse_quote by exact Hs.
  cbn [skip_ws]. change (is_json_ws 125) with false. cbv iota.
  change (125 =? 44) with false. change (125 =? 125) with true. cbv iota.
  reflexivity.
Qed.

End RoundTripFacts.

(** ** More on the prompt bridge *)

Module OverlayFacts.
Import JSFacts SessionView SessionViewFacts Wire RoundTripFacts Overlay.

(** *** What one turn can do to the promises *)

Ltac cases_tac :=
  simpl;
  first
    [ left; split; [reflexivity|]; split; [lia|];
      intros pr' Hpr'; simpl in Hpr'; try discriminate;
      first [ left; congruence
            | injection Hpr' as <-; simpl; right; lia ]
    | right; left; eexists; eexists;
      split; [first [eassumption | reflexivity]|];
      split; [reflexivity|]; split; reflexivity
    | right; right; eexists;
      split; [reflexivity|]; split; reflexivity ].

(** A handler either settles nothing, or resolves the promise in the slot
    and clears the slot, or rejects the promise it has just created and
    leaves the slot alone. *)
Lemma handle_cases ev st st' fx :
  handle ev st = (st', fx) ->
  (fx = [] /\ promises st <= promises st'
   /\ forall pr', rpcPrompt st' = Some pr' ->
        rpcPrompt st = Some pr'
        \/ (resolve_of pr' = promises st /\ promises st < promises st'))
  \/ (exists pr payload,
        rpcPrompt st = Some pr /\ fx = [Resolve (resolve_of pr) payload]
        /\ rpcPrompt st' = None /\ promises st' = promises st)
  \/ (exists e,
        fx = [Reject (promises st) e]
        /\ rpcPrompt st' = rpcPrompt st /\ promises st' = S (promises st)).
Proof.
  intros H.
  destruct ev; simpl in H;
    [ unfold handleChooseAccount, newPromise in H
    | unfold handleRequestPayeeAccNo, newPromise in H
    | unfold handleRequestTpin, newPromise in H
    | unfold handleAccountSelect in H
    | unfold handleAccountCancel in H
    | unfold handleInputSubmit in H
    | injection H as <- <-; unfold handleChange;
      destruct (rpcPrompt st) as [[]|] eqn:E;
      [ | destruct (_ && _) | ]; cases_tac ];
    crush_handler; try (injection H as <-); cases_tac.
Qed.

Lemma step_cases ev st st' fx :
  step ev st = (st', fx) ->
  (fx = [] /\ promises st <= promises st'
   /\ forall pr', rpcPrompt st' = Some pr' ->
        rpcPrompt st = Some pr'
        \/ (resolve_of pr' = promises st /\ promises st < promises st'))
  \/ (exists pr payload,
        rpcPrompt st = Some pr /\ fx = [Resolve (resolve_of pr) payload]
        /\ rpcPrompt st' = None /\ promises st' = promises st)
  \/ (exists e,
        fx = [Reject (promises st) e]
        /\ rpcPrompt st' = rpcPrompt st /\ promises st' = S (promises st)).
Proof.
  unfold step. destruct (handle ev st) as [st1 fx1] eqn:H.
  intros E. injection E as <- <-.
  rewrite resetInputEffect_rpcPrompt, resetInputEffect_promises.
  eapply handle_cases; eassumption.
Qed.

(** *** Every call is answered at most once, and in order *)

Lemma settled_app a b : settled (a ++ b) = settled a ++ settled b.
Proof. apply map_app. Qed.

Lemma resolved_app a b : resolved (a ++ b) = resolved a ++ resolved b.
Proof.
  induction a as [|[p payload|p e] a IH]; simpl; [reflexivity| |exact IH].
  rewrite IH. reflexivity.
Qed.

Lemma resolved_settled fx p : In p (resolved fx) -> In p (settled fx).
Proof.
  induction fx as [|[q payload|q e] fx IH]; simpl; tauto.
Qed.

Lemma StronglySorted_snoc l p :
  StronglySorted lt l -> Forall (fun q => q < p) l ->
  StronglySorted lt (l ++ [p]).
Proof.
  induction 1 as [|a l Hs IH Ha]; intros Hp; simpl.
  - constructor; constructor.
  - inversion Hp as [|? ? Hap Hlp]; subst. constructor; [auto|].
    apply Forall_app. split; [exact Ha | constructor; [exact Hap | constructor]].
Qed.

Lemma NoDup_snoc (l : list nat) p :
  NoDup l -> ~ In p l -> NoDup (l ++ [p]).
Proof.
  induction 1 as [|a l Ha Hl IH]; intros Hp; simpl.
  - constructor; [tauto | constructor].
  - constructor.
    + rewrite in_app_iff. simpl in *. intuition congruence.
    + apply IH. simpl in Hp. tauto.
Qed.

Lemma answered_once_step ev st log st' fx :
  answered_once st log -> step ev st = (st', fx) ->
  answered_once st' (log ++ fx).
Proof.
  intros [Hwf Hcr Hpe Hnd Hso Hbe] E.
  assert (Hres : Forall (fun q => q < promises st) (resolved log)).
  { rewrite Forall_forall in *. intros q Hq. apply Hcr.
    now apply resolved_settled. }
  destruct (step_cases _ _ E)
    as [(-> & Hle & Hslot)
       | [(pr & payload & Hpr & -> & Hnone & Hsame)
         | (e & -> & Hkeep & Hsucc)]].
  - rewrite app_nil_r. split; auto.
    + intros pr' Hpr'. destruct (Hslot _ Hpr') as [Hold | [-> Hlt]]; [|exact Hlt].
      specialize (Hwf _ Hold). lia.
    + eapply Forall_impl; [|exact Hcr]. simpl. intros; lia.
    + intros pr' Hpr'. destruct (Hslot _ Hpr') as [Hold | [Hnew Hlt]]; [auto|].
      rewrite Hnew. intros Hin. rewrite Forall_forall in Hcr.
      specialize (Hcr _ Hin). lia.
    + intros pr' Hpr'. destruct (Hslot _ Hpr') as [Hold | [Hnew Hlt]]; [auto|].
      rewrite Hnew. exact Hres.
  - split.
    + intros pr' Hpr'. congruence.
    + rewrite settled_app. apply Forall_app. split.
      * rewrite Hsame. exact Hcr.
      * simpl. constructor; [|constructor]. rewrite Hsame. auto.
    + intros pr' Hpr'. congruence.
    + rewrite settled_app. simpl. apply NoDup_snoc; auto.
    + rewrite resolved_app. simpl. apply StronglySorted_snoc; auto.
    + intros pr' Hpr'. congruence.
  - split.
    + intros pr' Hpr'. rewrite Hkeep in Hpr'. specialize (Hwf _ Hpr'). lia.
    + rewrite settled_app. apply Forall_app. split.
      * eapply Forall_impl; [|exact Hcr]. simpl. intros; lia.
      * simpl. constructor; [lia|constructor].
    + intros pr' Hpr'. rewrite Hkeep in Hpr'. rewrite settled_app, in_app_iff.
      simpl. intros [Hin | [Heq | []]]; [exact (Hpe _ Hpr' Hin)|].
      specialize (Hwf _ Hpr'). lia.
    + rewrite settled_app. simpl. apply NoDup_snoc; [exact Hnd|].
      intros Hin. rewrite Forall_forall in Hcr. specialize (Hcr _ Hin). lia.
    + rewrite resolved_app. simpl. rewrite app_nil_r. exact Hso.
    + intros pr' Hpr'. rewrite Hkeep in Hpr'. rewrite resolved_app. simpl.
      rewrite app_nil_r. auto.
Qed.

Lemma answered_once_run evs : forall st log,
  answered_once st log ->
  answered_once (fst (run evs st)) (log ++ snd (run evs st)).
Proof.
  induction evs as [|ev rest IH]; intros st log H; simpl.
  - rewrite app_nil_r. exact H.
  - destruct (step ev st) as [st1 fx1] eqn:E.
    pose proof (@answered_once_step _ _ _ _ _ H E) as H1.
    specialize (IH st1 (log ++ fx1) H1).
    destruct (run rest st1) as [st2 fx2]. simpl in *.
    rewrite app_assoc. exact IH.
Qed.

Lemma answered_once_initial : answered_once initial [].
Proof.
  split; simpl; try constructor; intros pr H; discriminate.
Qed.

(** X1: whatever the agent and the user do from the mount of the
    component on, no RPC call is settled twice, and only calls that were
    made are settled. *)
Theorem X1_no_call_settled_twice evs :
  NoDup (settled (snd (run evs initial)))
  /\ Forall (fun q => q < promises (fst (run evs initial)))
            (settled (snd (run evs initial))).
Proof.
  pose proof (answered_once_run evs answered_once_initial) as [_ Hc _ Hn _ _].
  simpl in *. auto.
Qed.

(** X2: replies leave in the order in which their calls arrived: the
    promises resolved during any run are resolved in strictly increasing
    order of creation, and all of them before the call that is still
    pending. *)
Theorem X2_replies_in_call_order evs :
  StronglySorted lt (resolved (snd (run evs initial)))
  /\ forall pr, rpcPrompt (fst (run evs initial)) = Some pr ->
       Forall (fun q => q < resolve_of pr) (resolved (snd (run evs initial))).
Proof.
  pose proof (answered_once_run evs answered_once_initial) as [_ _ _ _ Hs Hb].
  simpl in *. auto.
Qed.

(** *** The text box *)

Lemma no_input_prompt_type st :
  no_input_prompt st <-> option_map type_of (rpcPrompt st) <> Some TInput.
Proof.
  unfold no_input_prompt. destruct (rpcPrompt st) as [[]|]; simpl; split;
    intros H; try congruence; try (intros; congruence).
  exfalso. eapply H. reflexivity.
Qed.

Ltac box_tac Hinv E :=
  simpl; rewrite ?E; simpl; intros Hno;
  first
    [ reflexivity
    | exfalso; eapply Hno; first [reflexivity | exact E]
    | apply Hinv; intros ? ? ? ? ?; congruence ].

(** One turn keeps the text box empty whenever no input prompt is
    pending. *)
Lemma step_box ev st :
  (no_input_prompt st -> inputValue st = []) ->
  no_input_prompt (fst (step ev st)) -> inputValue (fst (step ev st)) = [].
Proof.
  intros Hinv. unfold step, no_input_prompt.
  destruct ev; simpl handle;
    [ unfold handleChooseAccount, newPromise;
      destruct (get (parse_payload payload) (js "accounts"));
      [destruct (get (parse_payload payload) (js "prompt"))|]
    | unfold handleRequestPayeeAccNo, newPromise
    | unfold handleRequestTpin, newPromise
    | unfold handleAccountSelect
    | unfold handleAccountCancel
    | unfold handleInputSubmit
    | unfold handleChange ];
    unfold resetInputEffect, no_input_prompt in *;
    destruct (rpcPrompt st) as [[? ? ? ?|f ? ? ? ?]|] eqn:E;
    try (destruct (falsy (trim (inputValue st))));
    try (destruct (is_tpin f && negb (test_four_digits (trim (inputValue st)))));
    try (destruct (is_tpin f && negb _));
    try (destruct f); box_tac Hinv E.
Qed.

(** X3: in every state the component reaches, the text box is empty
    unless an input prompt is pending: every reply, every cancel and every
    change of prompt kind clears it, so nothing typed into one prompt
    survives into the idle state or into an account choice. *)
Theorem X3_text_box_empty_without_input_prompt evs :
  no_input_prompt (fst (run evs initial)) ->
  inputValue (fst (run evs initial)) = [].
Proof.
  assert (H : forall st, (no_input_prompt st -> inputValue st = []) ->
                no_input_prompt (fst (run evs st)) ->
                inputValue (fst (run evs st)) = []).
  { induction evs as [|ev rest IH]; intros st Hinv; simpl; [exact Hinv|].
    pose proof (@step_box ev st Hinv) as H1.
    destruct (step ev st) as [st1 fx1]. simpl in H1.
    specialize (IH st1 H1). destruct (run rest st1) as [st2 fx2]. exact IH. }
  apply H. reflexivity.
Qed.

(** *** What a reply carries *)

Lemma code_units_js_accountId : code_units (js "accountId").
Proof. repeat constructor. Qed.

Lemma code_units_field_key f : code_units (field_key f).
Proof. destruct f; repeat constructor. Qed.

Lemma code_units_app a b : code_units (a ++ b) <-> code_units a /\ code_units b.
Proof. apply Forall_app. Qed.

Lemma code_units_trim s : code_units s -> code_units (trim s).
Proof.
  intros H. destruct (trim_spec s) as (pre & post & Hs & _).
  rewrite Hs in H. apply code_units_app in H. destruct H as [_ H].
  apply code_units_app in H. tauto.
Qed.

(** X5: pressing an account button under an account-choice prompt
    resolves the held call and clears the slot, and the payload, parsed as
    JSON by the agent, is the object whose [accountId] is exactly the
    identifier of the button pressed. *)
Theorem X5_account_selection_round_trip
  st prompt accounts resolve reject accountId :
  rpcPrompt st = Some (PChooseAccount prompt accounts resolve reject) ->
  code_units accountId ->
  exists payload,
    handleAccountSelect accountId st
      = (setRpcPrompt None st, [Resolve resolve payload])
    /\ JSON_parse payload
       = Some (JObject [(js "accountId", JString accountId)])
    /\ get (JObject [(js "accountId", JString accountId)]) (js "accountId")
       = Normal (Some (JString accountId)).
Proof.
  intros Hp Hcu. eexists. split; [|split].
  - unfold handleAccountSelect. rewrite Hp. reflexivity.
  - apply parse_stringify_string; [apply code_units_js_accountId | exact Hcu].
  - reflexivity.
Qed.

(** X6: whenever submitting an input prompt produces a reply, the payload,
    parsed as JSON by the agent, is the object with the one property named
    after the field, whose value is the submitted text without its leading
    and trailing white space; that value is never empty and neither begins
    nor ends with white space. *)
Theorem X6_input_reply_round_trip
  st field title description resolve reject st' fx :
  rpcPrompt st = Some (PInput field title description resolve reject) ->
  code_units (inputValue st) ->
  handleInputSubmit st = (st', fx) -> fx <> [] ->
  exists payload,
    fx = [Resolve resolve payload]
    /\ JSON_parse payload
       = Some (JObject [(field_key field, JString (trim (inputValue st)))])
    /\ trim (inputValue st) <> []
    /\ (forall c r, trim (inputValue st) = c :: r -> is_white_space c = false)
    /\ (forall c r, trim (inputValue st) = r ++ [c] ->
                    is_white_space c = false).
Proof.
  intros Hp Hcu Hs Hfx.
  destruct (trim_spec (inputValue st)) as (pre & post & _ & _ & _ & Hhd & Htl).
  unfold handleInputSubmit in Hs. rewrite Hp in Hs.
  destruct (falsy (trim (inputValue st))) eqn:Ef.
  { injection Hs as <- <-. congruence. }
  destruct (is_tpin field && negb (test_four_digits (trim (inputValue st)))).
  { injection Hs as <- <-. congruence. }
  injection Hs as <- <-.
  exists (JSON_stringify [(field_key field, VString (trim (inputValue st)))]).
  split; [destruct field; reflexivity|].
  split; [apply parse_stringify_string;
          [apply code_units_field_key | apply code_units_trim; exact Hcu]|].
  split; [now apply falsy_false_iff|]. split; assumption.
Qed.

Local Open Scope N_scope.

Lemma quote_unit_digit c : is_digit c = true -> quote_unit c = [c].
Proof.
  unfold is_digit, quote_unit, is_leading_surrogate, is_trailing_surrogate.
  rewrite andb_true_iff, !N.leb_le. intros [H1 H2].
  repeat match goal with
         | |- context [?a =? ?b] =>
             replace (a =? b) with false by (symmetry; apply N.eqb_neq; lia)
         | |- context [?a <? ?b] =>
             replace (a <? b) with false by (symmetry; apply N.ltb_ge; lia)
         end.
  replace (55296 <=? c) with false by (symmetry; apply N.leb_gt; lia).
  replace (56320 <=? c) with false by (symmetry; apply N.leb_gt; lia).
  reflexivity.
Qed.

Lemma digit_not_leading c : is_digit c = true -> is_leading_surrogate c = false.
Proof.
  unfold is_digit, is_leading_surrogate.
  rewrite andb_true_iff, !N.leb_le. intros [H1 H2].
  replace (55296 <=? c) with false by (symmetry; apply N.leb_gt; lia).
  reflexivity.
Qed.

Lemma stringify_tpin a b c d :
  is_digit a = true -> is_digit b = true ->
  is_digit c = true -> is_digit d = true ->
  JSON_stringify [(js "tpin", VString [a; b; c; d])] = tpin_text a b c d.
Proof.
  intros Ha Hb Hc Hd. unfold JSON_stringify, tpin_text.
  cbn [serialize_properties serialize join_comma].
  unfold quote at 2. cbn [quote_body].
  rewrite !digit_not_leading, !quote_unit_digit by assumption.
  cbn [app]. rewrite <- !app_assoc. reflexivity.
Qed.

Local Close Scope N_scope.

(** X4: a TPIN prompt never sends anything but four ASCII digits: whenever
    submitting it produces a reply, the trimmed text is four digits and the
    payload is the text [{"tpin":"dddd"}] with exactly those digits. *)
Theorem X4_tpin_reply_is_four_digits
  st title description resolve reject st' fx :
  rpcPrompt st = Some (PInput tpin title description resolve reject) ->
  handleInputSubmit st = (st', fx) -> fx <> [] ->
  exists a b c d,
    is_digit a = true /\ is_digit b = true
    /\ is_digit c = true /\ is_digit d = true
    /\ trim (inputValue st) = [a; b; c; d]
    /\ fx = [Resolve resolve (tpin_text a b c d)]
    /\ st' = setRpcPrompt None st.
Proof.
  intros Hp Hs Hfx. unfold handleInputSubmit in Hs. rewrite Hp in Hs.
  destruct (falsy (trim (inputValue st))).
  { injection Hs as <- <-. congruence. }
  simpl is_tpin in Hs. cbv iota in Hs. simpl andb in Hs.
  destruct (test_four_digits (trim (inputValue st))) eqn:Ed; simpl in Hs.
  2:{ injection Hs as <- <-. congruence. }
  injection Hs as <- <-.
  destruct (trim (inputValue st)) as [|a [|b [|c [|d [|e r]]]]];
    try discriminate.
  simpl in Ed. rewrite !andb_true_iff in Ed.
  destruct Ed as [[[Ha Hb] Hc] Hd].
  exists a, b, c, d. repeat split; auto.
  rewrite stringify_tpin by assumption. reflexivity.
Qed.

(** X7: the three handlers of the user's buttons guard themselves: run
    when the overlay does not offer their button for what is in the slot
    (any of them while idle, the account button under an input prompt, the
    submit under an account choice), [handleAccountSelect],
    [handleAccountCancel] and [handleInputSubmit] change nothing and send
    nothing. *)
Theorem X7_unoffered_actions_do_nothing ev st :
  is_click ev = true -> offered ev (rpcPrompt st) = false ->
  step ev st = (st, []).
Proof.
  intros Hclick Hoff. apply step_unchanged.
  destruct ev; try discriminate; simpl in *;
    unfold handleAccountSelect, handleAccountCancel, handleInputSubmit;
    destruct (rpcPrompt st) as [[]|]; try discriminate; reflexivity.
Qed.

(** *** What an account button shows *)

Lemma slice_last_length k s :
  List.length (slice_last k s) = Nat.min k (List.length s).
Proof. unfold slice_last. rewrite length_skipn. lia. Qed.

Lemma slice_first_length k s :
  List.length (slice_first k s) = Nat.min k (List.length s).
Proof. unfold slice_first. apply length_firstn. Qed.

(** X8: the [ID:] line of an account button shows an identifier of at most
    six code units in full, and of a longer one only the first two and the
    last two code units around an ellipsis: five code units, with at least
    three of the identifier withheld.  When the account has no [last4], the
    heading ends with the last four code units of the identifier (all of
    it, when it has at most four). *)
Theorem X8_account_button_masks_long_ids a :
  (List.length (id a) <= 6 -> id_line a = id a)
  /\ (6 < List.length (id a) ->
        exists first middle last,
          id a = first ++ middle ++ last
          /\ List.length first = 2 /\ List.length last = 2
          /\ 3 <= List.length middle
          /\ id_line a = first ++ [8230%N] ++ last)
  /\ List.length (id_line a) <= 6
  /\ (last4 a = None ->
        exists hidden,
          id a = hidden ++ slice_last 4 (id a)
          /\ List.length (slice_last 4 (id a))
             = Nat.min 4 (List.length (id a))
          /\ heading a
             = or_Account (nickname a)
               ++ [32%N; 8226%N; 8226%N; 8226%N; 8226%N]
               ++ slice_last 4 (id a)).
Proof.
  unfold id_line. split; [|split; [|split]].
  - intros H. destruct (Nat.ltb_spec 6 (List.length (id a))); [lia|reflexivity].
  - intros H. destruct (Nat.ltb_spec 6 (List.length (id a))); [|lia].
    exists (firstn 2 (id a)),
           (firstn (List.length (id a) - 4) (skipn 2 (id a))),
           (skipn (List.length (id a) - 2) (id a)).
    split; [|split; [|split; [|split]]].
    + rewrite <- (firstn_skipn 2 (id a)) at 1. f_equal.
      rewrite <- (firstn_skipn (List.length (id a) - 4) (skipn 2 (id a))) at 1.
      f_equal. rewrite skipn_skipn. f_equal. lia.
    + rewrite length_firstn. lia.
    + rewrite length_skipn. lia.
    + rewrite length_firstn, length_skipn. lia.
    + reflexivity.
  - destruct (Nat.ltb_spec 6 (List.length (id a))); [|lia].
    rewrite !length_app, slice_first_length, slice_last_length.
    cbn [List.length]. lia.
  - intros Hl. exists (firstn (List.length (id a) - 4) (id a)).
    split; [symmetry; apply firstn_skipn|].
    split; [apply slice_last_length|].
    unfold heading. rewrite Hl. reflexivity.
Qed.

Lemma X8_witness :
  6 < List.length (id (bare_account (js "ACC1234567")))
  /\ (exists first middle last,
        js "ACC1234567" = first ++ middle ++ last
        /\ List.length first = 2 /\ List.length last = 2
        /\ 3 <= List.length middle
        /\ id_line (bare_account (js "ACC1234567"))
           = first ++ [8230%N] ++ last)
  /\ id_line (bare_account (js "ACC1234567")) = js "AC" ++ [8230%N] ++ js "67"
  /\ heading (bare_account (js "ACC1234567"))
     = js "Account" ++ [32%N; 8226%N; 8226%N; 8226%N; 8226%N] ++ js "4567".
Proof.
  assert (H : 6 < List.length (id (bare_account (js "ACC1234567"))))
    by (simpl; lia).
  split; [exact H|].
  split; [exact (proj1 (proj2 (X8_account_button_masks_long_ids
                                 (bare_account (js "ACC1234567")))) H)|].
  split; reflexivity.
Defined.

End OverlayFacts.
(** ** More on the routes *)

Module RouteFacts.
Import JSFacts SessionStoreFacts ConnectionDetailsFacts AuthFacts Store.

Local Open Scope Z_scope.

(** *** Login *)

Lemma login_refused_unchanged rt body db :
  (forall ok, fst (Login.POST rt body db) <> Login.Json200 ok) ->
  snd (Login.POST rt body db) = db.
Proof.
  unfold Login.POST.
  destruct (Login.user_id body) as [uid|], (Login.password body) as [pw|];
    try reflexivity.
  destruct (falsy uid || falsy pw); [reflexivity|].
  destruct (findOne _ _) as [user|]; [|reflexivity].
  destruct (negb _); [reflexivity|].
  intros H. exfalso. eapply H. reflexivity.
Qed.

(** X9: a login that is not answered with a session changes nothing in the
    store, no login ever changes the users, and an unknown user id and a
    wrong password get the same answer (401 Invalid credentials), so the
    answer does not tell which user ids exist. *)
Theorem X9_failed_login_leaves_no_trace rt body db :
  ((forall ok, fst (Login.POST rt body db) <> Login.Json200 ok) ->
     snd (Login.POST rt body db) = db)
  /\ users (snd (Login.POST rt body db)) = users db
  /\ (forall uid pw,
        Login.user_id body = Some uid -> Login.password body = Some pw ->
        uid <> [] -> pw <> [] ->
        (findOne (user_id_filter uid) (users db) = None ->
           Login.POST rt body db = (Login.InvalidCredentials401, db))
        /\ (forall user,
              findOne (user_id_filter uid) (users db) = Some user ->
              Login.bcrypt_compare rt pw (Users.password_hash user) = false ->
              Login.POST rt body db = (Login.InvalidCredentials401, db))).
Proof.
  split; [apply login_refused_unchanged|].
  unfold Login.POST. split.
  - destruct (Login.user_id body) as [uid|], (Login.password body) as [pw|];
      try reflexivity.
    destruct (falsy uid || falsy pw); [reflexivity|].
    destruct (findOne _ _) as [user|]; [|reflexivity].
    destruct (negb _); reflexivity.
  - intros uid pw -> -> Hu Hp.
    apply falsy_false_iff in Hu. apply falsy_false_iff in Hp.
    rewrite Hu, Hp. simpl. split.
    + intros ->. reflexivity.
    + intros user -> ->. reflexivity.
Qed.

Lemma validate_new_session rt uid db0 now :
  now < Login.Date_now rt + 86400000 ->
  validate {| sessions := sessions db0 ++ [Login.new_session rt uid];
              users := users db0 |}
           (Login.randomUUID rt) uid now = true.
Proof.
  intros Hlt. apply validate_iff. exists (Login.new_session rt uid).
  simpl. rewrite in_app_iff. simpl. auto 10.
Qed.

(** A live session, presented with its user id and a JSON body, is
    answered with the details of that user's room, when the server can
    sign and the body asks for no agent that is not a string. *)
Lemma POST_live_session env db now req uid sid b :
  ConnectionDetails.configured env ->
  ConnectionDetails.x_user_id req = Some uid -> uid <> [] ->
  ConnectionDetails.x_session_id req = Some sid ->
  validate db sid uid now = true ->
  ConnectionDetails.body req = Normal b ->
  ConnectionDetails.key_ok env = true ->
  ConnectionDetails.agent_name_ok b = true ->
  exists d,
    fst (ConnectionDetails.POST env db now req) = ConnectionDetails.Json200 d
    /\ ConnectionDetails.roomName d = js "bank_room_" ++ uid
    /\ ConnectionDetails.identity (ConnectionDetails.participantToken d) = uid
    /\ ConnectionDetails.metadata (ConnectionDetails.participantToken d)
       = ConnectionDetails.metadata_text (Some sid).
Proof.
  intros Hc Hxu Hune Hxs Hv Hbody Hk Ha.
  assert (Hua : ConnectionDetails.unauthorized db now req = false).
  { unfold ConnectionDetails.unauthorized. rewrite Hxu, Hxs, Hv.
    apply falsy_false_iff in Hune. rewrite Hune.
    destruct (falsy sid); reflexivity. }
  pose proof (@POST_authorized env db now req Hc Hua) as H.
  rewrite Hbody, Hk, Ha in H. destruct H as (d & Hd). exists d.
  split; [exact Hd|].
  destruct (POST_token _ _ _ _ Hd) as (uid' & H1 & _ & H3 & H4 & _ & _ & H7).
  rewrite Hxu in H1. injection H1 as <-.
  rewrite stringify_session_id, Hxs in H7. auto.
Qed.

(** X10: the session a valid login returns opens the room of that user
    until it expires: on a configured server whose key and secret are not
    empty, a connection request that carries the user id and the returned
    session id, with a JSON body in which the agent name is absent, falsy
    or a string, at any time before [Date.now() + 24h] of the login, is
    answered with the connection details for room [bank_room_<user_id>],
    and the credential's metadata is [{"session_id":<that id>}]. *)
Theorem X10_login_then_connect
  rt body db uid pw user env req now b :
  Login.user_id body = Some uid -> Login.password body = Some pw ->
  uid <> [] -> pw <> [] ->
  findOne (user_id_filter uid) (users db) = Some user ->
  Login.bcrypt_compare rt pw (Users.password_hash user) = true ->
  Login.randomUUID rt <> [] ->
  ConnectionDetails.configured env ->
  ConnectionDetails.key_ok env = true ->
  ConnectionDetails.x_user_id req = Some uid ->
  ConnectionDetails.x_session_id req = Some (Login.randomUUID rt) ->
  ConnectionDetails.body req = Normal b ->
  ConnectionDetails.agent_name_ok b = true ->
  now < Login.Date_now rt + 24 * 60 * 60 * 1000 ->
  exists d,
    fst (ConnectionDetails.POST env (snd (Login.POST rt body db)) now req)
      = ConnectionDetails.Json200 d
    /\ ConnectionDetails.roomName d = js "bank_room_" ++ uid
    /\ ConnectionDetails.identity (ConnectionDetails.participantToken d) = uid
    /\ ConnectionDetails.metadata (ConnectionDetails.participantToken d)
       = ConnectionDetails.metadata_text (Some (Login.randomUUID rt)).
Proof.
  intros Hu Hp Hune Hpne Hf Hb Hid Hc Hk Hxu Hxs Hbody Ha Hnow.
  rewrite (login_valid rt body db Hu Hp Hune Hpne Hf Hb). cbn [snd].
  apply POST_live_session with (b := b); auto.
  apply validate_new_session. lia.
Qed.

(** *** Logout *)

Lemma updateOne_no_match {A} (f : A -> bool) u l :
  findOne f l = None -> updateOne f u l = l.
Proof.
  unfold findOne. induction l as [|d r IH]; simpl; [reflexivity|].
  destruct (f d); [discriminate|]. intros H. rewrite IH by exact H.
  reflexivity.
Qed.

(** [updateOne] changes nothing, or the first document its filter
    selects. *)
Lemma updateOne_cases {A} (f : A -> bool) (u : A -> A) l :
  (findOne f l = None /\ updateOne f u l = l)
  \/ exists pre s post,
       f s = true /\ Forall (fun x => f x = false) pre
       /\ l = pre ++ s :: post /\ updateOne f u l = pre ++ u s :: post.
Proof.
  unfold findOne. induction l as [|d r IH]; simpl; [left; auto|].
  destruct (f d) eqn:E.
  - right. exists [], d, r. auto.
  - destruct IH as [[Hn Hu] | (pre & s & post & Hs & Hpre & Hl & Hu)].
    + left. rewrite Hu. auto.
    + right. exists (d :: pre), s, post. rewrite Hl at 1. rewrite Hu.
      repeat split; auto.
Qed.

Lemma same_store (db : Db) :
  {| sessions := sessions db; users := users db |} = db.
Proof. destruct db; reflexivity. Qed.

(** X11: a logout revokes at most one session and nothing else: it never
    deletes or adds a record and never touches the users, and the store it
    leaves is the old one, or the old one with one record replaced by its
    revoked copy.  When the body's [session_id] is a string, the record is
    the first one that carries that id, so that no other session is logged
    out with it, and for an id that no record carries the answer is still
    [{ok}] with the store unchanged.  (A [session_id] that is not a string
    is a filter of MongoDB's, and the one record is whichever it selects
    first.)  A body that is [null] is answered 500; a body that is not
    JSON, or that has no truthy [session_id], is answered 400; in both
    cases the store is unchanged. *)
Theorem X11_logout_touches_only_its_session condition now body db :
  let out := Logout.route condition now body db in
  users (snd out) = users db
  /\ (snd out = db
      \/ exists pre s post,
           fst out = Logout.Ok200
           /\ sessions db = pre ++ s :: post
           /\ sessions (snd out) = pre ++ revoke now s :: post)
  /\ (forall b sid,
        body = Normal b ->
        get b (js "session_id") = Normal (Some (JString sid)) ->
        out = Logout.POST now (Some sid) db
        /\ (snd out = db
            \/ exists pre s post,
                 Sessions.session_id s = sid
                 /\ Forall (fun x => Sessions.session_id x <> sid) pre
                 /\ sessions db = pre ++ s :: post
                 /\ sessions (snd out) = pre ++ revoke now s :: post)
        /\ (sid <> [] ->
            findOne (session_id_filter sid) (sessions db) = None ->
            out = (Logout.Ok200, db)))
  /\ (body = Normal JNull -> out = (Logout.UnableToLogout500, db))
  /\ ((exists e, body = Throw e)
      \/ (exists b, body = Normal b
                    /\ (get b (js "session_id") = Normal None
                        \/ exists v, get b (js "session_id") = Normal (Some v)
                                     /\ truthy v = false))
      -> out = (Logout.MissingSessionId400, db)).
Proof.
  intros out.
  assert (Hupd : forall f,
            let db' := {| sessions := updateOne f (revoke now) (sessions db);
                          users := users db |} in
            db' = db
            \/ exists pre s post,
                 f s = true /\ Forall (fun x => f x = false) pre
                 /\ sessions db = pre ++ s :: post
                 /\ sessions db' = pre ++ revoke now s :: post).
  { intros f db'. unfold db'.
    destruct (updateOne_cases f (revoke now) (sessions db))
      as [[_ Hu] | (pre & s & post & Hs & Hpre & Hl & Hu)].
    - left. rewrite Hu. apply same_store.
    - right. exists pre, s, post. auto. }
  assert (Hpost : forall sid,
            snd (Logout.POST now sid db) = db
            \/ exists pre s post,
                 fst (Logout.POST now sid db) = Logout.Ok200
                 /\ (forall i, sid = Some i ->
                       Sessions.session_id s = i
                       /\ Forall (fun x => Sessions.session_id x <> i) pre)
                 /\ sessions db = pre ++ s :: post
                 /\ sessions (snd (Logout.POST now sid db))
                    = pre ++ revoke now s :: post).
  { intros [sid|]; unfold Logout.POST; [|left; reflexivity].
    destruct (falsy sid); [left; reflexivity|]. cbn [fst snd].
    destruct (Hupd (session_id_filter sid))
      as [H | (pre & s & post & Hs & Hpre & Hl & Hu)]; [left; exact H|].
    right. exists pre, s, post. split; [reflexivity|].
    split; [|split; [exact Hl | exact Hu]].
    intros i Hi. injection Hi as <-. unfold session_id_filter in *. split.
    - now apply jsstring_eqb_eq.
    - eapply Forall_impl; [|exact Hpre]. cbv beta. intros x Hx Heq.
      apply jsstring_eqb_eq in Heq. congruence. }
  unfold out, Logout.route. split; [|split; [|split; [|split]]].
  - destruct (get _ _) as [[v|]|]; try reflexivity.
    destruct v; try reflexivity;
      try (destruct (truthy _); [|reflexivity];
           destruct (condition _); reflexivity).
    unfold Logout.POST. destruct (falsy s); reflexivity.
  - destruct (get _ _) as [[v|]|]; try (left; reflexivity).
    destruct v;
      try (destruct (truthy _); [|left; reflexivity];
           destruct (condition _) as [f|]; [|left; reflexivity];
           cbn [fst snd];
           destruct (Hupd f) as [H | (pre & s & post & _ & _ & Hl & Hu)];
           [left; exact H | right; exists pre, s, post; auto]).
    destruct (Hpost (Some s))
      as [H | (pre & s0 & post & Hok & _ & Hl & Hu)];
      [left; exact H | right; exists pre, s0, post; auto].
  - intros b sid -> Hg. rewrite Hg. split; [reflexivity|]. split.
    + destruct (Hpost (Some sid))
        as [H | (pre & s0 & post & _ & Hi & Hl & Hu)]; [left; exact H|].
      right. exists pre, s0, post.
      destruct (Hi sid eq_refl) as [H1 H2]. auto.
    + intros Hne Hnone. unfold Logout.POST.
      apply falsy_false_iff in Hne. rewrite Hne.
      rewrite updateOne_no_match by exact Hnone. rewrite same_store.
      reflexivity.
  - intros ->. reflexivity.
  - intros [(e & ->) | (b & -> & [Hg | (v & Hg & Hv)])].
    + reflexivity.
    + rewrite Hg. reflexivity.
    + rewrite Hg. destruct v; try discriminate; try reflexivity;
        try (rewrite Hv; reflexivity).
      unfold Logout.POST. simpl in Hv. apply negb_false_iff in Hv.
      rewrite Hv. reflexivity.
Qed.

Lemma revoked_unless_other sid now l :
  (List.length (filter (session_id_filter sid) l) <= 1)%nat ->
  forall s, In s (updateOne (session_id_filter sid) (revoke now) l) ->
            Sessions.session_id s = sid -> Sessions.active s = false.
Proof.
  induction l as [|d r IH]; simpl; intros Hone s Hin Hsid; [tauto|].
  destruct (session_id_filter sid d) eqn:E; simpl in *.
  - destruct Hin as [<- | Hin]; [reflexivity|].
    exfalso.
    assert (Hs : In s (filter (session_id_filter sid) r)).
    { apply filter_In. split; [exact Hin|].
      unfold session_id_filter. now apply jsstring_eqb_eq. }
    destruct (filter (session_id_filter sid) r); simpl in *; [tauto | lia].
  - destruct Hin as [<- | Hin].
    + unfold session_id_filter in E.
      apply jsstring_eqb_eq in Hsid. congruence.
    + apply IH; auto.
Qed.

(** After its logout, a session whose identifier is carried by at most one
    record validates for nobody, at no time. *)
Lemma validate_after_logout now sid db uid now2 :
  sid <> [] -> at_most_one sid db ->
  validate (snd (Logout.POST now (Some sid) db)) sid uid now2 = false.
Proof.
  intros Hne Hone.
  destruct (validate _ sid uid now2) eqn:E; [|reflexivity].
  apply validate_iff in E. destruct E as (s & Hin & Hsid & _ & Hact & _).
  unfold Logout.POST in Hin. apply falsy_false_iff in Hne.
  rewrite Hne in Hin. simpl in Hin.
  rewrite (@revoked_unless_other sid now (sessions db) Hone s Hin Hsid) in Hact.
  discriminate.
Qed.

(** X12: once a session is logged out it opens no room any more: if at
    most one record carries its identifier, every later connection request
    that presents it, with whatever user id and at whatever time, is
    answered 401 after the single session query. *)
Theorem X12_logout_then_connect_is_refused
  now sid db env req uid now2 :
  sid <> [] -> at_most_one sid db ->
  ConnectionDetails.configured env ->
  ConnectionDetails.x_user_id req = Some uid -> uid <> [] ->
  ConnectionDetails.x_session_id req = Some sid ->
  ConnectionDetails.POST env (snd (Logout.POST now (Some sid) db)) now2 req
  = (ConnectionDetails.Text401 (js "Unauthorized: invalid session"),
     [ConnectionDetails.FindSession sid uid now2]).
Proof.
  intros Hne Hone Hc Hu Hune Hs.
  apply POST_invalid_session; auto.
  apply validate_after_logout; auto.
Qed.

(** *** Validation *)

(** X13: on an unchanged store, a session that fails validation at some
    time fails it at every later time: neither expiry nor revocation is
    ever undone by waiting, and the connection route keeps answering
    401. *)
Theorem X13_validation_never_recovers db sid uid now now' :
  validate db sid uid now = false -> now <= now' ->
  validate db sid uid now' = false
  /\ forall env req,
       ConnectionDetails.configured env ->
       ConnectionDetails.x_user_id req = Some uid -> uid <> [] ->
       ConnectionDetails.x_session_id req = Some sid -> sid <> [] ->
       ConnectionDetails.is_401
         (fst (ConnectionDetails.POST env db now' req)) = true.
Proof.
  intros Hv Hle.
  assert (Hv' : validate db sid uid now' = false).
  { destruct (validate db sid uid now') eqn:E; [|reflexivity].
    apply validate_iff in E. destruct E as (s & Hin & H1 & H2 & H3 & H4).
    assert (validate db sid uid now = true).
    { apply validate_iff. exists s. repeat split; auto. lia. }
    congruence. }
  split; [exact Hv'|].
  intros env req Hc Hu Hune Hs Hsne.
  apply (connection_401_iff_invalid db now' req Hc Hu Hune Hs Hsne).
  exact Hv'.
Qed.

(** X14: a session is bound to the user who logged in: when every record
    that carries its identifier is the record [s], presenting it with the
    id of any other user is refused, however live the session is. *)
Theorem X14_session_of_another_user_is_refused db s uid now env req :
  only_record db s -> uid <> Sessions.user_id s -> uid <> [] ->
  Sessions.session_id s <> [] ->
  ConnectionDetails.configured env ->
  ConnectionDetails.x_user_id req = Some uid ->
  ConnectionDetails.x_session_id req = Some (Sessions.session_id s) ->
  ConnectionDetails.POST env db now req
  = (ConnectionDetails.Text401 (js "Unauthorized: invalid session"),
     [ConnectionDetails.FindSession (Sessions.session_id s) uid now]).
Proof.
  intros [Hin Honly] Hother Hune Hsne Hc Hu Hs.
  apply POST_invalid_session; auto.
  destruct (validate db (Sessions.session_id s) uid now) eqn:E; [|reflexivity].
  apply validate_iff in E. destruct E as (s' & Hin' & H1 & H2 & _).
  rewrite (Honly s' Hin' H1) in H2. congruence.
Qed.

(** *** The credential *)

(** X15: one room per user: two requests that are both answered with
    connection details are sent to the same room exactly when they carry
    the same [X-User-Id], whatever their session, name or body. *)
Theorem X15_same_room_iff_same_user
  env1 db1 now1 req1 d1 env2 db2 now2 req2 d2 :
  fst (ConnectionDetails.POST env1 db1 now1 req1)
    = ConnectionDetails.Json200 d1 ->
  fst (ConnectionDetails.POST env2 db2 now2 req2)
    = ConnectionDetails.Json200 d2 ->
  ConnectionDetails.roomName d1 = ConnectionDetails.roomName d2
  <-> ConnectionDetails.x_user_id req1 = ConnectionDetails.x_user_id req2.
Proof.
  intros H1 H2.
  destruct (POST_token _ _ _ _ H1) as (u1 & Hu1 & _ & Hr1 & _).
  destruct (POST_token _ _ _ _ H2) as (u2 & Hu2 & _ & Hr2 & _).
  rewrite Hu1, Hu2, Hr1, Hr2. split.
  - intros H. apply app_inv_head in H. congruence.
  - intros H. injection H as ->. reflexivity.
Qed.

(** X16: where the participant's display name comes from.  The name in
    the answer is the name in the credential.  Without a session id it is
    what the client sent in [X-User-Name] (or [user]), whatever the store
    says; with a validated session it is the name stored for the user
    whenever that name exists and is not empty, whatever the client
    sent. *)
Theorem X16_participant_name env db now req d :
  fst (ConnectionDetails.POST env db now req) = ConnectionDetails.Json200 d ->
  ConnectionDetails.participantName d
    = ConnectionDetails.name (ConnectionDetails.participantToken d)
  /\ (falsy_opt (ConnectionDetails.x_session_id req) = true ->
        ConnectionDetails.participantName d = header_name req)
  /\ (forall uid sid u n,
        ConnectionDetails.x_user_id req = Some uid ->
        ConnectionDetails.x_session_id req = Some sid -> sid <> [] ->
        findOne (user_id_filter uid) (users db) = Some u ->
        Users.name u = Some n -> n <> [] ->
        ConnectionDetails.participantName d = n).
Proof.
  unfold ConnectionDetails.POST, header_name.
  destruct (ConnectionDetails.LIVEKIT_URL env); [|discriminate].
  destruct (ConnectionDetails.LIVEKIT_API_KEY env); [|discriminate].
  destruct (ConnectionDetails.LIVEKIT_API_SECRET env); [|discriminate].
  destruct (ConnectionDetails.x_user_id req) as [uid|]; [|discriminate].
  destruct (falsy uid); [discriminate|].
  destruct (falsy_opt (ConnectionDetails.x_session_id req)) eqn:Efs.
  - destruct (ConnectionDetails.body req); [|discriminate].
    destruct (ConnectionDetails.createParticipantToken _ _ _ _ _ _)
      as [t|] eqn:Et; [|discriminate].
    apply createParticipantToken_inv in Et.
    destruct Et as (_ & _ & _ & Hname & _). simpl in Hname. simpl.
    intros H. injection H as <-. simpl.
    split; [symmetry; exact Hname|]. split; [reflexivity|].
    intros uid' sid u n _ Hs Hsne. rewrite Hs in Efs. simpl in Efs.
    apply falsy_true_iff in Efs. congruence.
  - destruct (findOne (live_session_filter _ _ _) _); [|discriminate].
    destruct (ConnectionDetails.body req); [|discriminate].
    destruct (ConnectionDetails.createParticipantToken _ _ _ _ _ _)
      as [t|] eqn:Et; [|discriminate].
    apply createParticipantToken_inv in Et.
    destruct Et as (_ & _ & _ & Hname & _). simpl in Hname. simpl.
    intros H. injection H as <-. simpl.
    split; [symmetry; exact Hname|]. split; [discriminate|].
    intros uid' sid u n Hu Hs Hsne Hf Hn Hnne. injection Hu as <-.
    rewrite Hf, Hn. apply falsy_false_iff in Hnne. rewrite Hnne. reflexivity.
Qed.

(** Helpers for the callers of the route. *)

Lemma POST_without_session env db now req uid b :
  ConnectionDetails.configured env ->
  ConnectionDetails.x_user_id req = Some uid -> uid <> [] ->
  ConnectionDetails.x_session_id req = None ->
  ConnectionDetails.body req = Normal b ->
  ConnectionDetails.key_ok env = true ->
  ConnectionDetails.agent_name_ok b = true ->
  exists d,
    fst (ConnectionDetails.POST env db now req) = ConnectionDetails.Json200 d
    /\ ConnectionDetails.roomName d = js "bank_room_" ++ uid
    /\ ConnectionDetails.metadata (ConnectionDetails.participantToken d)
       = js "{}".
Proof.
  intros Hc Hxu Hune Hxs Hbody Hk Ha.
  assert (Hua : ConnectionDetails.unauthorized db now req = false).
  { unfold ConnectionDetails.unauthorized. rewrite Hxu, Hxs.
    apply falsy_false_iff in Hune. rewrite Hune. reflexivity. }
  pose proof (@POST_authorized env db now req Hc Hua) as H.
  rewrite Hbody, Hk, Ha in H. destruct H as (d & Hd). exists d.
  split; [exact Hd|].
  destruct (POST_token _ _ _ _ Hd) as (uid' & H1 & _ & H3 & _ & _ & _ & H7).
  rewrite Hxu in H1. injection H1 as <-.
  rewrite stringify_session_id, Hxs in H7. auto.
Qed.

Lemma POST_name_of_nameless env db now req d uid sid u :
  fst (ConnectionDetails.POST env db now req) = ConnectionDetails.Json200 d ->
  ConnectionDetails.x_user_id req = Some uid ->
  ConnectionDetails.x_session_id req = Some sid ->
  findOne (user_id_filter uid) (users db) = Some u ->
  Users.name u = None \/ Users.name u = Some [] ->
  ConnectionDetails.participantName d = header_name req.
Proof.
  unfold ConnectionDetails.POST, header_name.
  destruct (ConnectionDetails.LIVEKIT_URL env); [|discriminate].
  destruct (ConnectionDetails.LIVEKIT_API_KEY env); [|discriminate].
  destruct (ConnectionDetails.LIVEKIT_API_SECRET env); [|discriminate].
  intros H Hu Hs Hf Hn. rewrite Hu, Hs in H.
  destruct (falsy uid); [discriminate|].
  simpl falsy_opt in H. destruct (falsy sid).
  - destruct (ConnectionDetails.body req); [|discriminate].
    destruct (ConnectionDetails.createParticipantToken _ _ _ _ _ _);
      [|discriminate].
    simpl in H. injection H as <-. reflexivity.
  - destruct (findOne (live_session_filter _ _ _) _); [|discriminate].
    rewrite Hf in H.
    destruct (ConnectionDetails.body req); [|discriminate].
    destruct (ConnectionDetails.createParticipantToken _ _ _ _ _ _);
      [|discriminate].
    simpl in H. injection H as <-. simpl.
    destruct Hn as [-> | ->]; reflexivity.
Qed.

End RouteFacts.
(** ** Signup *)

Module SignupFacts.
Import JSFacts AuthFacts.

Lemma findOne_stored_view uid users :
  findOne (user_id_filter uid) (map Signup.view users)
  = option_map Signup.view (findOne (Signup.stored_user_id_filter uid) users).
Proof.
  unfold findOne. induction users as [|d r IH]; simpl; [reflexivity|].
  unfold user_id_filter, Signup.stored_user_id_filter in *. simpl.
  destruct (jsstring_eqb (Signup.Stored.user_id d) uid); [reflexivity|exact IH].
Qed.

Lemma findOne_none_not_in uid users :
  findOne (Signup.stored_user_id_filter uid) users = None ->
  ~ In uid (map Signup.Stored.user_id users).
Proof.
  unfold findOne. intros H Hin. apply in_map_iff in Hin.
  destruct Hin as (d & Hd & Hin).
  pose proof (find_none _ _ H d Hin) as Hn.
  unfold Signup.stored_user_id_filter in Hn.
  rewrite Hd, jsstring_eqb_refl in Hn. discriminate.
Qed.

Lemma findOne_app_new {A} (f : A -> bool) l d :
  findOne f l = None -> f d = true -> findOne f (l ++ [d]) = Some d.
Proof.
  unfold findOne. induction l as [|a r IH]; simpl; intros Hn Hd.
  - rewrite Hd. reflexivity.
  - destruct (f a); [discriminate|]. apply IH; assumption.
Qed.

Lemma POST_200_checked rt body users ok uid :
  fst (Signup.POST rt body users) = Signup.Json200 ok ->
  Signup.user_id body = Some uid ->
  exists n pw cid, Signup.check body users = Signup.Insert uid n pw cid.
Proof.
  unfold Signup.POST, Signup.complete. intros H Hu.
  destruct (Signup.check body users) as [r|uid' n pw cid] eqn:E.
  - exfalso. revert E. unfold Signup.check.
    destruct (Signup.user_id body), (Signup.password body),
      (Signup.customer_id body); try (intros E; injection E as <-;
                                      discriminate).
    destruct (falsy _ || falsy _ || falsy _);
      [intros E; injection E as <-; discriminate|].
    destruct (findOne _ users); [|discriminate].
    intros E; injection E as <-; discriminate.
  - exists n, pw, cid. f_equal. revert E. unfold Signup.check. rewrite Hu.
    destruct (Signup.password body), (Signup.customer_id body);
      try discriminate.
    destruct (falsy _ || falsy _ || falsy _); [discriminate|].
    destruct (findOne _ users); [discriminate|].
    intros E. injection E as -> _ _ _. reflexivity.
Qed.

(** X17: signup keeps user ids unique only among requests that do not
    overlap.  A request that runs alone and asks for a user id that is
    already stored is answered 409; when it is not answered 200 it stores
    nothing, and when it is, it appends exactly one document and leaves the
    others as they were: a collection without two users of the same id
    does not get two.  The name is not required: without it the account is
    created and the answer carries the empty name.  But the route looks
    for the user id and inserts in two steps: of two requests for the same
    new id that have both looked before either has inserted, both are
    answered 200, and the collection holds two users of that id. *)
Theorem X17_signup_user_ids_unique_unless_concurrent rt body users :
  (NoDup (map Signup.Stored.user_id users) ->
     NoDup (map Signup.Stored.user_id (snd (Signup.POST rt body users))))
  /\ ((forall ok, fst (Signup.POST rt body users) <> Signup.Json200 ok) ->
        snd (Signup.POST rt body users) = users)
  /\ (forall uid pw cid,
        Signup.user_id body = Some uid -> Signup.password body = Some pw ->
        Signup.customer_id body = Some cid ->
        uid <> [] -> pw <> [] -> cid <> [] ->
        (In uid (map Signup.Stored.user_id users) ->
           Signup.POST rt body users = (Signup.UserExists409, users))
        /\ (~ In uid (map Signup.Stored.user_id users) ->
              Signup.POST rt body users
              = (Signup.Json200
                   {| Signup.ok_user_id := uid;
                      Signup.ok_user_name := match Signup.name body with
                                             | Some n => n
                                             | None => []
                                             end;
                      Signup.ok_id := Signup.insertedId rt |},
                 users ++ [{| Signup.Stored.user_id := uid;
                              Signup.Stored.name := Signup.name body;
                              Signup.Stored.customer_id := cid;
                              Signup.Stored.password_hash :=
                                Signup.bcrypt_hash rt pw;
                              Signup.Stored.created_at :=
                                Signup.new_Date rt |}])))
  /\ (forall rt' body' uid ok ok',
        Signup.user_id body = Some uid -> Signup.user_id body' = Some uid ->
        fst (Signup.POST rt body users) = Signup.Json200 ok ->
        fst (Signup.POST rt' body' users) = Signup.Json200 ok' ->
        let first := Signup.complete rt (Signup.check body users) users in
        let second :=
          Signup.complete rt' (Signup.check body' users) (snd first) in
        fst first = Signup.Json200 ok /\ fst second = Signup.Json200 ok'
        /\ ~ NoDup (map Signup.Stored.user_id (snd second))).
Proof.
  split; [|split; [|split]].
  - unfold Signup.POST, Signup.complete, Signup.check. intros Hnd.
    destruct (Signup.user_id body) as [uid|]; [|exact Hnd].
    destruct (Signup.password body) as [pw|]; [|exact Hnd].
    destruct (Signup.customer_id body) as [cid|]; [|exact Hnd].
    destruct (falsy uid || falsy pw || falsy cid); [exact Hnd|].
    destruct (findOne _ users) eqn:E; [exact Hnd|].
    cbn [snd]. unfold insertOne. rewrite map_app. simpl.
    apply findOne_none_not_in in E.
    clear -Hnd E. induction users as [|d r IH]; simpl in *.
    + constructor; [tauto|constructor].
    + inversion Hnd; subst. constructor.
      * rewrite in_app_iff. simpl. intuition congruence.
      * apply IH; tauto.
  - unfold Signup.POST, Signup.complete, Signup.check.
    destruct (Signup.user_id body) as [uid|]; [|reflexivity].
    destruct (Signup.password body) as [pw|]; [|reflexivity].
    destruct (Signup.customer_id body) as [cid|]; [|reflexivity].
    destruct (falsy uid || falsy pw || falsy cid); [reflexivity|].
    destruct (findOne _ users); [reflexivity|].
    intros H. exfalso. eapply H. reflexivity.
  - unfold Signup.POST, Signup.complete, Signup.check.
    intros uid pw cid -> -> -> Hu Hp Hc.
    apply falsy_false_iff in Hu. apply falsy_false_iff in Hp.
    apply falsy_false_iff in Hc. rewrite Hu, Hp, Hc. simpl.
    destruct (findOne (Signup.stored_user_id_filter uid) users) eqn:E.
    + split; [reflexivity|]. intros Hn. exfalso. apply Hn.
      unfold findOne in E. apply find_some in E. destruct E as [Hin Hf].
      unfold Signup.stored_user_id_filter in Hf. apply jsstring_eqb_eq in Hf.
      apply in_map_iff. eauto.
    + split; [|reflexivity]. intros Hin.
      exfalso. exact (findOne_none_not_in _ _ E Hin).
  - intros rt' body' uid ok ok' Hu Hu' H1 H2 first second.
    destruct (POST_200_checked rt body users H1 Hu) as (n1 & p1 & c1 & E1).
    destruct (POST_200_checked rt' body' users H2 Hu')
      as (n2 & p2 & c2 & E2).
    unfold second, first. unfold Signup.POST in H1, H2.
    rewrite E1 in *. rewrite E2 in *. cbn [Signup.complete fst snd] in *.
    split; [exact H1|]. split; [exact H2|].
    unfold insertOne. rewrite !map_app. cbn [map Signup.Stored.user_id].
    intros Hnd. apply NoDup_remove_2 in Hnd. apply Hnd.
    rewrite app_nil_r, in_app_iff. right. left. reflexivity.
Qed.

(** X18: whoever has signed up can log in: after a successful signup, a
    login with the same user id and password (checked by [bcrypt.compare]
    against the hash that signup stored) is answered with a new session
    and with the name given at signup, or the empty name when none was
    given. *)
Theorem X18_signup_then_login rt body users ok lrt sessions :
  fst (Signup.POST rt body users) = Signup.Json200 ok ->
  (forall pw, Signup.password body = Some pw ->
     Login.bcrypt_compare lrt pw (Signup.bcrypt_hash rt pw) = true) ->
  exists answer,
    Login.POST lrt (Signup.login_body body)
               (Signup.as_db sessions (snd (Signup.POST rt body users)))
    = (Login.Json200 answer,
       {| Mongo.sessions :=
            sessions ++ [Login.new_session lrt (Signup.ok_user_id ok)];
          Mongo.users := map Signup.view (snd (Signup.POST rt body users)) |})
    /\ Login.ok_user_id answer = Signup.ok_user_id ok
    /\ Login.ok_user_name answer = Signup.ok_user_name ok
    /\ Login.ok_session_id answer = Login.randomUUID lrt.
Proof.
  unfold Signup.POST, Signup.complete, Signup.check. intros Hs Hb.
  destruct (Signup.user_id body) as [uid|] eqn:Eu; [|discriminate].
  destruct (Signup.password body) as [pw|] eqn:Ep; [|discriminate].
  destruct (Signup.customer_id body) as [cid|]; [|discriminate].
  destruct (falsy uid || falsy pw || falsy cid) eqn:Ef; [discriminate|].
  destruct (findOne _ users) eqn:E; [discriminate|].
  cbn [fst snd] in *. injection Hs as <-. cbn [Signup.ok_user_id Signup.ok_user_name].
  apply orb_false_iff in Ef. destruct Ef as [Ef _].
  apply orb_false_iff in Ef. destruct Ef as [Hu Hp].
  set (d := {| Signup.Stored.user_id := uid |}).
  eexists. split.
  - apply (@login_valid lrt (Signup.login_body body)
             (Signup.as_db sessions (insertOne d users)) uid pw
             (Signup.view d)).
    + exact Eu.
    + exact Ep.
    + now apply falsy_false_iff.
    + now apply falsy_false_iff.
    + simpl. rewrite findOne_stored_view. unfold insertOne.
      rewrite (findOne_app_new _ _ d E); [reflexivity|].
      unfold Signup.stored_user_id_filter. apply jsstring_eqb_refl.
    + simpl. apply Hb. reflexivity.
  - simpl. auto.
Qed.

End SignupFacts.
(** ** The pages and hooks *)

Module ClientFacts.
Import JSFacts SessionStoreFacts ConnectionDetailsFacts AuthFacts RouteFacts.
Import SignupFacts Store Client.

Local Unset Implicit Arguments.

(** *** Storage *)

Lemma keys_differ :
  jsstring_eqb (js "user_id") (js "session_id") = false
  /\ jsstring_eqb (js "user_name") (js "session_id") = false
  /\ jsstring_eqb (js "user_name") (js "user_id") = false
  /\ jsstring_eqb (js "session_id") (js "user_id") = false
  /\ jsstring_eqb (js "session_id") (js "user_name") = false
  /\ jsstring_eqb (js "user_id") (js "user_name") = false.
Proof. repeat split; vm_compute; reflexivity. Qed.

Lemma with_sessions_same srv : with_sessions srv (db_of srv) = srv.
Proof. destruct srv; reflexivity. Qed.

(** *** The login page *)

(** X19: whatever the reason the login route refuses (missing
    credentials, unknown user, wrong password), the login page shows the
    one message [Login failed]: it looks for a [detail] property, and the
    route's answers carry their text under [error].  Nothing is stored and
    the router is not moved.  Only when [fetch] itself fails is the message
    that of the error. *)
Theorem X19_login_page_failure_message userId password net rt st srv :
  (net = Online ->
   (forall ok,
      fst (Login.POST rt {| Login.user_id := Some userId;
                            Login.password := Some password |} (db_of srv))
      <> Login.Json200 ok) ->
   login_handleSubmit userId password net rt st srv
   = {| status := error (js "Login failed"); storage := st;
        pushed := None; server := srv |})
  /\ (forall m, net = Offline m ->
        login_handleSubmit userId password net rt st srv
        = {| status := error m; storage := st;
             pushed := None; server := srv |}).
Proof.
  split.
  - intros -> Hno. unfold login_handleSubmit.
    pose proof (@login_refused_unchanged rt
                  {| Login.user_id := Some userId;
                     Login.password := Some password |} (db_of srv) Hno)
      as Hdb.
    destruct (Login.POST rt _ (db_of srv)) as [res db'] eqn:E.
    simpl in Hno, Hdb. subst db'. rewrite with_sessions_same.
    destruct res as [| |ok]; [reflexivity | reflexivity |].
    exfalso. eapply Hno. reflexivity.
  - intros m ->. reflexivity.
Qed.

Lemma login_page_success (userId password : jsstring) rt st srv user :
  userId <> [] -> password <> [] ->
  findOne (user_id_filter userId) (Mongo.users (db_of srv)) = Some user ->
  Login.bcrypt_compare rt password (Users.password_hash user) = true ->
  login_handleSubmit userId password Online rt st srv
  = {| status := success (js "Logged in! Redirecting...");
       storage :=
         (let st2 := setItem (js "user_id") userId
                       (setItem (js "session_id") (Login.randomUUID rt) st) in
          match Users.name user with
          | Some n => if falsy n then st2 else setItem (js "user_name") n st2
          | None => st2
          end);
       pushed := Some (js "/call");
       server := {| sessions := sessions srv ++ [Login.new_session rt userId];
                    users := users srv |} |}.
Proof.
  intros Hu Hp Hf Hb. unfold login_handleSubmit.
  rewrite (@login_valid rt {| Login.user_id := Some userId;
                              Login.password := Some password |}
             (db_of srv) userId password user eq_refl eq_refl Hu Hp Hf Hb).
  cbn [Login.ok_session_id Login.ok_user_name].
  destruct (Users.name user) as [n|]; reflexivity.
Qed.

Lemma login_page_storage (userId password : jsstring) rt st srv user :
  userId <> [] -> password <> [] ->
  findOne (user_id_filter userId) (Mongo.users (db_of srv)) = Some user ->
  Login.bcrypt_compare rt password (Users.password_hash user) = true ->
  getItem (js "session_id")
    (storage (login_handleSubmit userId password Online rt st srv))
    = Some (Login.randomUUID rt)
  /\ getItem (js "user_id")
       (storage (login_handleSubmit userId password Online rt st srv))
     = Some userId
  /\ db_of (server (login_handleSubmit userId password Online rt st srv))
     = {| Mongo.sessions :=
            Mongo.sessions (db_of srv) ++ [Login.new_session rt userId];
          Mongo.users := Mongo.users (db_of srv) |}.
Proof.
  intros Hu Hp Hf Hb.
  rewrite (login_page_success userId password rt st srv user Hu Hp Hf Hb).
  cbn [storage server].
  destruct keys_differ as (K1 & K2 & K3 & K4 & K5 & K6).
  unfold getItem, setItem. repeat split.
  - destruct (Users.name user) as [n|]; [destruct (falsy n)|];
      rewrite ?K5, ?K4, ?jsstring_eqb_refl; reflexivity.
  - destruct (Users.name user) as [n|]; [destruct (falsy n)|];
      rewrite ?K6, ?jsstring_eqb_refl; reflexivity.
Qed.

(** X20: after a successful login through the page, the storage holds the
    session id the route returned and the user id as typed, and the
    router is sent to [/call].  The stored user name is the name of the
    account when that is not empty; for an account without a name the
    page leaves in place whatever name was stored before. *)
Theorem X20_login_page_stores_the_session
  (userId password : jsstring) rt st srv user :
  userId <> [] -> password <> [] ->
  findOne (user_id_filter userId) (Mongo.users (db_of srv)) = Some user ->
  Login.bcrypt_compare rt password (Users.password_hash user) = true ->
  let out := login_handleSubmit userId password Online rt st srv in
  getItem (js "session_id") (storage out) = Some (Login.randomUUID rt)
  /\ getItem (js "user_id") (storage out) = Some userId
  /\ (forall n, Users.name user = Some n -> n <> [] ->
        getItem (js "user_name") (storage out) = Some n)
  /\ (Users.name user = None \/ Users.name user = Some [] ->
        getItem (js "user_name") (storage out) = getItem (js "user_name") st)
  /\ pushed out = Some (js "/call")
  /\ sessions (server out) = sessions srv ++ [Login.new_session rt userId].
Proof.
  intros Hu Hp Hf Hb out. unfold out.
  rewrite (login_page_success userId password rt st srv user Hu Hp Hf Hb).
  cbn [storage pushed server sessions].
  destruct keys_differ as (K1 & K2 & K3 & K4 & K5 & K6).
  unfold getItem, setItem.
  repeat split.
  - destruct (Users.name user) as [n|]; [destruct (falsy n)|];
      rewrite ?K5, ?K4, ?jsstring_eqb_refl; reflexivity.
  - destruct (Users.name user) as [n|]; [destruct (falsy n)|];
      rewrite ?K6, ?jsstring_eqb_refl; reflexivity.
  - intros n -> Hn. apply falsy_false_iff in Hn. rewrite Hn.
    rewrite jsstring_eqb_refl. reflexivity.
  - intros [-> | ->]; cbv beta iota delta [falsy]; rewrite K3, K2; reflexivity.
Qed.

(** *** The logout button *)

(** X21: the logout button always forgets the login: whatever the network
    and the server do, the three keys [session_id], [user_id] and
    [user_name] are gone from the storage, every other key is as it was,
    the router is sent to [/], and from that storage the token source
    refuses to start a call without sending any request.  On the server the
    session is revoked only if a session id was stored and the request
    went through; otherwise the server is unchanged, so a logout that
    fails on the network leaves the session live. *)
Theorem X21_logout_button_forgets_the_login net now st srv :
  let '(st', to, srv') := handleLogout net now st srv in
  getItem (js "session_id") st' = None
  /\ getItem (js "user_id") st' = None
  /\ getItem (js "user_name") st' = None
  /\ (forall k, k <> js "session_id" -> k <> js "user_id" ->
                k <> js "user_name" -> getItem k st' = getItem k st)
  /\ to = Some (js "/")
  /\ (forall appConfig net' env now',
        tokenSource appConfig net' env now' st' srv'
        = Throw (js "Missing user id. Please log in first."))
  /\ ((falsy_opt (getItem (js "session_id") st) = true
       \/ exists m, net = Offline m) -> srv' = srv)
  /\ (forall sid, getItem (js "session_id") st = Some sid -> sid <> [] ->
        net = Online -> at_most_one sid (db_of srv) ->
        forall uid t, validate (db_of srv') sid uid t = false).
Proof.
  unfold handleLogout. cbv zeta.
  destruct keys_differ as (K1 & K2 & K3 & K4 & K5 & K6).
  split; [unfold getItem, removeItem; rewrite K5, K4, jsstring_eqb_refl;
          reflexivity|].
  split; [unfold getItem, removeItem; rewrite K6, jsstring_eqb_refl;
          reflexivity|].
  split; [unfold getItem, removeItem; rewrite jsstring_eqb_refl;
          reflexivity|].
  split.
  { intros k H1 H2 H3. unfold getItem, removeItem.
    destruct (jsstring_eqb k (js "user_name")) eqn:E1;
      [apply jsstring_eqb_eq in E1; congruence|].
    destruct (jsstring_eqb k (js "user_id")) eqn:E2;
      [apply jsstring_eqb_eq in E2; congruence|].
    destruct (jsstring_eqb k (js "session_id")) eqn:E3;
      [apply jsstring_eqb_eq in E3; congruence|].
    reflexivity. }
  split; [reflexivity|].
  split.
  { intros appConfig net' env now'. unfold tokenSource, getItem, removeItem.
    rewrite K6, jsstring_eqb_refl. reflexivity. }
  split.
  { intros [Hf | (m & ->)].
    - rewrite Hf. reflexivity.
    - destruct (falsy_opt _); reflexivity. }
  intros sid Hs Hne -> Hone uid t.
  unfold getItem in *. rewrite Hs. simpl falsy_opt.
  apply falsy_false_iff in Hne as Hf. rewrite Hf.
  unfold with_sessions, db_of, Signup.as_db. cbn [sessions users].
  pose proof (@validate_after_logout now sid (db_of srv) uid t Hne Hone) as Hv.
  unfold validate in *. cbn [Mongo.sessions] in *. exact Hv.
Qed.

(** *** The token source *)

Lemma optional_header_safe (v : jsstring) :
  v <> [] -> header_safe v -> optional_header (Some v) = Normal (Some v).
Proof.
  intros Hne Hs. unfold optional_header.
  apply falsy_false_iff in Hne. rewrite Hne, Hs. reflexivity.
Qed.

(** The body the token source sends names an agent only by a string. *)
Lemma room_config_body_ok a :
  ConnectionDetails.agent_name_ok (room_config_body a) = true.
Proof.
  unfold room_config_body. destruct (falsy_opt a) eqn:E; [reflexivity|].
  destruct a as [n|]; [|discriminate]. simpl in E.
  unfold ConnectionDetails.agent_name_ok.
  change (ConnectionDetails.agent_name_of
            (JObject
               [(js "room_config",
                 JObject
                   [(js "agents",
                     JArray [JObject [(js "agent_name", JString n)]])])]))
    with (Some (JString n)).
  simpl. rewrite E. reflexivity.
Qed.

(** X22: the token source ends in one of three ways.  With no user id in
    the storage (absent or empty) it throws [Missing user id. Please log in
    first.] without sending anything, whatever the network and the server.
    Otherwise it returns the details of a 200 answer, or throws the one
    message [Error fetching connection details!] for everything else: the
    network failing, a header value that [fetch] refuses, a 401 or a 500;
    the status and the text of a refusal never reach the caller. *)
Theorem X22_token_source_outcomes appConfig net env now st srv :
  (falsy_opt (getItem (js "user_id") st) = true ->
     tokenSource appConfig net env now st srv
     = Throw (js "Missing user id. Please log in first."))
  /\ (falsy_opt (getItem (js "user_id") st) = false ->
        tokenSource appConfig net env now st srv = Throw failed_fetching
        \/ exists d req,
             tokenSource appConfig net env now st srv = Normal d
             /\ net = Online
             /\ fst (ConnectionDetails.POST env (db_of srv) now req)
                = ConnectionDetails.Json200 d
             /\ ConnectionDetails.body req
                = Normal (room_config_body (agentName appConfig))).
Proof.
  unfold tokenSource. split.
  - destruct (getItem (js "user_id") st) as [uid|]; [|reflexivity].
    simpl. intros ->. reflexivity.
  - destruct (getItem (js "user_id") st) as [uid|]; [|discriminate].
    simpl. intros ->.
    destruct (header_value uid) as [hid|]; [|left; reflexivity].
    destruct (optional_header (getItem (js "user_name") st)) as [hname|];
      [|left; reflexivity].
    destruct (optional_header (getItem (js "session_id") st)) as [hsession|];
      [|left; reflexivity].
    destruct (sandbox_header appConfig) as [hsandbox|]; [|left; reflexivity].
    destruct net; [left; reflexivity|].
    match goal with
    | |- context [ConnectionDetails.POST ?e ?d ?n ?r] =>
        destruct (fst (ConnectionDetails.POST e d n r)) as [| |dd] eqn:E;
        [left; reflexivity | left; reflexivity |
         right; exists dd, r; repeat split; auto]
    end.
Qed.

(** X23: a stored user name with a character outside Latin-1 (any
    code unit above 255) makes every attempt to start a call fail: [fetch]
    refuses the [X-User-Name] header, and the token source throws before
    any request reaches the server, whoever the user is and whatever the
    server would have answered. *)
Theorem X23_non_latin1_name_blocks_the_call
  appConfig net env now st srv uid n :
  getItem (js "user_id") st = Some uid -> uid <> [] ->
  getItem (js "user_name") st = Some n ->
  Exists (fun c => (255 < c)%N) n ->
  tokenSource appConfig net env now st srv = Throw failed_fetching.
Proof.
  intros Hu Hune Hn Hex. unfold tokenSource. rewrite Hu, Hn.
  apply falsy_false_iff in Hune. rewrite Hune.
  assert (Hopt : exists e, optional_header (Some n) = Throw e).
  { unfold optional_header, header_value.
    assert (Hne : falsy n = false) by (inversion Hex; reflexivity).
    rewrite Hne.
    assert (Hall : forallb (fun c => (c <=? 255)%N) n = false).
    { destruct (forallb _ n) eqn:E; [|reflexivity].
      rewrite forallb_forall in E. apply Exists_exists in Hex.
      destruct Hex as (c & Hin & Hc). specialize (E c Hin).
      apply N.leb_le in E. lia. }
    rewrite Hall. simpl. eauto. }
  destruct Hopt as (e & ->).
  destruct (header_value uid); reflexivity.
Qed.

(** X24: from the login page to the room: after a successful login
    through the page, the token source, on a configured server whose key
    and secret are not empty and before the session expires, returns the
    details of room
    [bank_room_<user id typed>] with the new session id in the credential's
    metadata, provided the user id, the session id and the stored user name
    are values [fetch] sends unchanged. *)
Theorem X24_login_page_then_call
  (userId password : jsstring) rt st srv user appConfig env now hname hsandbox :
  userId <> [] -> password <> [] ->
  findOne (user_id_filter userId) (Mongo.users (db_of srv)) = Some user ->
  Login.bcrypt_compare rt password (Users.password_hash user) = true ->
  header_safe userId ->
  Login.randomUUID rt <> [] -> header_safe (Login.randomUUID rt) ->
  optional_header
    (getItem (js "user_name")
       (storage (login_handleSubmit userId password Online rt st srv)))
    = Normal hname ->
  sandbox_header appConfig = Normal hsandbox ->
  ConnectionDetails.configured env ->
  ConnectionDetails.key_ok env = true ->
  (now < Login.Date_now rt + 24 * 60 * 60 * 1000)%Z ->
  exists d,
    tokenSource appConfig Online env now
      (storage (login_handleSubmit userId password Online rt st srv))
      (server (login_handleSubmit userId password Online rt st srv))
    = Normal d
    /\ ConnectionDetails.roomName d = js "bank_room_" ++ userId
    /\ ConnectionDetails.metadata (ConnectionDetails.participantToken d)
       = ConnectionDetails.metadata_text (Some (Login.randomUUID rt)).
Proof.
  intros Hu Hp Hf Hb Hsu Hid Hsid Hname Hsb Hc Hk Hnow.
  destruct (login_page_storage userId password rt st srv user Hu Hp Hf Hb)
    as (Gs & Gu & Gsrv).
  unfold tokenSource. rewrite Gu, Gs, Hname, Hsb.
  apply falsy_false_iff in Hu as Hfu. rewrite Hfu, Hsu.
  rewrite (optional_header_safe _ Hid Hsid).
  match goal with
  | |- context [ConnectionDetails.POST ?e ?d ?n ?r] =>
      assert (Hv : validate d (Login.randomUUID rt) userId n = true)
        by (rewrite Gsrv; apply validate_new_session; lia);
      destruct (@POST_live_session e d n r userId (Login.randomUUID rt)
                  (room_config_body (agentName appConfig))
                  Hc eq_refl Hu eq_refl Hv eq_refl Hk
                  (room_config_body_ok (agentName appConfig)))
        as (dd & Hd & Hroom & _ & Hmeta);
      rewrite Hd; exists dd; auto
  end.
Qed.

(** *** The signup page *)

Lemma signup_page_success form rt st srv :
  user_id form <> [] -> password form <> [] -> customer_id form <> [] ->
  ~ In (user_id form) (map Signup.Stored.user_id (users srv)) ->
  signup_handleSubmit form Online rt st srv
  = {| status := success (js "Account created! Redirecting to login...");
       storage := setItem (js "user_name") (name form)
                    (setItem (js "user_id") (user_id form) st);
       pushed := Some (js "/login");
       server :=
         {| sessions := sessions srv;
            users := users srv
                     ++ [{| Signup.Stored.user_id := user_id form;
                            Signup.Stored.name := Some (name form);
                            Signup.Stored.customer_id := customer_id form;
                            Signup.Stored.password_hash :=
                              Signup.bcrypt_hash rt (password form);
                            Signup.Stored.created_at :=
                              Signup.new_Date rt |}] |} |}.
Proof.
  intros Hu Hp Hc Hnew.
  unfold signup_handleSubmit, Signup.POST, Signup.complete, Signup.check.
  cbn [Signup.user_id Signup.password Signup.customer_id Signup.name].
  apply falsy_false_iff in Hu. apply falsy_false_iff in Hp.
  apply falsy_false_iff in Hc. rewrite Hu, Hp, Hc. cbn [orb].
  destruct (findOne (Signup.stored_user_id_filter (user_id form)) (users srv))
    eqn:E.
  - exfalso. apply Hnew. unfold findOne in E. apply find_some in E.
    destruct E as [Hin Hf]. unfold Signup.stored_user_id_filter in Hf.
    apply jsstring_eqb_eq in Hf. apply in_map_iff. eauto.
  - reflexivity.
Qed.

(** X25: signing up is enough to enter a room.  After a successful signup
    through the page, on a browser that holds no session id, no session
    exists on the server, and yet the token source, which finds the user
    id that the signup page stored, is answered (by a configured server
    whose key and secret are not empty) with the details of room
    [bank_room_<user id>]; the credential's metadata is the empty object.
    No login has taken place. *)
Theorem X25_signup_page_then_call_without_login
  form rt st srv appConfig env now hname hsandbox :
  user_id form <> [] -> password form <> [] -> customer_id form <> [] ->
  ~ In (user_id form) (map Signup.Stored.user_id (users srv)) ->
  getItem (js "session_id") st = None ->
  header_safe (user_id form) ->
  optional_header (Some (name form)) = Normal hname ->
  sandbox_header appConfig = Normal hsandbox ->
  ConnectionDetails.configured env ->
  ConnectionDetails.key_ok env = true ->
  let out := signup_handleSubmit form Online rt st srv in
  sessions (server out) = sessions srv
  /\ getItem (js "session_id") (storage out) = None
  /\ exists d,
       tokenSource appConfig Online env now (storage out) (server out)
       = Normal d
       /\ ConnectionDetails.roomName d = js "bank_room_" ++ user_id form
       /\ ConnectionDetails.metadata (ConnectionDetails.participantToken d)
          = js "{}".
Proof.
  intros Hu Hp Hcid Hnew Hnos Hsafe Hname Hsb Hc Hk out. unfold out.
  rewrite (signup_page_success form rt st srv Hu Hp Hcid Hnew).
  cbn [storage server sessions].
  destruct keys_differ as (K1 & K2 & K3 & K4 & K5 & K6).
  assert (Gs : getItem (js "session_id")
                 (setItem (js "user_name") (name form)
                    (setItem (js "user_id") (user_id form) st)) = None).
  { unfold getItem, setItem in *. rewrite K5, K4. exact Hnos. }
  split; [reflexivity|]. split; [exact Gs|].
  unfold tokenSource. rewrite Gs.
  unfold getItem, setItem. rewrite K6, !jsstring_eqb_refl, Hname, Hsb.
  apply falsy_false_iff in Hu as Hfu. rewrite Hfu, Hsafe.
  cbn [optional_header].
  match goal with
  | |- context [ConnectionDetails.POST ?e ?d ?n ?r] =>
      destruct (@POST_without_session e d n r (user_id form)
                  (room_config_body (agentName appConfig))
                  Hc eq_refl Hu eq_refl eq_refl Hk
                  (room_config_body_ok (agentName appConfig)))
        as (dd & Hd & Hroom & Hmeta);
      rewrite Hd; exists dd; auto
  end.
Qed.

(** X26: a name left in the storage outlives its user.  When a user whose
    account has no name (or an empty one) logs in through the page on a
    browser where a name is still stored, that name stays in the storage,
    is sent by the token source as [X-User-Name], and, the account offering
    none to replace it, becomes the new user's participant name in the
    room (on a configured server whose key and secret are not empty). *)
Theorem X26_stale_name_becomes_participant_name
  (userId password : jsstring) rt st srv user appConfig env now n hsandbox :
  userId <> [] -> password <> [] ->
  findOne (user_id_filter userId) (Mongo.users (db_of srv)) = Some user ->
  Login.bcrypt_compare rt password (Users.password_hash user) = true ->
  Users.name user = None \/ Users.name user = Some [] ->
  getItem (js "user_name") st = Some n -> n <> [] -> header_safe n ->
  header_safe userId ->
  Login.randomUUID rt <> [] -> header_safe (Login.randomUUID rt) ->
  sandbox_header appConfig = Normal hsandbox ->
  ConnectionDetails.configured env ->
  ConnectionDetails.key_ok env = true ->
  (now < Login.Date_now rt + 24 * 60 * 60 * 1000)%Z ->
  let out := login_handleSubmit userId password Online rt st srv in
  getItem (js "user_name") (storage out) = Some n
  /\ exists d,
       tokenSource appConfig Online env now (storage out) (server out)
       = Normal d
       /\ ConnectionDetails.identity (ConnectionDetails.participantToken d)
          = userId
       /\ ConnectionDetails.participantName d = n.
Proof.
  intros Hu Hp Hf Hb Hnoname Hn Hnne Hnsafe Hsu Hid Hsid Hsb Hc Hk Hnow out.
  destruct (login_page_storage userId password rt st srv user Hu Hp Hf Hb)
    as (Gs & Gu & Gsrv).
  assert (Gn : getItem (js "user_name") (storage out) = Some n).
  { unfold out.
    rewrite (login_page_success userId password rt st srv user Hu Hp Hf Hb).
    cbn [storage]. destruct keys_differ as (K1 & K2 & K3 & K4 & K5 & K6).
    unfold getItem, setItem in *.
    destruct Hnoname as [-> | ->]; cbv beta iota delta [falsy];
      rewrite K3, K2; exact Hn. }
  split; [exact Gn|].
  unfold tokenSource. fold out. rewrite Gn. unfold out. rewrite Gu, Gs.
  apply falsy_false_iff in Hu as Hfu. rewrite Hfu, Hsu.
  rewrite (optional_header_safe _ Hnne Hnsafe).
  rewrite (optional_header_safe _ Hid Hsid), Hsb.
  match goal with
  | |- context [ConnectionDetails.POST ?e ?d ?nw ?r] =>
      assert (Hv : validate d (Login.randomUUID rt) userId nw = true)
        by (rewrite Gsrv; apply validate_new_session; lia);
      destruct (@POST_live_session e d nw r userId (Login.randomUUID rt)
                  (room_config_body (agentName appConfig))
                  Hc eq_refl Hu eq_refl Hv eq_refl Hk
                  (room_config_body_ok (agentName appConfig)))
        as (dd & Hd & _ & Hident & _);
      rewrite Hd; exists dd; split; [reflexivity|]; split; [exact Hident|];
      apply (@POST_name_of_nameless e d nw r dd userId
               (Login.randomUUID rt) user Hd eq_refl eq_refl);
      [ rewrite Gsrv; exact Hf | exact Hnoname ]
  end.
Qed.

(** X29: whatever the reason the signup route refuses (a field left
    empty, a user id already taken), the signup page shows the one message
    [Signup failed], for the same reason as the login page; the storage,
    the router and the users of the server are as they were, and no
    session is ever created by the page.  Only when [fetch] itself fails is
    the message that of the error. *)
Theorem X29_signup_page_failure_message form net rt st srv :
  (net = Online ->
   (user_id form = [] \/ password form = [] \/ customer_id form = []
    \/ In (user_id form) (map Signup.Stored.user_id (users srv))) ->
   signup_handleSubmit form net rt st srv
   = {| status := error (js "Signup failed"); storage := st;
        pushed := None; server := srv |})
  /\ (forall m, net = Offline m ->
        signup_handleSubmit form net rt st srv
        = {| status := error m; storage := st;
             pushed := None; server := srv |})
  /\ sessions (server (signup_handleSubmit form net rt st srv))
     = sessions srv.
Proof.
  split; [|split].
  - intros -> Hbad.
    unfold signup_handleSubmit, Signup.POST, Signup.complete, Signup.check.
    cbn [Signup.user_id Signup.password Signup.customer_id Signup.name].
    destruct (falsy (user_id form) || falsy (password form)
              || falsy (customer_id form)) eqn:Ef.
    { destruct srv; reflexivity. }
    apply orb_false_iff in Ef. destruct Ef as [Ef Ec].
    apply orb_false_iff in Ef. destruct Ef as [Eu Ep].
    apply falsy_false_iff in Eu, Ep, Ec.
    destruct Hbad as [H | [H | [H | Hin]]]; try congruence.
    destruct (findOne (Signup.stored_user_id_filter (user_id form))
                (users srv)) eqn:E.
    { destruct srv; reflexivity. }
    exfalso. apply in_map_iff in Hin. destruct Hin as (d & Hd & Hin).
    unfold findOne in E. pose proof (find_none _ _ E d Hin) as Hn.
    unfold Signup.stored_user_id_filter in Hn. rewrite Hd in Hn.
    rewrite jsstring_eqb_refl in Hn. discriminate.
  - intros m ->. reflexivity.
  - unfold signup_handleSubmit. destruct net; [reflexivity|].
    destruct (Signup.POST rt _ (users srv)) as [res users'].
    destruct res; reflexivity.
Qed.

(** *** The signed-in user *)

Lemma header_value_normal (v h : jsstring) :
  header_value v = Normal h -> h = normalize v.
Proof.
  unfold header_value.
  destruct (negb (forallb _ v)); [discriminate|].
  destruct (negb (forallb _ (normalize v))); [discriminate|].
  intros H. injection H as <-. reflexivity.
Qed.

Lemma POST_200_validated env db now req d (sid : jsstring) :
  fst (ConnectionDetails.POST env db now req) = ConnectionDetails.Json200 d ->
  ConnectionDetails.x_session_id req = Some sid -> sid <> [] ->
  exists uid,
    ConnectionDetails.x_user_id req = Some uid
    /\ validate db sid uid now = true.
Proof.
  unfold ConnectionDetails.POST. intros H Hs Hne.
  destruct (ConnectionDetails.LIVEKIT_URL env); [|discriminate].
  destruct (ConnectionDetails.LIVEKIT_API_KEY env); [|discriminate].
  destruct (ConnectionDetails.LIVEKIT_API_SECRET env); [|discriminate].
  destruct (ConnectionDetails.x_user_id req) as [uid|]; [|discriminate].
  destruct (falsy uid); [discriminate|].
  exists uid. split; [reflexivity|].
  rewrite Hs in H. simpl falsy_opt in H.
  apply falsy_false_iff in Hne. rewrite Hne in H.
  unfold validate.
  destruct (findOne (live_session_filter sid uid now) (Mongo.sessions db));
    [reflexivity | discriminate].
Qed.

(** X27: the page and the token source agree on who is signed in.
    [useAuthUser] finds no user exactly when the token source refuses with
    [Missing user id. Please log in first.], whatever the configuration,
    the network and the server.  When it finds one, its name is the stored
    name, and every room the token source is let into is the room of that
    user's id with the HTTP white space at its ends removed, which is also
    the identity in the credential. *)
Theorem X27_signed_in_user_and_token_source st :
  (useAuthUser st = None
   <-> forall appConfig net env now srv,
         tokenSource appConfig net env now st srv
         = Throw (js "Missing user id. Please log in first."))
  /\ (forall u, useAuthUser st = Some u ->
        getItem (js "user_id") st = Some (auth_id u)
        /\ auth_name u = getItem (js "user_name") st
        /\ forall appConfig net env now srv d,
             tokenSource appConfig net env now st srv = Normal d ->
             ConnectionDetails.roomName d
             = js "bank_room_" ++ normalize (auth_id u)
             /\ ConnectionDetails.identity
                  (ConnectionDetails.participantToken d)
                = normalize (auth_id u)).
Proof.
  unfold useAuthUser, tokenSource.
  destruct (getItem (js "user_id") st) as [id|].
  2:{ split; [split; reflexivity | discriminate]. }
  destruct (falsy id) eqn:Ef.
  { split; [split; reflexivity | discriminate]. }
  split.
  - split; [discriminate|]. intros H. exfalso.
    specialize (H {| sandboxId := None; agentName := None |} (Offline [])
                  {| ConnectionDetails.LIVEKIT_API_KEY := None;
                     ConnectionDetails.LIVEKIT_API_SECRET := None;
                     ConnectionDetails.LIVEKIT_URL := None;
                     ConnectionDetails.toJwt_message := fun _ => [] |}
                  0%Z {| sessions := []; users := [] |}).
    destruct (header_value id);
      destruct (optional_header (getItem (js "user_name") st));
      destruct (optional_header (getItem (js "session_id") st));
      vm_compute in H; discriminate.
  - intros u Hu. injection Hu as <-. cbn [auth_id auth_name].
    split; [reflexivity|]. split; [reflexivity|].
    intros appConfig net env now srv d.
    destruct (header_value id) as [hid|] eqn:Eh; [|discriminate].
    apply header_value_normal in Eh. subst hid.
    destruct (optional_header (getItem (js "user_name") st)) as [hname|];
      [|discriminate].
    destruct (optional_header (getItem (js "session_id") st)) as [hsession|];
      [|discriminate].
    destruct (sandbox_header appConfig); [|discriminate].
    destruct net; [discriminate|].
    match goal with
    | |- context [ConnectionDetails.POST ?e ?db ?n ?r] =>
        destruct (fst (ConnectionDetails.POST e db n r)) as [| |dd] eqn:E;
        [discriminate | discriminate |];
        destruct (@POST_token e db n r dd E)
          as (uid & Huid & _ & Hroom & Hident & _)
    end.
    cbn [ConnectionDetails.x_user_id] in Huid. injection Huid as <-.
    intros H. injection H as <-. auto.
Qed.

(** X28: a user id with white space at an end can log in but not call.
    After a successful login through the page with such an id (the route
    compares the id as typed), and with a session id that is new to the
    store, every attempt of the token source fails: [fetch] sends the
    [X-User-Id] header without the white space, and the session was
    recorded for the id with it. *)
Theorem X28_padded_user_id_cannot_start_a_call
  (userId password : jsstring) rt st srv user appConfig net env now :
  userId <> [] -> password <> [] ->
  findOne (user_id_filter userId) (Mongo.users (db_of srv)) = Some user ->
  Login.bcrypt_compare rt password (Users.password_hash user) = true ->
  normalize userId <> userId ->
  Login.randomUUID rt <> [] -> header_safe (Login.randomUUID rt) ->
  ~ In (Login.randomUUID rt) (map Sessions.session_id (sessions srv)) ->
  let out := login_handleSubmit userId password Online rt st srv in
  pushed out = Some (js "/call")
  /\ getItem (js "user_id") (storage out) = Some userId
  /\ tokenSource appConfig net env now (storage out) (server out)
     = Throw failed_fetching.
Proof.
  intros Hu Hp Hf Hb Hpad Hid Hsid Hfresh out.
  destruct (login_page_storage userId password rt st srv user Hu Hp Hf Hb)
    as (Gs & Gu & Gsrv).
  split.
  { unfold out.
    rewrite (login_page_success userId password rt st srv user Hu Hp Hf Hb).
    reflexivity. }
  split; [exact Gu|].
  unfold tokenSource. fold out. unfold out. rewrite Gu, Gs.
  apply falsy_false_iff in Hu as Hfu. rewrite Hfu.
  destruct (header_value userId) as [hid|] eqn:Eh; [|reflexivity].
  apply header_value_normal in Eh. subst hid.
  destruct (optional_header _) as [hname|]; [|reflexivity].
  rewrite (optional_header_safe _ Hid Hsid).
  destruct (sandbox_header appConfig); [|reflexivity].
  destruct net; [reflexivity|].
  match goal with
  | |- context [ConnectionDetails.POST ?e ?db ?n ?r] =>
      destruct (fst (ConnectionDetails.POST e db n r)) as [| |dd] eqn:E;
      [reflexivity | reflexivity |];
      destruct (@POST_200_validated e db n r dd (Login.randomUUID rt)
                  E eq_refl Hid) as (uid & Huid & Hv)
  end.
  exfalso. cbn [ConnectionDetails.x_user_id] in Huid. injection Huid as <-.
  rewrite Gsrv in Hv. apply validate_iff in Hv.
  destruct Hv as (s & Hin & Hs1 & Hs2 & _). cbn [Mongo.sessions] in Hin.
  apply in_app_iff in Hin. destruct Hin as [Hin | [<- | []]].
  - apply Hfresh. rewrite <- Hs1. apply in_map. exact Hin.
  - apply Hpad. symmetry. exact Hs2.
Qed.

End ClientFacts.

(** ** The walk through the pages *)

Module WalkthroughFacts.
Import JSFacts SessionView Wire Overlay Store Client Scenario Walkthrough.
Import OverlayFacts RouteFacts SignupFacts ClientFacts.

Local Unset Implicit Arguments.

Ltac code_units_tac := unfold code_units; repeat constructor.

Ltac configured_tac :=
  unfold ConnectionDetails.configured; repeat split; discriminate.

(** After the TPIN has been answered and the payee asked for, the only
    reply so far is that of the first call. *)
Lemma X2_witness :
  Forall (fun q => q < 1)
         (resolved (snd (run tpin_then_payee initial))).
Proof.
  apply (proj2 (@X2_replies_in_call_order tpin_then_payee) payee_prompt).
  vm_compute. reflexivity.
Defined.

(** Two digits typed and then cancelled leave nothing in the box. *)
Lemma X3_witness : inputValue (fst (run tpin_cancelled initial)) = [].
Proof.
  apply (@X3_text_box_empty_without_input_prompt tpin_cancelled).
  vm_compute. intros. discriminate.
Defined.

Lemma X4_witness :
  exists a b c d,
    is_digit a = true /\ is_digit b = true
    /\ is_digit c = true /\ is_digit d = true
    /\ trim (inputValue (tpin_pending (js "1234"))) = [a; b; c; d]
    /\ snd (handleInputSubmit (tpin_pending (js "1234")))
       = [Resolve 0 (tpin_text a b c d)]
    /\ fst (handleInputSubmit (tpin_pending (js "1234")))
       = setRpcPrompt None (tpin_pending (js "1234")).
Proof.
  apply (@X4_tpin_reply_is_four_digits (tpin_pending (js "1234"))
           (js "Transaction PIN") (js "Enter your transaction PIN") 0 0).
  - reflexivity.
  - apply surjective_pairing.
  - vm_compute. discriminate.
Defined.

Lemma X5_witness :
  exists payload,
    handleAccountSelect (js "acc1") choose_pending
      = (setRpcPrompt None choose_pending, [Resolve 0 payload])
    /\ JSON_parse payload
       = Some (JObject [(js "accountId", JString (js "acc1"))])
    /\ get (JObject [(js "accountId", JString (js "acc1"))]) (js "accountId")
       = Normal (Some (JString (js "acc1"))).
Proof.
  apply (@X5_account_selection_round_trip choose_pending (JString [])
           [JObject [(js "id", JString (js "acc1"))];
            JObject [(js "id", JString (js "acc2"))]] 0 0 (js "acc1")).
  - reflexivity.
  - code_units_tac.
Defined.

Lemma X6_witness :
  exists payload,
    snd (handleInputSubmit (payee_pending (js " 12345 ")))
      = [Resolve 0 payload]
    /\ JSON_parse payload
       = Some (JObject [(js "accountNumber", JString (js "12345"))]).
Proof.
  destruct (@X6_input_reply_round_trip (payee_pending (js " 12345 "))
              accountNumber (js "Payee account number")
              (js "Enter the payee account number") 0 0
              (fst (handleInputSubmit (payee_pending (js " 12345 "))))
              (snd (handleInputSubmit (payee_pending (js " 12345 "))))
              eq_refl ltac:(code_units_tac)
              (surjective_pairing _) ltac:(vm_compute; discriminate))
    as (payload & H1 & H2 & _).
  exists payload. split; [exact H1 | exact H2].
Defined.

(** An account button pressed under a TPIN prompt does nothing. *)
Lemma X7_witness :
  step (AccountSelect (js "acc1")) (tpin_pending (js "12"))
  = (tpin_pending (js "12"), []).
Proof.
  apply (@X7_unoffered_actions_do_nothing (AccountSelect (js "acc1"))
           (tpin_pending (js "12"))); reflexivity.
Defined.

(** An unknown user id and a wrong password of alice get the same answer. *)
Lemma X9_witness :
  Login.POST rt0 login_mallory db0 = (Login.InvalidCredentials401, db0)
  /\ Login.POST rt_refusing login_alice db0
     = (Login.InvalidCredentials401, db0).
Proof.
  split.
  - apply (proj1 (proj2 (proj2 (@X9_failed_login_leaves_no_trace
                                  rt0 login_mallory db0))
                   (js "mallory") (js "guess") eq_refl eq_refl
                   ltac:(discriminate) ltac:(discriminate))).
    reflexivity.
  - apply (proj2 (proj2 (proj2 (@X9_failed_login_leaves_no_trace
                                  rt_refusing login_alice db0))
                   (js "alice") (js "secret") eq_refl eq_refl
                   ltac:(discriminate) ltac:(discriminate)) alice);
      reflexivity.
Defined.

Lemma X10_witness :
  exists d,
    fst (ConnectionDetails.POST env0 (snd (Login.POST rt0 login_alice db0))
           2000%Z req_with_session)
      = ConnectionDetails.Json200 d
    /\ ConnectionDetails.roomName d = js "bank_room_alice".
Proof.
  destruct (@X10_login_then_connect rt0 login_alice db0 (js "alice")
              (js "secret") alice env0 req_with_session 2000%Z (JObject [])
              eq_refl eq_refl ltac:(discriminate) ltac:(discriminate)
              eq_refl eq_refl ltac:(discriminate) ltac:(configured_tac)
              eq_refl eq_refl eq_refl eq_refl eq_refl eq_refl)
    as (d & H1 & H2 & _).
  exists d. split; [exact H1 | exact H2].
Defined.

(** A logout with a session id the store does not know changes nothing. *)
Lemma X11_witness :
  Logout.route no_operators 5000%Z logout_unknown db1 = (Logout.Ok200, db1).
Proof.
  apply (proj2 (proj2 (proj1 (proj2 (proj2
           (@X11_logout_touches_only_its_session
              no_operators 5000%Z logout_unknown db1)))
           (JObject [(js "session_id", JString (js "no-such-session"))])
           (js "no-such-session") eq_refl eq_refl))).
  - discriminate.
  - reflexivity.
Defined.

Lemma X12_witness :
  ConnectionDetails.POST env0
    (snd (Logout.POST 5000%Z (Some (js "3f0c9a52-uuid")) db1))
    6000%Z req_with_session
  = (ConnectionDetails.Text401 (js "Unauthorized: invalid session"),
     [ConnectionDetails.FindSession (js "3f0c9a52-uuid") (js "alice")
        6000%Z]).
Proof.
  apply (@X12_logout_then_connect_is_refused 5000%Z (js "3f0c9a52-uuid") db1
           env0 req_with_session (js "alice") 6000%Z).
  - discriminate.
  - unfold at_most_one. vm_compute. apply le_n.
  - configured_tac.
  - reflexivity.
  - discriminate.
  - reflexivity.
Defined.

(** Once expired, alice's session is refused a day later as well. *)
Lemma X13_witness :
  validate db1 (js "3f0c9a52-uuid") (js "alice") 172801000%Z = false
  /\ ConnectionDetails.is_401
       (fst (ConnectionDetails.POST env0 db1 172801000%Z req_with_session))
     = true.
Proof.
  destruct (@X13_validation_never_recovers db1 (js "3f0c9a52-uuid")
              (js "alice") 86401000%Z 172801000%Z eq_refl
              ltac:(vm_compute; discriminate)) as [H1 H2].
  split; [exact H1|].
  apply (H2 env0 req_with_session); try reflexivity; try discriminate.
  configured_tac.
Defined.

Lemma X14_witness :
  ConnectionDetails.POST env0 db1 2000%Z req_bob_with_alice_session
  = (ConnectionDetails.Text401 (js "Unauthorized: invalid session"),
     [ConnectionDetails.FindSession (js "3f0c9a52-uuid") (js "bob") 2000%Z]).
Proof.
  apply (@X14_session_of_another_user_is_refused db1 session0 (js "bob")
           2000%Z env0 req_bob_with_alice_session).
  - split; [left; reflexivity|].
    intros s' [<- | []] _. reflexivity.
  - discriminate.
  - discriminate.
  - discriminate.
  - configured_tac.
  - reflexivity.
  - reflexivity.
Defined.

(** alice with and without her session is given the same room. *)
Lemma X15_witness :
  option_map ConnectionDetails.roomName
    (details (fst (ConnectionDetails.POST env0 db1 2000%Z req_with_session)))
  = option_map ConnectionDetails.roomName
      (details (fst (ConnectionDetails.POST env0 db0 0%Z
                       req_without_session))).
Proof.
  destruct (fst (ConnectionDetails.POST env0 db1 2000%Z req_with_session))
    as [e1|e1|d1] eqn:E1; [vm_compute in E1; discriminate ..|].
  destruct (fst (ConnectionDetails.POST env0 db0 0%Z req_without_session))
    as [e2|e2|d2] eqn:E2; [vm_compute in E2; discriminate ..|].
  cbn [details option_map]. f_equal.
  apply (proj2 (@X15_same_room_iff_same_user env0 db1 2000%Z req_with_session
                  d1 env0 db0 0%Z req_without_session d2 E1 E2)).
  reflexivity.
Defined.

(** With her session, alice is named as her account says. *)
Lemma X16_witness :
  option_map ConnectionDetails.participantName
    (details (fst (ConnectionDetails.POST env0 db1 2000%Z req_with_session)))
  = Some (js "Alice").
Proof.
  destruct (fst (ConnectionDetails.POST env0 db1 2000%Z req_with_session))
    as [e1|e1|d1] eqn:E1; [vm_compute in E1; discriminate ..|].
  cbn [details option_map]. f_equal.
  apply (proj2 (proj2 (@X16_participant_name env0 db1 2000%Z req_with_session
                         d1 E1))
           (js "alice") (js "3f0c9a52-uuid") alice (js "Alice"));
    try reflexivity; discriminate.
Defined.

(** dave signs up alone, and twice at once. *)
Lemma X17_witness :
  NoDup (map Signup.Stored.user_id
           (snd (Signup.POST signup_rt dave_body (users srv0))))
  /\ ~ NoDup
        (map Signup.Stored.user_id
           (snd (Signup.complete signup_rt
                   (Signup.check dave_body (users srv0))
                   (snd (Signup.complete signup_rt
                           (Signup.check dave_body (users srv0))
                           (users srv0)))))).
Proof.
  split.
  - apply (proj1 (@X17_signup_user_ids_unique_unless_concurrent
                    signup_rt dave_body (users srv0))).
    vm_compute.
    repeat (constructor; [simpl; intuition discriminate|]). constructor.
  - apply (proj2 (proj2
             (proj2 (proj2 (proj2
                (@X17_signup_user_ids_unique_unless_concurrent
                   signup_rt dave_body (users srv0))))
                signup_rt dave_body (js "dave") dave_ok dave_ok
                eq_refl eq_refl eq_refl eq_refl))).
Defined.

Lemma X18_witness :
  exists answer,
    fst (Login.POST rt0 (Signup.login_body dave_body)
           (Signup.as_db []
              (snd (Signup.POST signup_rt dave_body (users srv0)))))
    = Login.Json200 answer
    /\ Login.ok_user_id answer = js "dave".
Proof.
  destruct (@X18_signup_then_login signup_rt dave_body (users srv0) dave_ok
              rt0 [] eq_refl ltac:(intros; reflexivity))
    as (answer & H1 & H2 & _).
  exists answer. rewrite H1. split; [reflexivity | exact H2].
Defined.

Lemma X19_witness :
  login_handleSubmit (js "mallory") (js "guess") Online rt0 no_items srv0
  = {| status := error (js "Login failed"); storage := no_items;
       pushed := None; server := srv0 |}.
Proof.
  apply (proj1 (X19_login_page_failure_message (js "mallory") (js "guess")
                  Online rt0 no_items srv0)).
  - reflexivity.
  - intros ok. vm_compute. discriminate.
Defined.

Lemma X20_witness :
  getItem (js "session_id")
    (storage (login_handleSubmit (js "alice") (js "secret") Online rt0
                no_items srv0))
  = Some (js "3f0c9a52-uuid").
Proof.
  apply (X20_login_page_stores_the_session (js "alice") (js "secret") rt0
           no_items srv0 (Signup.view alice_stored));
    try reflexivity; discriminate.
Defined.

(** After alice has pressed the logout button, her session is dead. *)
Lemma X21_witness :
  validate (db_of (snd (handleLogout Online 5000%Z logged_in srv1)))
           (js "3f0c9a52-uuid") (js "alice") 6000%Z = false.
Proof.
  generalize (X21_logout_button_forgets_the_login Online 5000%Z logged_in
                srv1).
  destruct (handleLogout Online 5000%Z logged_in srv1) as [[st' to] srv']
    eqn:E.
  intros (_ & _ & _ & _ & _ & _ & _ & H). cbn [snd].
  apply (H (js "3f0c9a52-uuid")).
  - reflexivity.
  - discriminate.
  - reflexivity.
  - unfold at_most_one. vm_compute. apply le_n.
Defined.

Lemma X22_witness :
  tokenSource APP_CONFIG_DEFAULTS Online env0 0%Z no_items srv0
  = Throw (js "Missing user id. Please log in first.").
Proof.
  apply (proj1 (X22_token_source_outcomes APP_CONFIG_DEFAULTS Online env0
                  0%Z no_items srv0)).
  reflexivity.
Defined.

Lemma X23_witness :
  tokenSource APP_CONFIG_DEFAULTS Online env0 0%Z devanagari_name srv0
  = Throw failed_fetching.
Proof.
  apply (X23_non_latin1_name_blocks_the_call APP_CONFIG_DEFAULTS Online env0
           0%Z devanagari_name srv0 (js "amit") [2309; 2350; 2367; 2340]%N).
  - reflexivity.
  - discriminate.
  - reflexivity.
  - apply Exists_cons_hd. reflexivity.
Defined.

Lemma X24_witness :
  exists d,
    tokenSource APP_CONFIG_DEFAULTS Online env0 2000%Z
      (storage (login_handleSubmit (js "alice") (js "secret") Online rt0
                  no_items srv0))
      (server (login_handleSubmit (js "alice") (js "secret") Online rt0
                 no_items srv0))
    = Normal d
    /\ ConnectionDetails.roomName d = js "bank_room_alice".
Proof.
  destruct (X24_login_page_then_call (js "alice") (js "secret") rt0 no_items
              srv0 (Signup.view alice_stored) APP_CONFIG_DEFAULTS env0
              2000%Z (Some (js "Alice")) []
              ltac:(discriminate) ltac:(discriminate) eq_refl eq_refl
              eq_refl ltac:(discriminate) eq_refl eq_refl eq_refl
              ltac:(configured_tac) eq_refl eq_refl)
    as (d & H1 & H2 & _).
  exists d. split; [exact H1 | exact H2].
Defined.

Lemma X25_witness :
  sessions (server (signup_handleSubmit dave_form Online signup_rt no_items
                      srv0)) = []
  /\ exists d,
       tokenSource APP_CONFIG_DEFAULTS Online env0 0%Z
         (storage (signup_handleSubmit dave_form Online signup_rt no_items
                     srv0))
         (server (signup_handleSubmit dave_form Online signup_rt no_items
                    srv0))
       = Normal d
       /\ ConnectionDetails.roomName d = js "bank_room_dave".
Proof.
  destruct (X25_signup_page_then_call_without_login dave_form signup_rt
              no_items srv0 APP_CONFIG_DEFAULTS env0 0%Z (Some (js "Dave")) []
              ltac:(discriminate) ltac:(discriminate) ltac:(discriminate)
              ltac:(vm_compute; intuition discriminate)
              eq_refl eq_refl eq_refl eq_refl ltac:(configured_tac) eq_refl)
    as (H1 & _ & d & H2 & H3 & _).
  split; [exact H1|]. exists d. split; [exact H2 | exact H3].
Defined.

(** bob, who has no name, logs in on the browser alice left her name in,
    and enters the room as Alice. *)
Lemma X26_witness :
  exists d,
    tokenSource APP_CONFIG_DEFAULTS Online env0 2000%Z
      (storage (login_handleSubmit (js "bob") (js "pw") Online rt0
                  name_left_behind srv0))
      (server (login_handleSubmit (js "bob") (js "pw") Online rt0
                 name_left_behind srv0))
    = Normal d
    /\ ConnectionDetails.identity (ConnectionDetails.participantToken d)
       = js "bob"
    /\ ConnectionDetails.participantName d = js "Alice".
Proof.
  apply (X26_stale_name_becomes_participant_name (js "bob") (js "pw") rt0
           name_left_behind srv0 (Signup.view bob_stored)
           APP_CONFIG_DEFAULTS env0 2000%Z (js "Alice") []);
    try reflexivity; try discriminate.
  - right. reflexivity.
  - configured_tac.
Defined.

Lemma X27_witness :
  getItem (js "user_id") logged_in = Some (js "alice")
  /\ auth_name alice_signed_in = getItem (js "user_name") logged_in.
Proof.
  destruct (proj2 (X27_signed_in_user_and_token_source logged_in)
              alice_signed_in eq_refl) as (H1 & H2 & _).
  split; [exact H1 | exact H2].
Defined.

(** The user [ carol], whose id begins with a space, logs in and is sent
    to the call page, where no call can start. *)
Lemma X28_witness :
  pushed (login_handleSubmit (js " carol") (js "pw") Online rt0 no_items
            srv0) = Some (js "/call")
  /\ tokenSource APP_CONFIG_DEFAULTS Online env0 2000%Z
       (storage (login_handleSubmit (js " carol") (js "pw") Online rt0
                   no_items srv0))
       (server (login_handleSubmit (js " carol") (js "pw") Online rt0
                  no_items srv0))
     = Throw failed_fetching.
Proof.
  destruct (X28_padded_user_id_cannot_start_a_call (js " carol") (js "pw")
              rt0 no_items srv0 (Signup.view carol_stored)
              APP_CONFIG_DEFAULTS Online env0 2000%Z
              ltac:(discriminate) ltac:(discriminate) eq_refl eq_refl
              ltac:(vm_compute; discriminate) ltac:(discriminate) eq_refl
              ltac:(intros []))
    as (H1 & _ & H2).
  split; [exact H1 | exact H2].
Defined.

Lemma X29_witness :
  signup_handleSubmit alice_again Online signup_rt no_items srv0
  = {| status := error (js "Signup failed"); storage := no_items;
       pushed := None; server := srv0 |}.
Proof.
  apply (proj1 (X29_signup_page_failure_message alice_again Online signup_rt
                  no_items srv0)).
  - reflexivity.
  - right. right. right. left. reflexivity.
Defined.

End WalkthroughFacts.
